(** * Gibbs-Duhem integration oracle (gdi.py): model and properties

    A shallow embedding of [gdi.py]: the cache of evaluated points
    ([database/dpdt.out]), the warm-start search, the construction of the
    two per-phase task directories, the grouped dispatch of remote jobs
    with its polling loop, and the slope returned to the ODE integrator.

    Numbers are IEEE-754 binary64 values, as numpy and Python have them:
    Rocq's primitive floats.  The file system below the output directory,
    the remote cluster and the simulation results are explicit state
    ([World]) and explicit inputs ([Env]). *)

From Stdlib Require Import List String Ascii Bool Arith ZArith Lia.
From Stdlib Require Import Floats QArith Qfield DecimalString DecimalN.
Import ListNotations.

Open Scope string_scope.
Open Scope list_scope.

(** ** Exceptions, outcomes and the state monad of the program *)

(** The Python exceptions the modelled code can raise. *)
Inductive PyExn : Type :=
| RuntimeError (msg : string)
| AssertionError
| ValueError (msg : string)
| FileNotFoundError (path : string)
| SystemExit (code : Z)
| ZeroDivisionError.

(** What a call produces: a value, an exception, or nothing yet when the
    polling loop was still waiting after the rounds it was allowed. *)
Inductive Outcome (A : Type) : Type :=
| Ret (a : A)
| Raise (e : PyExn)
| StillWaiting.

Arguments Ret {A} a.
Arguments Raise {A} e.
Arguments StillWaiting {A}.

(** ** Data model *)

Set Warnings "-inexact-float".

(** One row of [database/dpdt.out]: the four columns
    [data[ii][0]] .. [data[ii][3]]. *)
Record CacheRecord : Type := mkRecord {
  temperature : float;
  pressure : float;
  dvolume : float;
  denthalpy : float
}.

(** Modelled from the spec: the states of a remote job; [lib.RemoteJob],
    which declares [JobStatus], is not part of the sources.  The code only
    tests for [terminated] and [finished]. *)
Inductive JobStatus : Type := submitted | running | finished | terminated.

(** A remote job handle, as [_group_slurm_jobs] creates and submits it. *)
Record RemoteJob : Type := mkJob {
  job_root : string;          (* rjob.get_job_root(): remote working location *)
  job_work_path : string;     (* local root the job was created for *)
  job_tasks : list string;    (* the chunk of task names submitted together *)
  job_command : string;
  job_resources : string
}.

(** The part of [jdata] (in.json) whose values the modelled code reads;
    the remaining keys only parametrise the text of the LAMMPS input. *)
Record JData : Type := mkJData {
  phase_i_equi_conf : string;
  phase_ii_equi_conf : string;
  model : string;
  stat_skip : Z;
  stat_bsize : Z
}.

Record MData : Type := mkMData {
  machine : string;
  resources : string;
  lmp_command : string
}.

(** What [ti._compute_thermo] returns, restricted to the keys read. *)
Record Thermo : Type := mkThermo { thermo_v : float; thermo_h : float }.

(** The state the program acts on: the launch directory, the output
    directory [task_path] (into which [make_dpdt] changes) and the remote
    side.  Lists grow at their end, oldest entry first.

    The current directory of the process is not part of the state.
    [make_dpdt] changes into [task_path] (line 133) and back (line 233)
    only on the path that returns, so a raise in between leaves the
    process inside [task_path].  The model speaks of calls made from the
    launch directory: a first call, or a call that follows calls that
    returned.  It says nothing of a call made after a call that raised. *)
Record World : Type := mkWorld {
  cwd_files : list string;       (* regular files of the launch directory *)
  task_path_isdir : bool;        (* os.path.isdir(task_path) *)
  files : list string;           (* regular files below task_path *)
  in_json : option JData;        (* task_path/in.json *)
  dpdt_out : option (list CacheRecord);   (* database/dpdt.out, None if absent *)
  created : list string;         (* directories made by create_path *)
  sessions : list string;        (* machines an SSHSession was opened to *)
  jobs : list RemoteJob;         (* remote jobs submitted *)
  observed : list (string * JobStatus);   (* results of check_status, by job root *)
  cleaned : list string;         (* job roots released by rjob.clean() *)
  slept : Z                      (* seconds spent in time.sleep *)
}.

(** What the program cannot control: the cluster and the simulations. *)
Record Env : Type := mkEnv {
  remote_root : nat -> string;               (* location given to the n-th job *)
  job_status : nat -> nat -> JobStatus;      (* n-th job at its k-th check *)
  compute_thermo : string -> Z -> Z -> Z -> Thermo;   (* ti._compute_thermo *)
  get_natoms : string -> Z;                  (* lib.lammps.get_natoms *)
  load_jdata : string -> JData;              (* json.load of the PARAM file *)
  load_mdata : string -> MData               (* json.load of the MACHINE file *)
}.

Definition M (A : Type) : Type := World -> Outcome A * World.

Definition ret {A} (a : A) : M A := fun w => (Ret a, w).

Definition bind {A B} (m : M A) (k : A -> M B) : M B :=
  fun w =>
    match m w with
    | (Ret a, w') => k a w'
    | (Raise e, w') => (Raise e, w')
    | (StillWaiting, w') => (StillWaiting, w')
    end.

Definition raise {A} (e : PyExn) : M A := fun w => (Raise e, w).

Definition gets {A} (f : World -> A) : M A := fun w => (Ret (f w), w).

Definition modify (f : World -> World) : M unit := fun w => (Ret tt, f w).

(** [assert(c)] *)
Definition assert (c : bool) : M unit :=
  if c then ret tt else raise AssertionError.

Declare Scope py_scope.
Delimit Scope py_scope with py.
Notation "x <- c1 ;; c2" := (bind c1 (fun x => c2))
  (at level 100, c1 at next level, right associativity) : py_scope.
Notation "c1 ;; c2" := (bind c1 (fun _ => c2))
  (at level 100, right associativity) : py_scope.
Open Scope py_scope.

(** State updates, one per kind of effect. *)
Definition add_files (fs : list string) (w : World) : World :=
  mkWorld (cwd_files w) (task_path_isdir w) (files w ++ fs) (in_json w)
          (dpdt_out w) (created w) (sessions w) (jobs w) (observed w)
          (cleaned w) (slept w).

Definition add_created (d : string) (w : World) : World :=
  mkWorld (cwd_files w) (task_path_isdir w) (files w) (in_json w)
          (dpdt_out w) (created w ++ [d]) (sessions w) (jobs w) (observed w)
          (cleaned w) (slept w).

Definition add_session (m : string) (w : World) : World :=
  mkWorld (cwd_files w) (task_path_isdir w) (files w) (in_json w)
          (dpdt_out w) (created w) (sessions w ++ [m]) (jobs w) (observed w)
          (cleaned w) (slept w).

Definition add_job (j : RemoteJob) (w : World) : World :=
  mkWorld (cwd_files w) (task_path_isdir w) (files w) (in_json w)
          (dpdt_out w) (created w) (sessions w) (jobs w ++ [j]) (observed w)
          (cleaned w) (slept w).

Definition add_observed (o : string * JobStatus) (w : World) : World :=
  mkWorld (cwd_files w) (task_path_isdir w) (files w) (in_json w)
          (dpdt_out w) (created w) (sessions w) (jobs w) (observed w ++ [o])
          (cleaned w) (slept w).

Definition add_cleaned (r : string) (w : World) : World :=
  mkWorld (cwd_files w) (task_path_isdir w) (files w) (in_json w)
          (dpdt_out w) (created w) (sessions w) (jobs w) (observed w)
          (cleaned w ++ [r]) (slept w).

Definition add_slept (s : Z) (w : World) : World :=
  mkWorld (cwd_files w) (task_path_isdir w) (files w) (in_json w)
          (dpdt_out w) (created w) (sessions w) (jobs w) (observed w)
          (cleaned w) (slept w + s).

(** Appending one line to [database/dpdt.out]; mode ['a'] creates the file. *)
Definition append_record (r : CacheRecord) (w : World) : World :=
  mkWorld (cwd_files w) (task_path_isdir w) (files w) (in_json w)
          (Some (match dpdt_out w with
                 | None => [r]
                 | Some data => data ++ [r]
                 end))
          (created w) (sessions w) (jobs w) (observed w) (cleaned w) (slept w).

Definition set_task_path_isdir (w : World) : World :=
  mkWorld (cwd_files w) true (files w) (in_json w)
          (dpdt_out w) (created w) (sessions w) (jobs w) (observed w)
          (cleaned w) (slept w).

Definition write_in_json (j : JData) (w : World) : World :=
  mkWorld (cwd_files w) (task_path_isdir w) (files w) (Some j)
          (dpdt_out w) (created w) (sessions w) (jobs w) (observed w)
          (cleaned w) (slept w).

(** ** Paths and formatting *)

(** [os.path.join], for the relative, non-empty components the code joins. *)
Definition path_join (a b : string) : string := a ++ "/" ++ b.

Fixpoint basename_from (acc s : string) : string :=
  match s with
  | EmptyString => acc
  | String c s' =>
      if Ascii.eqb c "/" then basename_from "" s'
      else basename_from (acc ++ String c "") s'
  end.

(** [os.path.basename]: what follows the last slash. *)
Definition basename (s : string) : string := basename_from "" s.

Fixpoint zeros (n : nat) : string :=
  match n with
  | O => ""
  | S n' => String "0" (zeros n')
  end.

Definition zfill (width : nat) (digits : string) : string :=
  zeros (width - String.length digits) ++ digits.

(** ['%06d' % z]: at least six characters, the sign included. *)
Definition fmt_06d (z : Z) : string :=
  let digits := NilZero.string_of_uint (N.to_uint (Z.abs_N z)) in
  if (z <? 0)%Z then "-" ++ zfill 5 digits else zfill 6 digits.

(** ['task.%06d' % idx] below [database]. *)
Definition task_dir (idx : Z) : string :=
  path_join "database" ("task." ++ fmt_06d idx).

Definition isfile (fs : list string) (p : string) : bool :=
  existsb (String.eqb p) fs.

(** ** Numbers *)

Open Scope float_scope.

(** Modelled from the spec: [np.linalg.norm] of a single number is its
    absolute value (numpy itself is not part of the sources; the spec
    writes the test as |record - query| < tolerance).  numpy evaluates it
    as the square root of the square, which is the absolute value in
    binary64 unless the square overflows or underflows, and then still
    compares with the two tolerances as the absolute value does. *)
Definition norm (x : float) : float := abs x.

(** The arithmetic the slope formulas use, so that the same formulas can be
    read over binary64 (what the program computes) and over the rationals
    (what they mean). *)
Class SlopeArith (F : Type) : Type := {
  s_mul : F -> F -> F;
  s_div : F -> F -> F;
  s_one : F
}.

#[global] Instance float_arith : SlopeArith float :=
  {| s_mul := PrimFloat.mul; s_div := PrimFloat.div; s_one := 1 |}.

#[global] Instance Q_arith : SlopeArith Q :=
  {| s_mul := Qmult; s_div := Qdiv; s_one := 1%Q |}.

(** [dh / (x * dv) * self.ev2bar * self.pref] *)
Definition slope_t {F} `{SlopeArith F} (x dv dh ev2bar pref : F) : F :=
  s_mul (s_mul (s_div dh (s_mul x dv)) ev2bar) pref.

(** [(y * dv) / dh / self.ev2bar * (1/self.pref)], the value of the
    expression when [1/self.pref] does not raise, that is for a [pref]
    other than zero (see [python_divisor]). *)
Definition slope_p {F} `{SlopeArith F} (y dv dh ev2bar pref : F) : F :=
  s_mul (s_div (s_div (s_mul y dv) dh) ev2bar) (s_div s_one pref).

(** The two constants of [scipy.constants] the program reads; the library
    is not part of the sources, so they are inputs of [__init__]. *)
Record Constants : Type := mkConstants {
  electron_volt : float;
  angstrom : float
}.

(** CODATA 2018, as scipy 1.4 and later have them. *)
Definition scipy_constants : Constants :=
  {| electron_volt := 1.602176634e-19; angstrom := 1e-10 |}.

(** ** The cache: lookup and nearest record *)

(** The test of one row against the requested point. *)
Definition matches (temp pres : float) (r : CacheRecord) : bool :=
  (norm (temp - temperature r) <? 1e-4) &&
  (norm (pres - pressure r) <? 1e-2).

(** The loop over [range(data.shape[0])] that stops at the first match
    with [dv = data[ii][2]], [dh = data[ii][3]]. *)
Fixpoint search_record (temp pres : float) (data : list CacheRecord)
  : option (float * float) :=
  match data with
  | [] => None
  | r :: rest =>
      if matches temp pres r then Some (dvolume r, denthalpy r)
      else search_record temp pres rest
  end.

(** One of the two loops of the nearest search, started at row [ii] with
    the current [min_val] and [min_idx]; [dist_of] is the distance of a row
    along the integration axis. *)
Fixpoint scan_nearest (dist_of : CacheRecord -> float)
  (data : list CacheRecord) (ii : Z) (min_val : float) (min_idx : Z)
  : float * Z :=
  match data with
  | [] => (min_val, min_idx)
  | r :: rest =>
      let dist := dist_of r in
      if dist <? min_val
      then scan_nearest dist_of rest (ii + 1)%Z dist ii
      else scan_nearest dist_of rest (ii + 1)%Z min_val min_idx
  end.

(** [np.abs(data[ii][0] - temp)] and [np.abs(data[ii][1] - pres)]. *)
Definition dist_t (temp : float) (r : CacheRecord) : float :=
  abs (temperature r - temp).

Definition dist_p (pres : float) (r : CacheRecord) : float :=
  abs (pressure r - pres).

(** The nearest search with its final [assert(min_idx >= 0)]. *)
Definition nearest (inte_dir : string) (temp pres : float)
  (data : list CacheRecord) : M Z :=
  min_idx <-
    (if String.eqb inte_dir "t"
     then ret (snd (scan_nearest (dist_t temp) data 0%Z 1e10 (-1)%Z))
     else if String.eqb inte_dir "p"
     then ret (snd (scan_nearest (dist_p pres) data 0%Z 1e10 (-1)%Z))
     else raise (RuntimeError ("invalid inte_dir " ++ inte_dir)));;
  assert (0 <=? min_idx)%Z;;
  ret min_idx.

(** ** Building the task directories *)

(** [_make_tasks_onephase]: the two asserts, [create_path], the two links
    and the two files written.  The contents of the files are not
    modelled, only that they exist. *)
Definition _make_tasks_onephase (temp pres : float) (task_path : string)
  (jdata : JData) (conf_file graph_file : string) : M unit :=
  fs <- gets files;;
  assert (isfile fs conf_file);;
  assert (isfile fs graph_file);;
  modify (add_created task_path);;
  modify (add_files [path_join task_path "conf.lmp";
                     path_join task_path "graph.pb"]);;
  modify (add_files [path_join task_path "thermo.out"]);;
  modify (add_files [path_join task_path "in.lammps"]).

(** [shutil.copyfile] from the launch directory into the output directory. *)
Definition copyfile (src dst : string) : M unit :=
  fs <- gets cwd_files;;
  if isfile fs src then modify (add_files [dst])
  else raise (FileNotFoundError src).

(** [_setup_dpdt] *)
Definition _setup_dpdt (task_path : string) (jdata : JData) : M unit :=
  modify (add_created task_path);;
  modify set_task_path_isdir;;
  copyfile (phase_i_equi_conf jdata) "conf.0.lmp";;
  copyfile (phase_ii_equi_conf jdata) "conf.1.lmp";;
  copyfile (model jdata) "graph.pb";;
  modify (write_in_json jdata).

(** ** The dispatcher *)

Fixpoint chunks_from (fuel n : nat) (tasks : list string)
  : list (list string) :=
  match fuel with
  | O => []
  | S fuel' =>
      match tasks with
      | [] => []
      | _ => map basename (firstn n tasks)
             :: chunks_from fuel' n (skipn n tasks)
      end
  end.

(** The comprehension over [range(0, len(tasks), group_size)]: [range]
    refuses a zero step and is empty for a negative one. *)
Definition task_chunks (tasks : list string) (group_size : Z)
  : M (list (list string)) :=
  if (group_size =? 0)%Z
  then raise (ValueError "range() arg 3 must not be zero")
  else if (group_size <? 0)%Z then ret []
  else ret (chunks_from (List.length tasks) (Z.to_nat group_size) tasks).

(** The body of the first loop for one chunk: a new handle, the uploads
    and the submission.  The handle is returned with its number, counted
    over all jobs ever submitted.  The four calls of the remote-job
    interface are taken to return: an error of the transport would
    surface from here, with the earlier chunks submitted and the later
    ones not, and is outside the model. *)
Definition submit_chunk (env : Env) (resources command work_path : string)
  (chunk : list string) : M (nat * RemoteJob) :=
  n <- gets (fun w => List.length (jobs w));;
  let rjob := mkJob (remote_root env n) work_path chunk command resources in
  modify (add_job rjob);;
  ret (n, rjob).

Fixpoint submit_all (env : Env) (resources command work_path : string)
  (chunks : list (list string)) : M (list (nat * RemoteJob)) :=
  match chunks with
  | [] => ret []
  | chunk :: rest =>
      j <- submit_chunk env resources command work_path chunk;;
      js <- submit_all env resources command work_path rest;;
      ret (j :: js)
  end.

(** The files [rjob.download] brings back: every result file of every task
    of the chunk. *)
Definition downloaded (rjob : RemoteJob) (backward_task_files : list string)
  : list string :=
  flat_map (fun t =>
              map (path_join (path_join (job_work_path rjob) t))
                  backward_task_files)
           (job_tasks rjob).

(** What the polling loop does for one job in round [k].  After a
    finished status [rjob.download] and [rjob.clean] are taken to return;
    an error of the transport there is outside the model. *)
Definition check_job (env : Env) (k : nat) (backward_task_files : list string)
  (j : nat * RemoteJob) (fin : bool) : M bool :=
  if fin then ret true
  else
    let status := job_status env (fst j) k in
    modify (add_observed (job_root (snd j), status));;
    match status with
    | terminated =>
        raise (RuntimeError ("find unsuccessfully terminated job in "
                             ++ job_root (snd j)))
    | finished =>
        modify (add_files (downloaded (snd j) backward_task_files));;
        modify (add_cleaned (job_root (snd j)));;
        ret true
    | _ => ret false
    end.

(** One pass of [for idx, rjob in enumerate(job_list)]. *)
Fixpoint poll_round (env : Env) (k : nat) (backward_task_files : list string)
  (job_list : list (nat * RemoteJob)) (job_fin : list bool) : M (list bool) :=
  match job_list, job_fin with
  | j :: js, fin :: fs =>
      fin' <- check_job env k backward_task_files j fin;;
      rest <- poll_round env k backward_task_files js fs;;
      ret (fin' :: rest)
  | _, _ => ret []
  end.

(** [while not all(job_fin)], for at most [fuel] rounds, [k] rounds done. *)
Fixpoint wait_jobs (env : Env) (fuel k : nat)
  (backward_task_files : list string)
  (job_list : list (nat * RemoteJob)) (job_fin : list bool) : M unit :=
  if forallb (fun b => b) job_fin then ret tt
  else
    match fuel with
    | O => fun w => (StillWaiting, w)
    | S fuel' =>
        job_fin' <- poll_round env k backward_task_files job_list job_fin;;
        modify (add_slept 30);;
        wait_jobs env fuel' (S k) backward_task_files job_list job_fin'
    end.

(** [_group_slurm_jobs].  The uploads leave no trace in the state. *)
Definition _group_slurm_jobs (env : Env) (fuel : nat) (ssh_sess : string)
  (resources command work_path : string) (tasks : list string)
  (group_size : Z)
  (forward_common_files forward_task_files backward_task_files : list string)
  : M unit :=
  chunks <- task_chunks tasks group_size;;
  job_list <- submit_all env resources command work_path chunks;;
  wait_jobs env fuel 0 backward_task_files job_list
            (map (fun _ => false) job_list).

(** ** The evaluation: [make_dpdt] *)

(** The first block of [make_dpdt]: [counter], and the cached [(dv, dh)]
    when a row matches ([new_task] is then [False]). *)
Definition counter_of (db : option (list CacheRecord)) : Z :=
  match db with
  | None => 0%Z
  | Some data => Z.of_nat (List.length data)
  end.

Definition cached_of (temp pres : float) (db : option (list CacheRecord))
  : option (float * float) :=
  match db with
  | None => None
  | Some data => search_record temp pres data
  end.

Definition is_new_task (cached : option (float * float)) : bool :=
  match cached with
  | None => true
  | Some _ => false
  end.

(** The second block: the starting configurations of the two phases. *)
Definition starting_confs (new_task : bool) (inte_dir : string)
  (temp pres : float) (db : option (list CacheRecord)) : M (string * string) :=
  match new_task, db with
  | true, Some data =>
      min_idx <- nearest inte_dir temp pres data;;
      ret (path_join (path_join (task_dir min_idx) "0") "out.lmp",
           path_join (path_join (task_dir min_idx) "1") "out.lmp")
  | _, _ => ret ("conf.0.lmp", "conf.1.lmp")
  end.

(** The third block, when [new_task] holds: the two task directories, the
    dispatch, the reduction of the two logs and the appended row. *)
Definition run_new_task (env : Env) (fuel : nat) (temp pres : float)
  (counter : Z) (conf_0 conf_1 : string) (mdata : MData) (ssh_sess : string)
  (natoms : option (Z * Z)) : M (float * float) :=
  jd <- gets in_json;;
  jdata <- match jd with
           | Some j => ret j
           | None => raise (FileNotFoundError "in.json")
           end;;
  let work_path := task_dir counter in
  _make_tasks_onephase temp pres (path_join work_path "0") jdata
                       conf_0 "graph.pb";;
  _make_tasks_onephase temp pres (path_join work_path "1") jdata
                       conf_1 "graph.pb";;
  let command := (lmp_command mdata ++ " -i in.lammps > /dev/null")%string in
  let forward_files := ["conf.lmp"; "in.lammps"; "graph.pb"] in
  let backward_files := ["log.lammps"; "out.lmp"] in
  let run_tasks := ["0"; "1"] in
  _group_slurm_jobs env fuel ssh_sess (resources mdata) command work_path
                    run_tasks 1%Z [] forward_files backward_files;;
  let log_0 := path_join (path_join work_path "0") "log.lammps" in
  let log_1 := path_join (path_join work_path "1") "log.lammps" in
  let natoms := match natoms with
                | None => (get_natoms env "conf.0.lmp",
                           get_natoms env "conf.1.lmp")
                | Some n => n
                end in
  let t0 := compute_thermo env log_0 (fst natoms)
                           (stat_skip jdata) (stat_bsize jdata) in
  let t1 := compute_thermo env log_1 (snd natoms)
                           (stat_skip jdata) (stat_bsize jdata) in
  let dv := thermo_v t1 - thermo_v t0 in
  let dh := thermo_h t1 - thermo_h t0 in
  modify (append_record (mkRecord temp pres dv dh));;
  ret (dv, dh).

(** [make_dpdt], called from the launch directory; what [verbose] prints
    is not modelled. *)
Definition make_dpdt (env : Env) (fuel : nat) (temp pres : float)
  (inte_dir task_path : string) (mdata : MData) (ssh_sess : string)
  (natoms : option (Z * Z)) (verbose : bool) : M (float * float) :=
  isdir <- gets task_path_isdir;;
  assert isdir;;
  db <- gets dpdt_out;;
  let counter := counter_of db in
  let cached := cached_of temp pres db in
  confs <- starting_confs (is_new_task cached) inte_dir temp pres db;;
  match cached with
  | None =>
      run_new_task env fuel temp pres counter (fst confs) (snd confs)
                   mdata ssh_sess natoms
  | Some (dv, dh) => ret (dv, dh)
  end.

(** ** The oracle: [GibbsDuhemFunc] *)

Record GibbsDuhemFunc : Type := mkGibbsDuhemFunc {
  self_jdata : JData;
  self_mdata : MData;
  self_task_path : string;
  self_inte_dir : string;
  self_natoms : option (Z * Z);
  self_verbose : bool;
  self_pref : float;
  self_ssh_sess : string;
  self_ev2bar : float
}.

(** [pc.electron_volt / (pc.angstrom ** 3) * 1e-5]; the cube is written as
    a product, which at [angstrom = 1e-10] is the binary64 value [1e-30]
    that Python's power gives. *)
Definition ev2bar_of (pc : Constants) : float :=
  electron_volt pc / (angstrom pc * angstrom pc * angstrom pc) * 1e-5.

(** [GibbsDuhemFunc.__init__] *)
Definition __init__ (pc : Constants) (jdata : JData) (mdata : MData)
  (task_path inte_dir : string) (pref : float) (natoms : option (Z * Z))
  (verbose : bool) : M GibbsDuhemFunc :=
  modify (add_session (machine mdata));;
  isdir <- gets task_path_isdir;;
  (if isdir then ret tt else _setup_dpdt task_path jdata);;
  ret (mkGibbsDuhemFunc jdata mdata task_path inte_dir natoms verbose pref
                        (machine mdata) (ev2bar_of pc)).

(** The divisor of a division of one Python float by another: Python
    raises [ZeroDivisionError] at a zero divisor (of either sign), where
    binary64 division gives an infinity or a NaN.  The only such
    division of the program on a value the caller chooses is
    [1/self.pref] (line 274): [self.pref] is the Python float given to
    [__init__] ([pref = 1.0] by default).  The other divisions of the two
    slope formulas have a numpy operand ([dv] and [dh] come from
    [np.loadtxt] or from the reduction of the logs, [y] is the
    integrator's array), and numpy divides as binary64 does. *)
Definition python_divisor (d : float) : M unit :=
  if (d =? 0)%float then raise ZeroDivisionError else ret tt.

(** [GibbsDuhemFunc.__call__]: a one-element list, or Python's [None] when
    neither branch is taken.  Along ['p'] the quotient [1/self.pref] is
    evaluated after [make_dpdt] has returned. *)
Definition __call__ (env : Env) (fuel : nat) (self : GibbsDuhemFunc)
  (x y : float) : M (option (list float)) :=
  if String.eqb (self_inte_dir self) "t" then
    r <- make_dpdt env fuel x y (self_inte_dir self) (self_task_path self)
                   (self_mdata self) (self_ssh_sess self) (self_natoms self)
                   (self_verbose self);;
    ret (Some [slope_t x (fst r) (snd r) (self_ev2bar self) (self_pref self)])
  else if String.eqb (self_inte_dir self) "p" then
    r <- make_dpdt env fuel y x (self_inte_dir self) (self_task_path self)
                   (self_mdata self) (self_ssh_sess self) (self_natoms self)
                   (self_verbose self);;
    python_divisor (self_pref self);;
    ret (Some [slope_p y (fst r) (snd r) (self_ev2bar self) (self_pref self)])
  else ret None.

(** ** The command line: [_main] *)

(** The parsed arguments, for a command line that gives every option. *)
Record Args : Type := mkArgs {
  PARAM : string;
  MACHINE : string;
  arg_begin : float;
  arg_end : float;
  direction : string;
  initial_value : float;
  step_value : list float;
  abs_tol : float;
  rel_tol : float;
  water : bool;
  output : string;
  verbose : bool
}.

(** [solve_ivp] with method RK23 is outside the sources: any function
    that may call the oracle and returns [(sol.t, sol.y[0])]. *)
Definition Integrator : Type :=
  (float -> float -> M (option (list float))) ->
  float -> float -> float -> list float -> float -> float ->
  M (list float * list float).

(** [choices=['t','p']] of the [-d] option: argparse exits with status 2. *)
Definition check_direction (d : string) : M unit :=
  if existsb (String.eqb d) ["t"; "p"] then ret tt else raise (SystemExit 2).

Definition open_json {A} (load : string -> A) (path : string) : M A :=
  fs <- gets cwd_files;;
  if isfile fs path then ret (load path) else raise (FileNotFoundError path).

(** [_main], from the parsed command line to the written [pb.out]. *)
Definition _main (pc : Constants) (env : Env) (fuel : nat)
  (solve_ivp : Integrator) (args : Args) : M unit :=
  check_direction (direction args);;
  jdata <- open_json (load_jdata env) (PARAM args);;
  mdata <- open_json (load_mdata env) (MACHINE args);;
  let natoms :=
    if water args
    then Some ((get_natoms env (phase_i_equi_conf jdata) / 3)%Z,
               (get_natoms env (phase_ii_equi_conf jdata) / 3)%Z)
    else None in
  gdf <- __init__ pc jdata mdata (output args) (direction args) 1 natoms
                  (verbose args);;
  sol <- solve_ivp (__call__ env fuel gdf) (arg_begin args) (arg_end args)
                   (initial_value args) (step_value args)
                   (abs_tol args) (rel_tol args);;
  modify (add_files ["pb.out"]).

(** ** Runs of the oracle *)

Definition records (w : World) : list CacheRecord :=
  match dpdt_out w with
  | None => []
  | Some data => data
  end.

(** [run env w n w']: within one run against the cluster [env], a
    sequence of evaluations that all returned leads from [w] to [w'], and
    [n] of them found no cached row.  An evaluation that raises ends the
    integration, so it extends no run. *)
Inductive run (env : Env) : World -> nat -> World -> Prop :=
| run_start w : run env w 0 w
| run_hit w n w1 fuel temp pres inte_dir task_path mdata ssh_sess natoms
          verbose c r w2 :
    run env w n w1 ->
    cached_of temp pres (dpdt_out w1) = Some c ->
    make_dpdt env fuel temp pres inte_dir task_path mdata ssh_sess natoms
              verbose w1 = (Ret r, w2) ->
    run env w n w2
| run_miss w n w1 fuel temp pres inte_dir task_path mdata ssh_sess natoms
           verbose r w2 :
    run env w n w1 ->
    cached_of temp pres (dpdt_out w1) = None ->
    make_dpdt env fuel temp pres inte_dir task_path mdata ssh_sess natoms
              verbose w1 = (Ret r, w2) ->
    run env w (S n) w2.

(** No later row is within tolerance of an earlier one. *)
Definition distinct_points (data : list CacheRecord) : Prop :=
  forall i j ri rj,
    (i < j)%nat ->
    nth_error data i = Some ri ->
    nth_error data j = Some rj ->
    matches (temperature rj) (pressure rj) ri = false.

(** ** A cluster and a launch directory to run the model on *)

Module Demo.

Definition jdata : JData :=
  mkJData "ice.lmp" "water.lmp" "frozen_model.pb" 1000 100.

Definition mdata : MData :=
  mkMData "cluster.example.org" "1 node, 4 cores" "lmp_mpi".

(** Jobs run for one round and finish at the second check, except job
    number [bad], which is then found terminated. *)
Definition env (bad : option nat) : Env :=
  {| remote_root := fun n => ("/scratch/job." ++ fmt_06d (Z.of_nat n))%string;
     job_status := fun n k =>
       match k with
       | O => running
       | _ => match bad with
              | Some b => if Nat.eqb n b then terminated else finished
              | None => finished
              end
       end;
     compute_thermo := fun log natoms _ _ =>
       if (natoms =? 96)%Z then mkThermo 30.5 (-0.5) else mkThermo 32 (-0.25);
     get_natoms := fun conf =>
       if String.eqb conf "conf.0.lmp" then 96%Z else 128%Z;
     load_jdata := fun _ => jdata;
     load_mdata := fun _ => mdata |}.

Definition launch : World :=
  mkWorld ["in.json"; "machine.json"; "ice.lmp"; "water.lmp";
           "frozen_model.pb"]
          false [] None None [] [] [] [] [] 0.

(** The output directory as [__init__] leaves it. *)
Definition ready : World :=
  snd (__init__ scipy_constants jdata mdata "new_job" "t" 1 None false
                launch).

Definition rows (data : list CacheRecord) : World :=
  mkWorld (cwd_files ready) true (files ready) (in_json ready) (Some data)
          [] [] [] [] [] 0.

(** The state after a first evaluation at (300, 1) and after a second
    one at (340, 1), both along the temperature axis. *)
Definition after_first : World :=
  snd (make_dpdt (env None) 5 300 1 "t" "new_job" mdata
                 "cluster.example.org" None false ready).

Definition after_second : World :=
  snd (make_dpdt (env None) 5 340 1 "t" "new_job" mdata
                 "cluster.example.org" None false after_first).

(** An integrator that asks for the slope once, at the start. *)
Definition one_step : Integrator :=
  fun f t0 t1 y0 t_eval atol rtol =>
    s <- f t0 y0;;
    ret ([t0], [y0]).

Definition args (d : string) : Args :=
  mkArgs "in.json" "machine.json" 300 400 d 1 [300; 400] 10 1e-2 false
         "new_job" false.

Definition oracle (inte_dir : string) : GibbsDuhemFunc :=
  mkGibbsDuhemFunc jdata mdata "new_job" inte_dir None false 1
                   "cluster.example.org" (ev2bar_of scipy_constants).

End Demo.

(** The distance the nearest search uses for the direction given. *)
Definition axis_dist (inte_dir : string) (temp pres : float)
  : CacheRecord -> float :=
  if String.eqb inte_dir "t" then dist_t temp else dist_p pres.

(** The two starting configurations taken from task [idx]. *)
Definition warm_confs (idx : Z) : string * string :=
  (path_join (path_join (task_dir idx) "0") "out.lmp",
   path_join (path_join (task_dir idx) "1") "out.lmp").

(** What the polling loop never touches. *)
Definition same_outside_polling (w w' : World) : Prop :=
  cwd_files w' = cwd_files w /\
  task_path_isdir w' = task_path_isdir w /\
  in_json w' = in_json w /\
  dpdt_out w' = dpdt_out w /\
  created w' = created w /\
  sessions w' = sessions w /\
  jobs w' = jobs w.

Definition no_terminated (obs : list (string * JobStatus)) : Prop :=
  forall r, ~ In (r, terminated) obs.

(** The error raised for a job found terminated at location [r]. *)
Definition terminated_error (r : string) : PyExn :=
  RuntimeError ("find unsuccessfully terminated job in " ++ r).

(** What a polling computation over jobs at the locations [roots] may do:
    it leaves the rest of the state alone, it observes only those jobs, and
    the statuses it observes either contain no [terminated] and it does
    not raise, or end with the first [terminated], for whose location it
    raises. *)
Definition poll_post {A} (roots : list string) (w : World)
  (res : Outcome A * World) : Prop :=
  same_outside_polling w (snd res) /\
  exists obs,
    observed (snd res) = observed w ++ obs /\
    (forall r s, In (r, s) obs -> In r roots) /\
    ((no_terminated obs /\ forall e, fst res <> Raise e) \/
     (exists obs0 r,
         obs = obs0 ++ [(r, terminated)] /\
         no_terminated obs0 /\
         fst res = Raise (terminated_error r))).

(** The two jobs a new evaluation submits, numbered from [n]. *)
Definition phase_jobs (env : Env) (mdata : MData) (counter : Z) (n : nat)
  : list RemoteJob :=
  [mkJob (remote_root env n) (task_dir counter) ["0"]
         (lmp_command mdata ++ " -i in.lammps > /dev/null")%string
         (resources mdata);
   mkJob (remote_root env (S n)) (task_dir counter) ["1"]
         (lmp_command mdata ++ " -i in.lammps > /dev/null")%string
         (resources mdata)].

(** The state one successful call of [_make_tasks_onephase] leaves. *)
Definition built (task_path : string) (w : World) : World :=
  add_files [path_join task_path "in.lammps"]
    (add_files [path_join task_path "thermo.out"]
       (add_files [path_join task_path "conf.lmp";
                   path_join task_path "graph.pb"]
          (add_created task_path w))).

(** The state of a new evaluation when its polling loop starts: both task
    directories built and both jobs submitted. *)
Definition staged (env : Env) (mdata : MData) (counter : Z) (w : World)
  : World :=
  fold_left (fun w' j => add_job j w')
            (phase_jobs env mdata counter (List.length (jobs w)))
            (built (path_join (task_dir counter) "1")
                   (built (path_join (task_dir counter) "0") w)).

(** The jobs of a new evaluation with their numbers, as the polling loop
    receives them. *)
Definition phase_job_list (env : Env) (mdata : MData) (counter : Z)
  (n : nat) : list (nat * RemoteJob) :=
  combine [n; S n] (phase_jobs env mdata counter n).

(** The row a new evaluation appends, from the two reduced logs. *)
Definition new_record (env : Env) (temp pres : float) (counter : Z)
  (jdata : JData) (natoms : option (Z * Z)) : CacheRecord :=
  let work_path := task_dir counter in
  let natoms := match natoms with
                | None => (get_natoms env "conf.0.lmp",
                           get_natoms env "conf.1.lmp")
                | Some n => n
                end in
  let t0 := compute_thermo env
              (path_join (path_join work_path "0") "log.lammps")
              (fst natoms) (stat_skip jdata) (stat_bsize jdata) in
  let t1 := compute_thermo env
              (path_join (path_join work_path "1") "log.lammps")
              (snd natoms) (stat_skip jdata) (stat_bsize jdata) in
  mkRecord temp pres (thermo_v t1 - thermo_v t0) (thermo_h t1 - thermo_h t0).

(** From check [k] on, within [B] checks, the job is seen finished without
    having been seen terminated before (or it is already marked done). *)
Definition finishes_by (env : Env) (k B : nat) (j : nat * RemoteJob)
  (fin : bool) : Prop :=
  fin = true \/
  exists K,
    (k <= K < k + B)%nat /\
    job_status env (fst j) K = finished /\
    forall k', (k <= k' < K)%nat -> job_status env (fst j) k' <> terminated.

(** The job handles the first loop of [_group_slurm_jobs] makes for the
    chunks, the first one numbered [n]. *)
Fixpoint jobs_for (env : Env) (resources command work_path : string)
  (n : nat) (chunks : list (list string)) : list RemoteJob :=
  match chunks with
  | [] => []
  | chunk :: rest =>
      mkJob (remote_root env n) work_path chunk command resources
      :: jobs_for env resources command work_path (S n) rest
  end.

Definition is_finished (s : JobStatus) : bool :=
  match s with
  | finished => true
  | _ => false
  end.

(** The locations that a list of observations shows finished, in order. *)
Definition finished_roots (obs : list (string * JobStatus)) : list string :=
  map fst (filter (fun o => is_finished (snd o)) obs).

(** A job marked done has been released and its result files are there. *)
Definition done_in (backward_task_files : list string) (w : World)
  (j : nat * RemoteJob) (fin : bool) : Prop :=
  fin = true ->
  In (job_root (snd j)) (cleaned w) /\
  incl (downloaded (snd j) backward_task_files) (files w).

Fixpoint count_true (l : list bool) : nat :=
  match l with
  | [] => O
  | b :: l' => (if b then 1 else 0) + count_true l'
  end.

(** What polling does to the log of released jobs: it grows by the
    locations it has observed finished, in the order of the observations. *)
Definition release_post {A} (w : World) (res : Outcome A * World) : Prop :=
  exists obs,
    observed (snd res) = observed w ++ obs /\
    cleaned (snd res) = cleaned w ++ finished_roots obs.

(** The files one call of [_make_tasks_onephase] leaves in [task_path]. *)
Definition task_files (task_path : string) : list string :=
  [path_join task_path "conf.lmp"; path_join task_path "graph.pb";
   path_join task_path "thermo.out"; path_join task_path "in.lammps"].

(** The output directory as [_setup_dpdt] has made it before it copies. *)
Definition fresh_dir (task_path : string) (mdata : MData) (w : World)
  : World :=
  set_task_path_isdir (add_created task_path (add_session (machine mdata) w)).

(** The oracle [__init__] returns. *)
Definition new_oracle (pc : Constants) (jdata : JData) (mdata : MData)
  (task_path inte_dir : string) (pref : float) (natoms : option (Z * Z))
  (verbose : bool) : GibbsDuhemFunc :=
  mkGibbsDuhemFunc jdata mdata task_path inte_dir natoms verbose pref
                   (machine mdata) (ev2bar_of pc).

(** Reading a task index back from the digits of a directory name. *)
Definition parse_index (digits : string) : option N :=
  option_map N.of_uint (NilEmpty.uint_of_string digits).

(** Every row of the cache has the final configurations of its task. *)
Definition warm_files_ok (w : World) : Prop :=
  forall k,
    (k < List.length (records w))%nat ->
    isfile (files w) (fst (warm_confs (Z.of_nat k))) = true /\
    isfile (files w) (snd (warm_confs (Z.of_nat k))) = true.

(** The two task directories of the evaluations numbered [m], ..., [m+n-1]. *)
Definition task_dirs_of (m n : nat) : list string :=
  flat_map (fun k => [path_join (task_dir (Z.of_nat k)) "0";
                      path_join (task_dir (Z.of_nat k)) "1"])
           (seq m n).

(** * Properties *)

(** ** Order facts of binary64 comparisons

    [<?] and [=?] on floats are specified through [SFcompare] on the
    decoded values; a NaN compares with nothing. *)

Section FloatOrder.

Ltac cmp_cases :=
  repeat match goal with
  | H : context [Pos.compare_cont Eq ?a ?b] |- _ =>
      change (Pos.compare_cont Eq a b) with (Pos.compare a b) in H
  | |- context [Pos.compare_cont Eq ?a ?b] =>
      change (Pos.compare_cont Eq a b) with (Pos.compare a b)
  end;
  repeat match goal with
  | H : context [Z.compare ?a ?b] |- _ => destruct (Z.compare_spec a b)
  | |- context [Z.compare ?a ?b] => destruct (Z.compare_spec a b)
  | H : context [Pos.compare ?a ?b] |- _ => destruct (Pos.compare_spec a b)
  | |- context [Pos.compare ?a ?b] => destruct (Pos.compare_spec a b)
  end;
  simpl in *; try congruence; try lia.

Ltac by_float_cases3 a b c :=
  destruct a as [[]|[]| |[] ? ?], b as [[]|[]| |[] ? ?],
           c as [[]|[]| |[] ? ?];
  simpl; try congruence; intros; cmp_cases.

Lemma SFcompare_Lt_trans (a b c : spec_float) :
  SFcompare a b = Some Lt -> SFcompare b c = Some Lt ->
  SFcompare a c = Some Lt.
Proof. by_float_cases3 a b c. Qed.

Lemma SFcompare_Eq_Lt (a b c : spec_float) :
  SFcompare a b = Some Eq -> SFcompare b c = Some Lt ->
  SFcompare a c = Some Lt.
Proof. by_float_cases3 a b c. Qed.

Lemma SFcompare_Lt_irrefl (a : spec_float) : SFcompare a a <> Some Lt.
Proof.
  destruct a as [[]|[]| |[] m e]; simpl; try congruence;
    rewrite Z.compare_refl;
    change (Pos.compare_cont Eq m m) with (Pos.compare m m);
    rewrite Pos.compare_refl; simpl; congruence.
Qed.

Lemma SFcompare_total (a b : spec_float) :
  a <> S754_nan -> b <> S754_nan ->
  SFcompare a b <> Some Lt ->
  SFcompare b a = Some Lt \/ SFcompare b a = Some Eq.
Proof.
  destruct a as [[]|[]| |[] ma ea], b as [[]|[]| |[] mb eb];
    simpl; try congruence; intros H1 H2 H3;
    try (now left); try (now right); cmp_cases;
    try (now left); try (now right).
Qed.

Lemma ltb_true_iff (a b : float) :
  (a <? b) = true <-> SFcompare (Prim2SF a) (Prim2SF b) = Some Lt.
Proof.
  rewrite ltb_spec. unfold SFltb.
  destruct (SFcompare (Prim2SF a) (Prim2SF b)) as [[]|];
    split; congruence.
Qed.

Lemma eqb_true_iff (a b : float) :
  (a =? b) = true <-> SFcompare (Prim2SF a) (Prim2SF b) = Some Eq.
Proof.
  rewrite FloatAxioms.eqb_spec. unfold SFeqb.
  destruct (SFcompare (Prim2SF a) (Prim2SF b)) as [[]|];
    split; congruence.
Qed.

Lemma leb_true_iff (a b : float) :
  (a <=? b) = true <->
  SFcompare (Prim2SF a) (Prim2SF b) = Some Lt \/
  SFcompare (Prim2SF a) (Prim2SF b) = Some Eq.
Proof.
  rewrite leb_spec. unfold SFleb.
  destruct (SFcompare (Prim2SF a) (Prim2SF b)) as [[]|];
    split; intros; try congruence; auto; destruct H; congruence.
Qed.

Lemma ltb_trans (a b c : float) :
  (a <? b) = true -> (b <? c) = true -> (a <? c) = true.
Proof. rewrite !ltb_true_iff. apply SFcompare_Lt_trans. Qed.

Lemma ltb_irrefl (a : float) : (a <? a) = false.
Proof.
  destruct (a <? a) eqn:E; [|reflexivity].
  apply ltb_true_iff in E. now apply SFcompare_Lt_irrefl in E.
Qed.

Lemma eqb_ltb_trans (a b c : float) :
  (a =? b) = true -> (b <? c) = true -> (a <? c) = true.
Proof. rewrite eqb_true_iff, !ltb_true_iff. apply SFcompare_Eq_Lt. Qed.

Lemma ltb_asym (a b : float) : (a <? b) = true -> (b <? a) = false.
Proof.
  intros H. destruct (b <? a) eqn:E; [|reflexivity].
  rewrite <- (ltb_irrefl a). symmetry. now apply ltb_trans with b.
Qed.

Lemma ltb_not_eqb (a b : float) : (a <? b) = true -> (b =? a) = false.
Proof.
  intros H. destruct (b =? a) eqn:E; [|reflexivity].
  rewrite <- (ltb_irrefl b). symmetry. now apply eqb_ltb_trans with a.
Qed.

Lemma is_nan_false_iff (a : float) :
  is_nan a = false <-> Prim2SF a <> S754_nan.
Proof.
  unfold is_nan. rewrite FloatAxioms.eqb_spec. unfold SFeqb.
  destruct (Prim2SF a) as [[]|[]| |[] m e]; simpl;
    try (split; congruence);
    rewrite Z.compare_refl;
    change (Pos.compare_cont Eq m m) with (Pos.compare m m);
    rewrite Pos.compare_refl; simpl; split; congruence.
Qed.

Lemma ltb_not_nan_l (a b : float) : (a <? b) = true -> is_nan a = false.
Proof.
  rewrite ltb_true_iff, is_nan_false_iff.
  destruct (Prim2SF a) as [[]|[]| |[] m e]; simpl; congruence.
Qed.

(** Without NaN, "not below" is "at least". *)
Lemma not_ltb_leb (a b : float) :
  is_nan a = false -> is_nan b = false ->
  (a <? b) = false -> (b <=? a) = true.
Proof.
  rewrite !is_nan_false_iff. intros Ha Hb H.
  apply leb_true_iff. apply SFcompare_total; trivial.
  intros E. apply ltb_true_iff in E. congruence.
Qed.

(** A finite number minus itself is zero. *)
Lemma abs_sub_diag (p : float) :
  is_finite p = true -> Prim2SF (abs (p - p)) = S754_zero false.
Proof.
  intros Hf. rewrite abs_spec, sub_spec.
  unfold is_finite, is_nan, is_infinity in Hf.
  rewrite !FloatAxioms.eqb_spec, abs_spec in Hf.
  destruct (Prim2SF p) as [[]|[]| |[] m e] eqn:E; try reflexivity;
    try (vm_compute in Hf; discriminate);
    unfold SF64sub, SFsub; rewrite Z.sub_diag; reflexivity.
Qed.

Lemma sub_diag_within (p : float) :
  is_finite p = true -> (norm (p - p) <? 1e-2) = true.
Proof.
  intros Hf. unfold norm. rewrite ltb_spec, (abs_sub_diag p Hf).
  vm_compute. reflexivity.
Qed.

End FloatOrder.

(** ** The cache lookup *)

Section Lookup.

Variables temp pres : float.

Lemma matches_iff (r : CacheRecord) :
  matches temp pres r = true <->
  (abs (temp - temperature r) <? 1e-4) = true /\
  (abs (pres - pressure r) <? 1e-2) = true.
Proof. unfold matches, norm. apply andb_true_iff. Qed.

(** The scan is [find] on the rows, projected on the last two columns. *)
Lemma search_record_find (data : list CacheRecord) :
  search_record temp pres data =
  option_map (fun r => (dvolume r, denthalpy r))
             (find (matches temp pres) data).
Proof.
  induction data as [|r rest IH]; simpl; [reflexivity|].
  destruct (matches temp pres r); [reflexivity|exact IH].
Qed.

Lemma search_record_Some (data : list CacheRecord) (dv dh : float) :
  search_record temp pres data = Some (dv, dh) <->
  exists i r,
    nth_error data i = Some r /\
    matches temp pres r = true /\
    (forall j r', (j < i)%nat -> nth_error data j = Some r' ->
                  matches temp pres r' = false) /\
    dv = dvolume r /\ dh = denthalpy r.
Proof.
  induction data as [|r rest IH]; simpl.
  - split; [discriminate|]. intros (i & r & H & _). now destruct i.
  - destruct (matches temp pres r) eqn:Hm.
    + split.
      * intros E. injection E as <- <-. exists 0%nat, r.
        repeat split; trivial. intros j r' Hj. lia.
      * intros (i & r0 & Hi & Hm0 & Hfirst & -> & ->).
        destruct i as [|i]; simpl in Hi.
        -- now injection Hi as <-.
        -- specialize (Hfirst 0%nat r (Nat.lt_0_succ i) eq_refl).
           congruence.
    + rewrite IH. split.
      * intros (i & r0 & Hi & Hm0 & Hfirst & Hdv & Hdh).
        exists (S i), r0. repeat split; trivial.
        intros [|j] r' Hj Hn; simpl in Hn.
        -- now injection Hn as <-.
        -- apply (Hfirst j); [lia|exact Hn].
      * intros (i & r0 & Hi & Hm0 & Hfirst & Hdv & Hdh).
        destruct i as [|i]; simpl in Hi.
        -- injection Hi as <-. congruence.
        -- exists i, r0. repeat split; trivial.
           intros j r' Hj Hn. apply (Hfirst (S j)); [lia|exact Hn].
Qed.

Lemma search_record_None (data : list CacheRecord) :
  search_record temp pres data = None <->
  forall r, In r data -> matches temp pres r = false.
Proof.
  induction data as [|r rest IH]; simpl.
  - split; [intros _ r []|reflexivity].
  - destruct (matches temp pres r) eqn:Hm.
    + split; [discriminate|]. intros H.
      specialize (H r (or_introl eq_refl)). congruence.
    + rewrite IH. split.
      * intros H r' [<-|Hin]; auto.
      * intros H r' Hin. apply H. now right.
Qed.

Lemma search_record_hit (data : list CacheRecord) (r : CacheRecord) :
  In r data -> matches temp pres r = true ->
  exists r0, find (matches temp pres) data = Some r0 /\
             search_record temp pres data = Some (dvolume r0, denthalpy r0).
Proof.
  intros Hin Hm. rewrite search_record_find.
  destruct (find (matches temp pres) data) as [r0|] eqn:E.
  - now exists r0.
  - apply (find_none _ _ E) in Hin. congruence.
Qed.

End Lookup.

(** C2. The cache lookup hits exactly when some stored row [r] satisfies
    |temp - r.temperature| < 1e-4 and |pres - r.pressure| < 1e-2, and it then
    returns the last two columns of the first such row in insertion order;
    it misses exactly when no row satisfies the test.  With a row at
    temperature 300, a query at 300.00005 and the row's own (finite)
    pressure hits, and a query at 300.001 misses. *)
Theorem lookup_tolerance_semantics (temp pres : float)
  (data : list CacheRecord) :
  (forall dv dh,
      search_record temp pres data = Some (dv, dh) <->
      exists i r,
        nth_error data i = Some r /\
        ((abs (temp - temperature r) <? 1e-4) = true /\
         (abs (pres - pressure r) <? 1e-2) = true) /\
        (forall j r', (j < i)%nat -> nth_error data j = Some r' ->
           ~ ((abs (temp - temperature r') <? 1e-4) = true /\
              (abs (pres - pressure r') <? 1e-2) = true)) /\
        dv = dvolume r /\ dh = denthalpy r) /\
  (search_record temp pres data = None <->
   forall r, In r data ->
     ~ ((abs (temp - temperature r) <? 1e-4) = true /\
        (abs (pres - pressure r) <? 1e-2) = true)) /\
  (forall p dv dh,
      is_finite p = true ->
      search_record 300.00005 p [mkRecord 300 p dv dh] = Some (dv, dh) /\
      search_record 300.001 p [mkRecord 300 p dv dh] = None).
Proof.
  assert (Hneg : forall t p r,
             matches t p r = false <->
             ~ ((abs (t - temperature r) <? 1e-4) = true /\
                (abs (p - pressure r) <? 1e-2) = true)).
  { intros t p r. rewrite <- matches_iff.
    destruct (matches t p r); split; congruence. }
  split; [|split].
  - intros dv dh. rewrite search_record_Some. split.
    + intros (i & r & Hi & Hm & Hfirst & Hv).
      exists i, r. rewrite <- matches_iff. repeat split; try tauto.
      intros j r' Hj Hn. apply Hneg. now apply (Hfirst j).
    + intros (i & r & Hi & Hm & Hfirst & Hv).
      exists i, r. rewrite matches_iff. repeat split; try tauto.
      intros j r' Hj Hn. apply Hneg. now apply (Hfirst j).
  - rewrite search_record_None. split; intros H r Hin; apply Hneg; auto.
  - intros p dv dh Hp. simpl. unfold matches; simpl.
    rewrite (sub_diag_within p Hp). split; reflexivity.
Qed.

(** ** Cache hits *)

(** Unfolds the monad so that a computation on a given world reduces. *)
Ltac run_monad :=
  unfold bind, gets, modify, assert, ret, raise in *; simpl in *.

Lemma make_dpdt_hit (env : Env) (fuel : nat) (temp pres : float)
  (inte_dir task_path : string) (mdata : MData) (ssh_sess : string)
  (natoms : option (Z * Z)) (verbose : bool) (w : World) (c : float * float) :
  task_path_isdir w = true ->
  cached_of temp pres (dpdt_out w) = Some c ->
  make_dpdt env fuel temp pres inte_dir task_path mdata ssh_sess natoms
            verbose w = (Ret c, w).
Proof.
  intros Hdir Hc. unfold make_dpdt. run_monad. rewrite Hdir, Hc. simpl.
  unfold starting_confs; simpl.
  destruct (dpdt_out w); destruct c; reflexivity.
Qed.

(** C1. When the requested point is within tolerance of a stored row, an
    oracle call leaves the whole state as it was: no task directory is
    created, no job is submitted, nothing is appended to the cache.
    [make_dpdt] returns the two differences of the first matching row and
    [__call__] the slope computed from them; along ['p'] with a zero
    [pref] the quotient [1/self.pref] raises instead, the state being
    as it was all the same. *)
Theorem cache_hit_no_dispatch (env : Env) (fuel : nat)
  (self : GibbsDuhemFunc) (x y temp pres : float) (w : World)
  (r : CacheRecord) :
  task_path_isdir w = true ->
  (self_inte_dir self = "t" /\ temp = x /\ pres = y) \/
  (self_inte_dir self = "p" /\ temp = y /\ pres = x) ->
  In r (records w) ->
  matches temp pres r = true ->
  exists r0,
    find (matches temp pres) (records w) = Some r0 /\
    make_dpdt env fuel temp pres (self_inte_dir self) (self_task_path self)
              (self_mdata self) (self_ssh_sess self) (self_natoms self)
              (self_verbose self) w
    = (Ret (dvolume r0, denthalpy r0), w) /\
    __call__ env fuel self x y w
    = (if String.eqb (self_inte_dir self) "t"
       then Ret (Some [denthalpy r0 / (x * dvolume r0)
                       * self_ev2bar self * self_pref self])
       else if (self_pref self =? 0)%float
            then Raise ZeroDivisionError
            else Ret (Some [(y * dvolume r0) / denthalpy r0
                            / self_ev2bar self * (1 / self_pref self)]),
       w).
Proof.
  intros Hdir Hax Hin Hm.
  destruct (search_record_hit temp pres (records w) r Hin Hm)
    as (r0 & Hfind & Hs).
  assert (Hc : cached_of temp pres (dpdt_out w)
               = Some (dvolume r0, denthalpy r0)).
  { unfold cached_of, records in *. destruct (dpdt_out w); [exact Hs|].
    destruct Hin. }
  exists r0. split; [exact Hfind|]. split.
  - now apply make_dpdt_hit.
  - unfold __call__.
    destruct Hax as [(Hd & -> & ->)|(Hd & -> & ->)]; rewrite Hd; simpl;
      unfold bind;
      rewrite (make_dpdt_hit env fuel _ _ _ _ _ _ _ _ w _ Hdir Hc);
      [reflexivity|].
    unfold python_divisor.
    destruct (self_pref self =? 0)%float; reflexivity.
Qed.

(** An instance: a row at (300, 1) and the query (300.00005, 1). *)
Lemma cache_hit_no_dispatch_witness :
  exists r0,
    find (matches 300.00005 1) (records (Demo.rows [mkRecord 300 1 1.5 0.25]))
    = Some r0 /\
    make_dpdt (Demo.env None) 5 300.00005 1 "t" "new_job" Demo.mdata
              "cluster.example.org" None false
              (Demo.rows [mkRecord 300 1 1.5 0.25])
    = (Ret (dvolume r0, denthalpy r0), Demo.rows [mkRecord 300 1 1.5 0.25]) /\
    __call__ (Demo.env None) 5 (Demo.oracle "t") 300.00005 1
             (Demo.rows [mkRecord 300 1 1.5 0.25])
    = (Ret (Some [denthalpy r0 / (300.00005 * dvolume r0)
                  * ev2bar_of scipy_constants * 1]),
       Demo.rows [mkRecord 300 1 1.5 0.25]).
Proof.
  apply (cache_hit_no_dispatch (Demo.env None) 5 (Demo.oracle "t")
           300.00005 1 300.00005 1 (Demo.rows [mkRecord 300 1 1.5 0.25])
           (mkRecord 300 1 1.5 0.25)).
  - reflexivity.
  - left. repeat split; reflexivity.
  - simpl. left. reflexivity.
  - reflexivity.
Defined.

(** ** The nearest search *)

Section Nearest.

Variable dist_of : CacheRecord -> float.

(** Either no row improves on the starting minimum, or the result is the
    first row among those no other row is strictly closer than. *)
Lemma scan_nearest_spec (data : list CacheRecord) :
  forall (ii : Z) (mv : float) (mi : Z),
    (scan_nearest dist_of data ii mv mi = (mv, mi) /\
     forall r, In r data -> (dist_of r <? mv) = false)
    \/
    (exists k r,
        nth_error data k = Some r /\
        scan_nearest dist_of data ii mv mi
        = (dist_of r, (ii + Z.of_nat k)%Z) /\
        (dist_of r <? mv) = true /\
        (forall r', In r' data -> (dist_of r' <? dist_of r) = false) /\
        (forall j r', (j < k)%nat -> nth_error data j = Some r' ->
                      (dist_of r' =? dist_of r) = false)).
Proof.
  induction data as [|r0 rest IH]; intros ii mv mi; simpl.
  - left. split; [reflexivity|]. intros r [].
  - destruct (dist_of r0 <? mv) eqn:Hlt.
    + right.
      destruct (IH (ii + 1)%Z (dist_of r0) ii)
        as [(Hres & Hnone)|(k & r & Hk & Hres & Hbelow & Hmin & Hties)].
      * exists 0%nat, r0. simpl. rewrite Z.add_0_r.
        repeat split; trivial.
        -- intros r' [<-|Hin]; [apply ltb_irrefl|now apply Hnone].
        -- intros j r' Hj. lia.
      * exists (S k), r. simpl.
        replace (ii + Z.pos (Pos.of_succ_nat k))%Z
          with (ii + 1 + Z.of_nat k)%Z by lia.
        repeat split; trivial.
        -- now apply ltb_trans with (dist_of r0).
        -- intros r' [<-|Hin]; [now apply ltb_asym|now apply Hmin].
        -- intros [|j] r' Hj Hn; simpl in Hn.
           ++ injection Hn as <-. now apply ltb_not_eqb.
           ++ apply (Hties j); [lia|exact Hn].
    + destruct (IH (ii + 1)%Z mv mi)
        as [(Hres & Hnone)|(k & r & Hk & Hres & Hbelow & Hmin & Hties)].
      * left. split; [exact Hres|].
        intros r' [<-|Hin]; [exact Hlt|now apply Hnone].
      * right. exists (S k), r. simpl.
        replace (ii + Z.pos (Pos.of_succ_nat k))%Z
          with (ii + 1 + Z.of_nat k)%Z by lia.
        repeat split; trivial.
        -- intros r' [<-|Hin]; [|now apply Hmin].
           destruct (dist_of r0 <? dist_of r) eqn:E; [|reflexivity].
           rewrite <- Hlt. symmetry. now apply ltb_trans with (dist_of r).
        -- intros [|j] r' Hj Hn; simpl in Hn.
           ++ injection Hn as <-.
              destruct (dist_of r0 =? dist_of r) eqn:E; [|reflexivity].
              rewrite <- Hlt. symmetry.
              now apply eqb_ltb_trans with (dist_of r).
           ++ apply (Hties j); [lia|exact Hn].
Qed.

End Nearest.

(** What a returned index of [nearest] is. *)
Lemma nearest_Ret (inte_dir : string) (temp pres : float)
  (data : list CacheRecord) (w w' : World) (i : Z) :
  inte_dir = "t" \/ inte_dir = "p" ->
  nearest inte_dir temp pres data w = (Ret i, w') ->
  w' = w /\
  exists k r,
    i = Z.of_nat k /\ nth_error data k = Some r /\
    (axis_dist inte_dir temp pres r <? 1e10) = true /\
    (forall r', In r' data ->
       (axis_dist inte_dir temp pres r' <? axis_dist inte_dir temp pres r)
       = false) /\
    (forall j r', (j < k)%nat -> nth_error data j = Some r' ->
       (axis_dist inte_dir temp pres r' =? axis_dist inte_dir temp pres r)
       = false).
Proof.
  intros Hdir. unfold nearest, axis_dist.
  assert (Hscan : forall d,
    (0 <=? snd (scan_nearest d data 0%Z 1e10 (-1)%Z))%Z = true ->
    exists k r,
      snd (scan_nearest d data 0%Z 1e10 (-1)%Z) = Z.of_nat k /\
      nth_error data k = Some r /\
      (d r <? 1e10) = true /\
      (forall r', In r' data -> (d r' <? d r) = false) /\
      (forall j r', (j < k)%nat -> nth_error data j = Some r' ->
                    (d r' =? d r) = false)).
  { intros d.
    destruct (scan_nearest_spec d data 0%Z 1e10 (-1)%Z)
      as [(Hres & _)|(k & r & Hk & Hres & Hbelow & Hmin & Hties)];
      rewrite Hres; simpl.
    - discriminate.
    - intros _. exists k, r. repeat split; trivial. }
  destruct Hdir as [-> | ->]; simpl; run_monad;
    match goal with
    | |- context [(0 <=? ?idx)%Z] =>
        destruct (0 <=? idx)%Z eqn:E; simpl; [|discriminate]
    end;
    intros H; injection H as <- <-; (split; [reflexivity|]);
    now apply Hscan.
Qed.

(** [nearest] returns as soon as one row is below the starting minimum. *)
Lemma nearest_total (inte_dir : string) (temp pres : float)
  (data : list CacheRecord) (w : World) (r : CacheRecord) :
  inte_dir = "t" \/ inte_dir = "p" ->
  In r data ->
  (axis_dist inte_dir temp pres r <? 1e10) = true ->
  exists i, nearest inte_dir temp pres data w = (Ret i, w).
Proof.
  intros Hdir Hin Hr. unfold nearest, axis_dist in *.
  assert (Hscan : forall d, (d r <? 1e10) = true ->
    exists k, snd (scan_nearest d data 0%Z 1e10 (-1)%Z) = Z.of_nat k).
  { intros d Hd.
    destruct (scan_nearest_spec d data 0%Z 1e10 (-1)%Z)
      as [(_ & Hnone)|(k & r1 & _ & Hres & _)].
    - rewrite (Hnone r Hin) in Hd. discriminate.
    - exists k. now rewrite Hres. }
  destruct Hdir as [-> | ->]; simpl in *;
    destruct (Hscan _ Hr) as (k & Hk); exists (Z.of_nat k);
    run_monad; rewrite Hk;
    replace (0 <=? Z.of_nat k)%Z with true
      by (symmetry; apply Z.leb_le; lia);
    reflexivity.
Qed.

(** C5. On a cache miss with a cache file present, whenever the search
    for a warm start returns, the configurations it names are those of a
    stored row that no other row is strictly closer to along the
    integration axis (temperature for ['t'], pressure for ['p']): its
    distance is at most that of every row whose distance is a number.  The
    search returns as soon as one row lies nearer than the starting minimum
    [1e10].  With rows at temperatures 300, 350 and 400 and direction
    ['t'], a query at 340 selects the row at 350 (index 1). *)
Theorem warm_start_is_nearest (inte_dir : string) (temp pres : float)
  (data : list CacheRecord) (w : World) :
  inte_dir = "t" \/ inte_dir = "p" ->
  (forall confs w',
      starting_confs true inte_dir temp pres (Some data) w = (Ret confs, w') ->
      exists k r,
        nth_error data k = Some r /\
        confs = warm_confs (Z.of_nat k) /\
        w' = w /\
        forall r', In r' data ->
          if String.eqb inte_dir "t"
          then (abs (temperature r' - temp) <? abs (temperature r - temp))
               = false /\
               (is_nan (abs (temperature r' - temp)) = false ->
                (abs (temperature r - temp) <=? abs (temperature r' - temp))
                = true)
          else (abs (pressure r' - pres) <? abs (pressure r - pres))
               = false /\
               (is_nan (abs (pressure r' - pres)) = false ->
                (abs (pressure r - pres) <=? abs (pressure r' - pres))
                = true)) /\
  (forall r,
      In r data ->
      (axis_dist inte_dir temp pres r <? 1e10) = true ->
      exists confs,
        starting_confs true inte_dir temp pres (Some data) w = (Ret confs, w)) /\
  (forall p0 p1 p2 v0 v1 v2 h0 h1 h2,
      starting_confs true "t" 340 pres
        (Some [mkRecord 300 p0 v0 h0; mkRecord 350 p1 v1 h1;
               mkRecord 400 p2 v2 h2]) w
      = (Ret (warm_confs 1), w)).
Proof.
  intros Hdir. split; [|split].
  - intros confs w'. unfold starting_confs. unfold bind at 1.
    destruct (nearest inte_dir temp pres data w) as [[i| |] w1] eqn:En;
      try discriminate.
    destruct (nearest_Ret _ _ _ _ _ _ _ Hdir En)
      as (-> & k & r & -> & Hk & Hbelow & Hmin & _).
    unfold ret. intros H. injection H as <- <-.
    exists k, r. repeat split; trivial.
    intros r' Hin. specialize (Hmin r' Hin).
    apply ltb_not_nan_l in Hbelow.
    unfold axis_dist in *.
    destruct Hdir as [-> | ->]; simpl in *; unfold dist_t, dist_p in *;
      (split; [exact Hmin|]); intros Hn; now apply not_ltb_leb.
  - intros r Hin Hr.
    destruct (nearest_total _ _ _ _ w _ Hdir Hin Hr) as (i & Hi).
    exists (warm_confs i). unfold starting_confs, bind. now rewrite Hi.
  - intros. reflexivity.
Qed.

(** An instance: the three rows of the example, queried at 340. *)
Lemma warm_start_is_nearest_witness :
  exists k r,
    nth_error [mkRecord 300 1 1.5 0.25; mkRecord 350 1 1.5 0.25;
               mkRecord 400 1 1.5 0.25] k = Some r /\
    warm_confs 1 = warm_confs (Z.of_nat k) /\
    Demo.ready = Demo.ready /\
    forall r',
      In r' [mkRecord 300 1 1.5 0.25; mkRecord 350 1 1.5 0.25;
             mkRecord 400 1 1.5 0.25] ->
      (abs (temperature r' - 340) <? abs (temperature r - 340)) = false /\
      (is_nan (abs (temperature r' - 340)) = false ->
       (abs (temperature r - 340) <=? abs (temperature r' - 340)) = true).
Proof.
  exact (proj1 (warm_start_is_nearest "t" 340 1
                  [mkRecord 300 1 1.5 0.25; mkRecord 350 1 1.5 0.25;
                   mkRecord 400 1 1.5 0.25] Demo.ready
                  (or_introl eq_refl))
               (warm_confs 1) Demo.ready eq_refl).
Defined.

(** C10. Among the rows at the same, minimal distance from the query
    along the integration axis, the one with the smallest index is the
    warm start: whenever the search for a warm start returns, the two
    configurations the evaluation starts from are those of task [k],
    where row [k] has no strictly closer row and every row at an equal
    distance comes at or after it.  The search returns as soon as one
    row lies nearer than the starting minimum [1e10]. *)
Theorem nearest_ties_pick_first (inte_dir : string) (temp pres : float)
  (data : list CacheRecord) (w : World) :
  inte_dir = "t" \/ inte_dir = "p" ->
  (forall confs w',
      starting_confs true inte_dir temp pres (Some data) w = (Ret confs, w') ->
      exists k r,
        nth_error data k = Some r /\
        confs = warm_confs (Z.of_nat k) /\
        (forall r', In r' data ->
           (axis_dist inte_dir temp pres r' <? axis_dist inte_dir temp pres r)
           = false) /\
        (forall j r',
           nth_error data j = Some r' ->
           (axis_dist inte_dir temp pres r' =? axis_dist inte_dir temp pres r)
           = true ->
           (k <= j)%nat)) /\
  (forall r,
      In r data ->
      (axis_dist inte_dir temp pres r <? 1e10) = true ->
      exists confs,
        starting_confs true inte_dir temp pres (Some data) w = (Ret confs, w)).
Proof.
  intros Hdir. split.
  - intros confs w'. unfold starting_confs. unfold bind at 1.
    destruct (nearest inte_dir temp pres data w) as [[i| |] w1] eqn:En;
      try discriminate.
    destruct (nearest_Ret _ _ _ _ _ _ _ Hdir En)
      as (_ & k & r & -> & Hk & _ & Hmin & Hties).
    unfold ret. intros H. injection H as <- _.
    exists k, r. repeat split; trivial.
    intros j r' Hj Heq.
    destruct (Nat.le_gt_cases k j) as [Hle|Hgt]; [exact Hle|].
    rewrite (Hties j r' Hgt Hj) in Heq. discriminate.
  - intros r Hin Hr.
    destruct (nearest_total _ _ _ _ w _ Hdir Hin Hr) as (i & Hi).
    exists (warm_confs i). unfold starting_confs, bind. now rewrite Hi.
Qed.

(** An instance: rows at 360, 330 and 350 are queried at 340; the second
    and the third are both 10 away, and the evaluation starts from the
    configurations of task 1. *)
Lemma nearest_ties_pick_first_witness :
  exists k r,
    nth_error [mkRecord 360 1 1.5 0.25; mkRecord 330 2 1.5 0.25;
               mkRecord 350 3 1.5 0.25] k = Some r /\
    ("database/task.000001/0/out.lmp", "database/task.000001/1/out.lmp")
    = warm_confs (Z.of_nat k) /\
    (forall r',
       In r' [mkRecord 360 1 1.5 0.25; mkRecord 330 2 1.5 0.25;
              mkRecord 350 3 1.5 0.25] ->
       (axis_dist "t" 340 5 r' <? axis_dist "t" 340 5 r) = false) /\
    (forall j r',
       nth_error [mkRecord 360 1 1.5 0.25; mkRecord 330 2 1.5 0.25;
                  mkRecord 350 3 1.5 0.25] j = Some r' ->
       (axis_dist "t" 340 5 r' =? axis_dist "t" 340 5 r) = true ->
       (k <= j)%nat).
Proof.
  exact (proj1 (nearest_ties_pick_first "t" 340 5
                  [mkRecord 360 1 1.5 0.25; mkRecord 330 2 1.5 0.25;
                   mkRecord 350 3 1.5 0.25] Demo.ready
                  (or_introl eq_refl))
               ("database/task.000001/0/out.lmp",
                "database/task.000001/1/out.lmp") Demo.ready eq_refl).
Defined.

(** ** The slope returned to the integrator *)

Lemma slopes_reciprocal_Q (T dv dh e p : Q) :
  ~ (T == 0)%Q -> ~ (dv == 0)%Q -> ~ (dh == 0)%Q ->
  ~ (e == 0)%Q -> ~ (p == 0)%Q ->
  (slope_t T dv dh e p * slope_p T dv dh e p == 1)%Q.
Proof.
  intros HT Hdv Hdh He Hp. unfold slope_t, slope_p. simpl.
  field. repeat split; assumption.
Qed.

(** C4 (as amended). For a cached point (T, P) with differences
    (dv, dh), the oracle along the temperature axis returns
    [dh / (T * dv) * ev2bar * pref], and along the pressure axis, for a
    [pref] other than zero, [(T * dv) / dh / ev2bar * (1 / pref)]; with a
    zero [pref] the call along the pressure axis raises
    [ZeroDivisionError].  Read over the rationals, the two formulas
    multiply to 1 whenever T, dv, dh, the unit constant and pref are all
    nonzero. *)
Theorem slope_conversion (env : Env) (fuel : nat)
  (along_t along_p : GibbsDuhemFunc) (T P dv dh : float) (w : World) :
  self_inte_dir along_t = "t" ->
  self_inte_dir along_p = "p" ->
  task_path_isdir w = true ->
  cached_of T P (dpdt_out w) = Some (dv, dh) ->
  __call__ env fuel along_t T P w
  = (Ret (Some [dh / (T * dv) * self_ev2bar along_t * self_pref along_t]), w)
  /\
  ((self_pref along_p =? 0)%float = false ->
   __call__ env fuel along_p P T w
   = (Ret (Some [(T * dv) / dh / self_ev2bar along_p
                 * (1 / self_pref along_p)]), w))
  /\
  ((self_pref along_p =? 0)%float = true ->
   __call__ env fuel along_p P T w = (Raise ZeroDivisionError, w))
  /\
  (forall (T' dv' dh' e' p' : Q),
      ~ (T' == 0)%Q -> ~ (dv' == 0)%Q -> ~ (dh' == 0)%Q ->
      ~ (e' == 0)%Q -> ~ (p' == 0)%Q ->
      (slope_t T' dv' dh' e' p' * slope_p T' dv' dh' e' p' == 1)%Q).
Proof.
  intros Ht Hp Hdir Hc. split; [|split; [|split]].
  - unfold __call__. rewrite Ht. simpl. unfold bind.
    now rewrite (make_dpdt_hit env fuel _ _ _ _ _ _ _ _ w _ Hdir Hc).
  - intros Hpref. unfold __call__. rewrite Hp. simpl. unfold bind.
    rewrite (make_dpdt_hit env fuel _ _ _ _ _ _ _ _ w _ Hdir Hc).
    unfold python_divisor. now rewrite Hpref.
  - intros Hpref. unfold __call__. rewrite Hp. simpl. unfold bind.
    rewrite (make_dpdt_hit env fuel _ _ _ _ _ _ _ _ w _ Hdir Hc).
    unfold python_divisor. now rewrite Hpref.
  - exact slopes_reciprocal_Q.
Qed.

(** An instance: the row (300, 1, 1.5, 0.25), both directions. *)
Lemma slope_conversion_witness :
  __call__ (Demo.env None) 5 (Demo.oracle "t") 300 1
           (Demo.rows [mkRecord 300 1 1.5 0.25])
  = (Ret (Some [0.25 / (300 * 1.5) * ev2bar_of scipy_constants * 1]),
     Demo.rows [mkRecord 300 1 1.5 0.25])
  /\
  __call__ (Demo.env None) 5 (Demo.oracle "p") 1 300
           (Demo.rows [mkRecord 300 1 1.5 0.25])
  = (Ret (Some [(300 * 1.5) / 0.25 / ev2bar_of scipy_constants * (1 / 1)]),
     Demo.rows [mkRecord 300 1 1.5 0.25])
  /\
  (forall (T' dv' dh' e' p' : Q),
      ~ (T' == 0)%Q -> ~ (dv' == 0)%Q -> ~ (dh' == 0)%Q ->
      ~ (e' == 0)%Q -> ~ (p' == 0)%Q ->
      (slope_t T' dv' dh' e' p' * slope_p T' dv' dh' e' p' == 1)%Q).
Proof.
  destruct (slope_conversion (Demo.env None) 5 (Demo.oracle "t")
              (Demo.oracle "p") 300 1 1.5 0.25
              (Demo.rows [mkRecord 300 1 1.5 0.25])
              eq_refl eq_refl eq_refl eq_refl) as (Ht & Hp & _ & HQ).
  split; [exact Ht|]. split; [exact (Hp eq_refl)|exact HQ].
Defined.

(** C4, as stated, fails in binary64: for the cached row
    (350, 1, 1.5, 0.25), unit constant from CODATA 2018 and pref = 1, the
    slope along temperature at (x = 350, y = 1) times the slope along
    pressure at (x = 1, y = 350) is the float just below 1. *)
Lemma slopes_product_not_one :
  exists a b,
    __call__ (Demo.env None) 5 (Demo.oracle "t") 350 1
             (Demo.rows [mkRecord 350 1 1.5 0.25])
    = (Ret (Some [a]), Demo.rows [mkRecord 350 1 1.5 0.25]) /\
    __call__ (Demo.env None) 5 (Demo.oracle "p") 1 350
             (Demo.rows [mkRecord 350 1 1.5 0.25])
    = (Ret (Some [b]), Demo.rows [mkRecord 350 1 1.5 0.25]) /\
    (a * b =? 1) = false /\
    a * b = 0x1.fffffffffffffp-1.
Proof.
  eexists. eexists.
  split; [vm_compute; reflexivity|].
  split; [vm_compute; reflexivity|].
  split; vm_compute; reflexivity.
Qed.

(** ** The polling loop *)

Section Polling.

Lemma same_outside_polling_refl (w : World) : same_outside_polling w w.
Proof. repeat split. Qed.

Lemma same_outside_polling_trans (w1 w2 w3 : World) :
  same_outside_polling w1 w2 -> same_outside_polling w2 w3 ->
  same_outside_polling w1 w3.
Proof.
  unfold same_outside_polling.
  intros (?&?&?&?&?&?&?) (?&?&?&?&?&?&?). repeat split; congruence.
Qed.

Lemma no_terminated_app (o1 o2 : list (string * JobStatus)) :
  no_terminated o1 -> no_terminated o2 -> no_terminated (o1 ++ o2).
Proof.
  intros H1 H2 r Hin. apply in_app_or in Hin.
  destruct Hin; [now apply (H1 r)|now apply (H2 r)].
Qed.

Lemma no_terminated_nil : no_terminated [].
Proof. intros r []. Qed.

Variable roots : list string.

Lemma poll_post_ret {A} (a : A) (w : World) : poll_post roots w (ret a w).
Proof.
  split; [apply same_outside_polling_refl|].
  exists []. rewrite app_nil_r. split; [reflexivity|].
  split; [intros r s []|]. left.
  split; [apply no_terminated_nil|]. simpl. congruence.
Qed.

(** Sequencing two polling computations is a polling computation. *)
Lemma poll_post_bind {A B} (m : M A) (k : A -> M B) (w : World) :
  poll_post roots w (m w) ->
  (forall a w1, m w = (Ret a, w1) -> poll_post roots w1 (k a w1)) ->
  poll_post roots w (bind m k w).
Proof.
  intros Hm Hk. unfold bind.
  destruct (m w) as [[a| e |] w1] eqn:Em.
  - specialize (Hk a w1 eq_refl).
    destruct Hm as (Hs1 & obs1 & Ho1 & Hr1 & Hc1).
    destruct Hk as (Hs2 & obs2 & Ho2 & Hr2 & Hc2).
    simpl in *. split; [now apply same_outside_polling_trans with w1|].
    exists (obs1 ++ obs2). rewrite Ho2, Ho1, app_assoc.
    split; [reflexivity|]. split.
    { intros r s Hin. apply in_app_or in Hin.
      destruct Hin; [now apply (Hr1 r s)|now apply (Hr2 r s)]. }
    destruct Hc1 as [(Hn1 & _)|(obs0 & r & _ & _ & Habs)];
      [|discriminate].
    destruct Hc2 as [(Hn2 & Hne)|(obs0 & r & -> & Hn0 & Hr)].
    + left. split; [now apply no_terminated_app|exact Hne].
    + right. exists (obs1 ++ obs0), r. rewrite app_assoc.
      repeat split; trivial. now apply no_terminated_app.
  - destruct Hm as (Hs & obs & Ho & Hr1 & Hc). split; [exact Hs|].
    exists obs. split; [exact Ho|]. split; [exact Hr1|]. simpl in *.
    destruct Hc as [(_ & Hne)|(obs0 & r & Hobs & Hn0 & Hr)].
    + now destruct (Hne e).
    + right. exists obs0, r. injection Hr as ->. repeat split; trivial.
  - destruct Hm as (Hs & obs & Ho & Hr1 & Hc). split; [exact Hs|].
    exists obs. split; [exact Ho|]. split; [exact Hr1|]. simpl in *.
    destruct Hc as [(Hn & _)|(obs0 & r & _ & _ & Hr)]; [|discriminate].
    left. split; [exact Hn|congruence].
Qed.

(** A state update that keeps the observations and the rest. *)
Lemma poll_post_modify (f : World -> World) (w : World) :
  same_outside_polling w (f w) -> observed (f w) = observed w ->
  poll_post roots w (modify f w).
Proof.
  intros Hs Ho. split; [exact Hs|]. exists []. simpl.
  rewrite app_nil_r. split; [exact Ho|]. split; [intros r s []|]. left.
  split; [apply no_terminated_nil|congruence].
Qed.

Variables (env : Env) (backward_task_files : list string).

Lemma check_job_post (k : nat) (j : nat * RemoteJob) (fin : bool)
  (w : World) :
  In (job_root (snd j)) roots ->
  poll_post roots w (check_job env k backward_task_files j fin w).
Proof.
  intros Hroot. unfold check_job. destruct fin; [apply poll_post_ret|].
  assert (Hr : forall (s : JobStatus) (r : string) (s' : JobStatus),
             In (r, s') [(job_root (snd j), s)] -> In r roots).
  { intros s r s' [H|[]]. now injection H as <- _. }
  destruct (job_status env (fst j) k) eqn:Es; run_monad;
    (split; [repeat split|]); simpl.
  - exists [(job_root (snd j), submitted)]. split; [reflexivity|].
    split; [apply Hr|]. left. split; [|congruence].
    intros r [H|[]]. congruence.
  - exists [(job_root (snd j), running)]. split; [reflexivity|].
    split; [apply Hr|]. left. split; [|congruence].
    intros r [H|[]]. congruence.
  - exists [(job_root (snd j), finished)]. split; [reflexivity|].
    split; [apply Hr|]. left. split; [|congruence].
    intros r [H|[]]. congruence.
  - exists [(job_root (snd j), terminated)]. split; [reflexivity|].
    split; [apply Hr|]. right.
    exists [], (job_root (snd j)).
    repeat split. apply no_terminated_nil.
Qed.

Lemma poll_round_post (k : nat) (job_list : list (nat * RemoteJob)) :
  (forall j, In j job_list -> In (job_root (snd j)) roots) ->
  forall (job_fin : list bool) (w : World),
    poll_post roots w
              (poll_round env k backward_task_files job_list job_fin w).
Proof.
  induction job_list as [|j js IH]; intros Hroots job_fin w; simpl.
  - apply poll_post_ret.
  - destruct job_fin as [|fin fs]; [apply poll_post_ret|].
    apply poll_post_bind.
    { apply check_job_post. apply Hroots. now left. }
    intros fin' w1 _. apply poll_post_bind.
    { apply IH. intros j' Hj'. apply Hroots. now right. }
    intros rest w2 _. apply poll_post_ret.
Qed.

Lemma wait_jobs_post (fuel : nat) (job_list : list (nat * RemoteJob)) :
  (forall j, In j job_list -> In (job_root (snd j)) roots) ->
  forall (k : nat) (job_fin : list bool) (w : World),
    poll_post roots w (wait_jobs env fuel k backward_task_files job_list
                                 job_fin w).
Proof.
  intros Hroots.
  induction fuel as [|fuel IH]; intros k job_fin w; simpl;
    destruct (forallb (fun b => b) job_fin); try apply poll_post_ret.
  - split; [apply same_outside_polling_refl|]. exists []. simpl.
    rewrite app_nil_r. split; [reflexivity|]. split; [intros r s []|].
    left. split; [apply no_terminated_nil|congruence].
  - apply poll_post_bind; [now apply poll_round_post|].
    intros fin' w1 _. apply poll_post_bind.
    + apply poll_post_modify; [repeat split|reflexivity].
    + intros _ w2 _. apply IH.
Qed.

End Polling.

(** A [terminated] among the observations decides the outcome. *)
Lemma poll_post_terminated {A} (roots : list string) (w : World)
  (res : Outcome A * World) (obs : list (string * JobStatus)) (r : string) :
  poll_post roots w res ->
  observed (snd res) = observed w ++ obs ->
  In (r, terminated) obs ->
  fst res = Raise (terminated_error r) /\ In r roots.
Proof.
  intros (_ & obs' & Ho & Hroots & Hc) Hobs Hin.
  rewrite Ho in Hobs. apply app_inv_head in Hobs. subst obs'.
  split; [|now apply (Hroots r terminated)].
  destruct Hc as [(Hn & _)|(obs0 & r0 & -> & Hn0 & Hr)].
  - now apply Hn in Hin.
  - apply in_app_or in Hin. destruct Hin as [Hin|[Heq|[]]].
    + now apply Hn0 in Hin.
    + injection Heq as ->. exact Hr.
Qed.

(** ** The shape of an evaluation *)

Lemma bind_eq {A B} (m : M A) (k : A -> M B) (w : World) :
  bind m k w =
  match m w with
  | (Ret a, w') => k a w'
  | (Raise e, w') => (Raise e, w')
  | (StillWaiting, w') => (StillWaiting, w')
  end.
Proof. reflexivity. Qed.

Lemma make_tasks_eq (temp pres : float) (task_path : string) (jdata : JData)
  (conf_file graph_file : string) (w : World) :
  _make_tasks_onephase temp pres task_path jdata conf_file graph_file w =
  if isfile (files w) conf_file && isfile (files w) graph_file
  then (Ret tt, built task_path w)
  else (Raise AssertionError, w).
Proof.
  unfold _make_tasks_onephase. run_monad.
  destruct (isfile (files w) conf_file); simpl; [|reflexivity].
  destruct (isfile (files w) graph_file); reflexivity.
Qed.

(** With the two tasks and group size 1 the dispatcher submits two jobs,
    then polls them. *)
Lemma group_jobs_eq (env : Env) (fuel : nat) (ssh_sess : string)
  (mdata : MData) (counter : Z) (common forward backward : list string)
  (w : World) :
  _group_slurm_jobs env fuel ssh_sess (resources mdata)
     (lmp_command mdata ++ " -i in.lammps > /dev/null")%string
     (task_dir counter) ["0"; "1"] 1%Z common forward backward w =
  wait_jobs env fuel 0 backward
     (phase_job_list env mdata counter (List.length (jobs w)))
     [false; false]
     (fold_left (fun w' j => add_job j w')
                (phase_jobs env mdata counter (List.length (jobs w))) w).
Proof.
  unfold _group_slurm_jobs, task_chunks. simpl. run_monad.
  rewrite length_app. simpl. rewrite Nat.add_1_r. reflexivity.
Qed.

Lemma run_new_task_eq (env : Env) (fuel : nat) (temp pres : float)
  (counter : Z) (c0 c1 : string) (mdata : MData) (ssh_sess : string)
  (natoms : option (Z * Z)) (w : World) :
  run_new_task env fuel temp pres counter c0 c1 mdata ssh_sess natoms w =
  match in_json w with
  | None => (Raise (FileNotFoundError "in.json"), w)
  | Some jdata =>
      if isfile (files w) c0 && isfile (files w) "graph.pb" then
        let w1 := built (path_join (task_dir counter) "0") w in
        if isfile (files w1) c1 && isfile (files w1) "graph.pb" then
          let rec := new_record env temp pres counter jdata natoms in
          match wait_jobs env fuel 0 ["log.lammps"; "out.lmp"]
                  (phase_job_list env mdata counter (List.length (jobs w)))
                  [false; false] (staged env mdata counter w) with
          | (Ret _, w2) =>
              (Ret (dvolume rec, denthalpy rec), append_record rec w2)
          | (Raise e, w2) => (Raise e, w2)
          | (StillWaiting, w2) => (StillWaiting, w2)
          end
        else (Raise AssertionError, w1)
      else (Raise AssertionError, w)
  end.
Proof.
  unfold run_new_task. rewrite bind_eq. unfold gets at 1.
  destruct (in_json w) as [jdata|]; [|reflexivity].
  rewrite bind_eq. unfold ret at 1.
  rewrite bind_eq, make_tasks_eq.
  destruct (isfile (files w) c0 && isfile (files w) "graph.pb");
    [|reflexivity].
  rewrite bind_eq, make_tasks_eq. cbv zeta.
  destruct (isfile (files (built (path_join (task_dir counter) "0") w)) c1 &&
            isfile (files (built (path_join (task_dir counter) "0") w))
                   "graph.pb"); [|reflexivity].
  rewrite bind_eq, group_jobs_eq. unfold staged.
  change (jobs (built (path_join (task_dir counter) "1")
                      (built (path_join (task_dir counter) "0") w)))
    with (jobs w).
  destruct (wait_jobs env fuel 0 ["log.lammps"; "out.lmp"]
              (phase_job_list env mdata counter (List.length (jobs w)))
              [false; false] _) as [[[]| |] w2]; reflexivity.
Qed.

(** Choosing the starting configurations reads the state only. *)
Lemma starting_confs_pure (new_task : bool) (inte_dir : string)
  (temp pres : float) (db : option (list CacheRecord)) (w : World) :
  snd (starting_confs new_task inte_dir temp pres db w) = w /\
  fst (starting_confs new_task inte_dir temp pres db w) <> StillWaiting.
Proof.
  unfold starting_confs, nearest.
  destruct new_task, db as [data|]; simpl; try (split; congruence).
  destruct (String.eqb inte_dir "t"); [|destruct (String.eqb inte_dir "p")];
    run_monad;
    try match goal with
        | |- context [(0 <=? ?i)%Z] => destruct (0 <=? i)%Z
        end; simpl; split; congruence.
Qed.

Lemma make_dpdt_eq (env : Env) (fuel : nat) (temp pres : float)
  (inte_dir task_path : string) (mdata : MData) (ssh_sess : string)
  (natoms : option (Z * Z)) (verbose : bool) (w : World) :
  make_dpdt env fuel temp pres inte_dir task_path mdata ssh_sess natoms
            verbose w =
  if task_path_isdir w then
    match cached_of temp pres (dpdt_out w) with
    | Some c => (Ret c, w)
    | None =>
        match starting_confs true inte_dir temp pres (dpdt_out w) w with
        | (Ret confs, _) =>
            run_new_task env fuel temp pres (counter_of (dpdt_out w))
                         (fst confs) (snd confs) mdata ssh_sess natoms w
        | (Raise e, _) => (Raise e, w)
        | (StillWaiting, _) => (StillWaiting, w)
        end
    end
  else (Raise AssertionError, w).
Proof.
  unfold make_dpdt. rewrite bind_eq. unfold gets at 1.
  rewrite bind_eq. unfold assert.
  destruct (task_path_isdir w); [|reflexivity].
  unfold ret at 1. rewrite bind_eq. unfold gets at 1.
  destruct (cached_of temp pres (dpdt_out w)) as [[dv dh]|] eqn:Ec.
  - simpl is_new_task. rewrite bind_eq.
    unfold starting_confs; simpl. destruct (dpdt_out w); reflexivity.
  - simpl is_new_task. rewrite bind_eq.
    pose proof (starting_confs_pure true inte_dir temp pres (dpdt_out w) w)
      as (Hw & _).
    destruct (starting_confs true inte_dir temp pres (dpdt_out w) w)
      as [[confs| e |] w1]; simpl in Hw; subst w1; reflexivity.
Qed.

(** Every outcome of an evaluation is one of: a failure before anything
    was dispatched, the observations and the cache as they were; a hit;
    or the polling of the two submitted jobs, followed on success by the
    appended row. *)
Lemma make_dpdt_cases (env : Env) (fuel : nat) (temp pres : float)
  (inte_dir task_path : string) (mdata : MData) (ssh_sess : string)
  (natoms : option (Z * Z)) (verbose : bool) (w : World) :
  let res := make_dpdt env fuel temp pres inte_dir task_path mdata ssh_sess
                       natoms verbose w in
  (exists e, fst res = Raise e /\
             observed (snd res) = observed w /\
             dpdt_out (snd res) = dpdt_out w /\
             jobs (snd res) = jobs w) \/
  (exists c, cached_of temp pres (dpdt_out w) = Some c /\ res = (Ret c, w)) \/
  (exists jdata,
      cached_of temp pres (dpdt_out w) = None /\
      in_json w = Some jdata /\
      let rec := new_record env temp pres (counter_of (dpdt_out w)) jdata
                            natoms in
      res =
      match wait_jobs env fuel 0 ["log.lammps"; "out.lmp"]
              (phase_job_list env mdata (counter_of (dpdt_out w))
                              (List.length (jobs w)))
              [false; false]
              (staged env mdata (counter_of (dpdt_out w)) w) with
      | (Ret _, w2) => (Ret (dvolume rec, denthalpy rec), append_record rec w2)
      | (Raise e, w2) => (Raise e, w2)
      | (StillWaiting, w2) => (StillWaiting, w2)
      end).
Proof.
  intros res. subst res. rewrite make_dpdt_eq.
  destruct (task_path_isdir w); [|left; exists AssertionError; now simpl].
  destruct (cached_of temp pres (dpdt_out w)) as [c|] eqn:Ec.
  { right. left. now exists c. }
  pose proof (starting_confs_pure true inte_dir temp pres (dpdt_out w) w)
    as (_ & Hne).
  destruct (starting_confs true inte_dir temp pres (dpdt_out w) w)
    as [[confs| e |] w1]; simpl in Hne.
  - rewrite run_new_task_eq.
    destruct (in_json w) as [jdata|];
      [|left; exists (FileNotFoundError "in.json"); now simpl].
    destruct (isfile (files w) (fst confs) && isfile (files w) "graph.pb");
      [|left; exists AssertionError; now simpl].
    cbv zeta.
    match goal with
    | |- context [if ?c then _ else _] => destruct c
    end; [|left; exists AssertionError; now simpl].
    right. right. exists jdata. repeat split.
  - left. exists e. now simpl.
  - congruence.
Qed.

(** ** Dispatch of a new evaluation *)

Lemma staged_fields (env : Env) (mdata : MData) (counter : Z) (w : World) :
  observed (staged env mdata counter w) = observed w /\
  dpdt_out (staged env mdata counter w) = dpdt_out w /\
  jobs (staged env mdata counter w)
  = jobs w ++ phase_jobs env mdata counter (List.length (jobs w)) /\
  created (staged env mdata counter w)
  = created w ++ [path_join (task_dir counter) "0";
                  path_join (task_dir counter) "1"].
Proof.
  unfold staged; simpl. repeat split; now rewrite <- app_assoc.
Qed.

(** The polling of the two jobs of a new evaluation. *)
Lemma phase_polling (env : Env) (fuel : nat) (mdata : MData) (counter : Z)
  (w : World) :
  poll_post (map job_root
                 (phase_jobs env mdata counter (List.length (jobs w))))
            (staged env mdata counter w)
            (wait_jobs env fuel 0 ["log.lammps"; "out.lmp"]
               (phase_job_list env mdata counter (List.length (jobs w)))
               [false; false] (staged env mdata counter w)).
Proof.
  apply wait_jobs_post. intros j [<-|[<-|[]]]; simpl; tauto.
Qed.

Lemma make_dpdt_terminated (env : Env) (fuel : nat) (temp pres : float)
  (inte_dir task_path : string) (mdata : MData) (ssh_sess : string)
  (natoms : option (Z * Z)) (verbose : bool) (w w' : World)
  (out : Outcome (float * float)) (obs : list (string * JobStatus))
  (r : string) :
  make_dpdt env fuel temp pres inte_dir task_path mdata ssh_sess natoms
            verbose w = (out, w') ->
  observed w' = observed w ++ obs ->
  In (r, terminated) obs ->
  out = Raise (terminated_error r) /\
  dpdt_out w' = dpdt_out w /\
  In r (map job_root (phase_jobs env mdata (counter_of (dpdt_out w))
                                 (List.length (jobs w)))) /\
  jobs w' = jobs w ++ phase_jobs env mdata (counter_of (dpdt_out w))
                                 (List.length (jobs w)).
Proof.
  intros Hrun Hobs Hin.
  assert (Hnil : observed w' = observed w -> False).
  { intros E. rewrite E in Hobs. rewrite <- (app_nil_r (observed w)) in Hobs
      at 1. apply app_inv_head in Hobs. subst obs. destruct Hin. }
  pose proof (make_dpdt_cases env fuel temp pres inte_dir task_path mdata
                ssh_sess natoms verbose w) as Hc.
  cbv zeta in Hc. rewrite Hrun in Hc. simpl in Hc.
  destruct Hc as [(e & _ & Ho & _)|[(c & _ & Hres)|(jdata & _ & _ & Hres)]].
  - now destruct Hnil.
  - injection Hres as _ ->. now destruct Hnil.
  - pose proof (phase_polling env fuel mdata (counter_of (dpdt_out w)) w)
      as Hp.
    pose proof (staged_fields env mdata (counter_of (dpdt_out w)) w)
      as (Hso & Hsd & Hsj & _).
    destruct (wait_jobs env fuel 0 ["log.lammps"; "out.lmp"]
                (phase_job_list env mdata (counter_of (dpdt_out w))
                                (List.length (jobs w)))
                [false; false] (staged env mdata (counter_of (dpdt_out w)) w))
      as [[[]| e |] w2]; injection Hres as -> ->.
    + simpl in Hobs. rewrite <- Hso in Hobs.
      destruct (poll_post_terminated _ _ _ _ _ Hp Hobs Hin) as (Habs & _).
      discriminate.
    + rewrite <- Hso in Hobs.
      destruct (poll_post_terminated _ _ _ _ _ Hp Hobs Hin) as (He & Hr).
      simpl in He. injection He as ->.
      destruct Hp as ((_ & _ & _ & Hd & _ & _ & Hj) & _).
      cbn [snd] in Hd, Hj. rewrite Hd, Hj, Hsd, Hsj. now repeat split.
    + rewrite <- Hso in Hobs.
      destruct (poll_post_terminated _ _ _ _ _ Hp Hobs Hin) as (Habs & _).
      discriminate.
Qed.

Lemma call_eq (env : Env) (fuel : nat) (self : GibbsDuhemFunc)
  (x y : float) (w : World) :
  __call__ env fuel self x y w =
  if String.eqb (self_inte_dir self) "t" then
    match make_dpdt env fuel x y (self_inte_dir self) (self_task_path self)
                    (self_mdata self) (self_ssh_sess self) (self_natoms self)
                    (self_verbose self) w with
    | (Ret r, w') =>
        (Ret (Some [slope_t x (fst r) (snd r) (self_ev2bar self)
                            (self_pref self)]), w')
    | (Raise e, w') => (Raise e, w')
    | (StillWaiting, w') => (StillWaiting, w')
    end
  else if String.eqb (self_inte_dir self) "p" then
    match make_dpdt env fuel y x (self_inte_dir self) (self_task_path self)
                    (self_mdata self) (self_ssh_sess self) (self_natoms self)
                    (self_verbose self) w with
    | (Ret r, w') =>
        if (self_pref self =? 0)%float then (Raise ZeroDivisionError, w')
        else (Ret (Some [slope_p y (fst r) (snd r) (self_ev2bar self)
                                 (self_pref self)]), w')
    | (Raise e, w') => (Raise e, w')
    | (StillWaiting, w') => (StillWaiting, w')
    end
  else (Ret None, w).
Proof.
  unfold __call__.
  destruct (String.eqb (self_inte_dir self) "t");
    [|destruct (String.eqb (self_inte_dir self) "p")];
    try rewrite bind_eq; try reflexivity.
  destruct (make_dpdt _ _ _ _ _ _ _ _ _ _ w) as [[r| |] w']; try reflexivity.
  rewrite bind_eq. unfold python_divisor.
  destruct (self_pref self =? 0)%float; reflexivity.
Qed.

(** C3. If an oracle call observes one of its jobs terminated, at remote
    location [r], the call raises the error that names [r], [r] is the
    location of one of the jobs the call submitted, and the cache file is
    as it was before the call: no row was appended. *)
Theorem terminated_job_is_fatal (env : Env) (fuel : nat)
  (self : GibbsDuhemFunc) (x y : float) (w w' : World)
  (out : Outcome (option (list float))) (obs : list (string * JobStatus))
  (r : string) :
  __call__ env fuel self x y w = (out, w') ->
  observed w' = observed w ++ obs ->
  In (r, terminated) obs ->
  out = Raise (RuntimeError ("find unsuccessfully terminated job in " ++ r)) /\
  dpdt_out w' = dpdt_out w /\
  exists j,
    In j (phase_jobs env (self_mdata self) (counter_of (dpdt_out w))
                     (List.length (jobs w))) /\
    job_root j = r /\
    jobs w' = jobs w ++ phase_jobs env (self_mdata self)
                                   (counter_of (dpdt_out w))
                                   (List.length (jobs w)).
Proof.
  intros Hcall Hobs Hin. rewrite call_eq in Hcall.
  assert (Hnil : observed w' = observed w -> False).
  { intros E. rewrite E in Hobs. rewrite <- (app_nil_r (observed w)) in Hobs
      at 1. apply app_inv_head in Hobs. subst obs. destruct Hin. }
  assert (Hgen : forall temp pres res,
    make_dpdt env fuel temp pres (self_inte_dir self) (self_task_path self)
              (self_mdata self) (self_ssh_sess self) (self_natoms self)
              (self_verbose self) w = (res, w') ->
    res = Raise (terminated_error r) /\
    dpdt_out w' = dpdt_out w /\
    exists j,
      In j (phase_jobs env (self_mdata self) (counter_of (dpdt_out w))
                       (List.length (jobs w))) /\
      job_root j = r /\
      jobs w' = jobs w ++ phase_jobs env (self_mdata self)
                                     (counter_of (dpdt_out w))
                                     (List.length (jobs w))).
  { intros temp pres res Hres.
    destruct (make_dpdt_terminated _ _ _ _ _ _ _ _ _ _ _ _ _ _ _
                Hres Hobs Hin) as (He & Hd & Hr & Hj).
    repeat split; trivial. apply in_map_iff in Hr.
    destruct Hr as (j & Hjr & Hjin). now exists j. }
  destruct (String.eqb (self_inte_dir self) "t");
    [|destruct (String.eqb (self_inte_dir self) "p")].
  - destruct (make_dpdt env fuel x y _ _ _ _ _ _ w) as [res w1] eqn:Em.
    assert (w1 = w') by (destruct res; now injection Hcall). subst w1.
    destruct (Hgen _ _ _ Em) as (-> & Hd & Hj).
    injection Hcall as <-. now repeat split.
  - destruct (make_dpdt env fuel y x _ _ _ _ _ _ w) as [res w1] eqn:Em.
    assert (w1 = w')
      by (destruct res; try destruct (self_pref self =? 0)%float;
          now injection Hcall).
    subst w1.
    destruct (Hgen _ _ _ Em) as (-> & Hd & Hj).
    injection Hcall as <-. now repeat split.
  - injection Hcall as _ <-. now destruct Hnil.
Qed.

(** An instance: the second job of the first evaluation is found
    terminated at its second check. *)
Lemma terminated_job_is_fatal_witness :
  __call__ (Demo.env (Some 1%nat)) 5 (Demo.oracle "t") 300 1 Demo.ready
  = (Raise (RuntimeError
              "find unsuccessfully terminated job in /scratch/job.000001"),
     snd (__call__ (Demo.env (Some 1%nat)) 5 (Demo.oracle "t") 300 1
                   Demo.ready)) /\
  dpdt_out (snd (__call__ (Demo.env (Some 1%nat)) 5 (Demo.oracle "t") 300 1
                          Demo.ready)) = None.
Proof.
  destruct (terminated_job_is_fatal (Demo.env (Some 1%nat)) 5
              (Demo.oracle "t") 300 1 Demo.ready
              (snd (__call__ (Demo.env (Some 1%nat)) 5 (Demo.oracle "t")
                             300 1 Demo.ready))
              (fst (__call__ (Demo.env (Some 1%nat)) 5 (Demo.oracle "t")
                             300 1 Demo.ready))
              [("/scratch/job.000000", running);
               ("/scratch/job.000001", running);
               ("/scratch/job.000000", finished);
               ("/scratch/job.000001", terminated)]
              "/scratch/job.000001")
    as (Hout & Hstore & _).
  - apply surjective_pairing.
  - vm_compute. reflexivity.
  - simpl. tauto.
  - split; [|exact Hstore].
    etransitivity; [apply surjective_pairing|]. rewrite Hout. reflexivity.
Defined.

(** The jobs an evaluation without a cached row leaves submitted. *)
Lemma make_dpdt_jobs (env : Env) (fuel : nat) (temp pres : float)
  (inte_dir task_path : string) (mdata : MData) (ssh_sess : string)
  (natoms : option (Z * Z)) (verbose : bool) (w w' : World)
  (out : Outcome (float * float)) :
  cached_of temp pres (dpdt_out w) = None ->
  make_dpdt env fuel temp pres inte_dir task_path mdata ssh_sess natoms
            verbose w = (out, w') ->
  ((exists e, out = Raise e) /\ jobs w' = jobs w /\ created w' = created w \/
   (exists e, out = Raise e) /\ jobs w' = jobs w /\
     created w' = created w ++ [path_join (task_dir (counter_of (dpdt_out w)))
                                          "0"]) \/
  (jobs w' = jobs w ++ phase_jobs env mdata (counter_of (dpdt_out w))
                                  (List.length (jobs w)) /\
   created w' = created w ++ [path_join (task_dir (counter_of (dpdt_out w)))
                                        "0";
                              path_join (task_dir (counter_of (dpdt_out w)))
                                        "1"] /\
   ((exists jdata,
        in_json w = Some jdata /\
        out = Ret (dvolume (new_record env temp pres (counter_of (dpdt_out w))
                                       jdata natoms),
                   denthalpy (new_record env temp pres
                                         (counter_of (dpdt_out w))
                                         jdata natoms)) /\
        dpdt_out w' = Some (records w ++
                            [new_record env temp pres (counter_of (dpdt_out w))
                                        jdata natoms])) \/
    (forall c, out <> Ret c) /\ dpdt_out w' = dpdt_out w)).
Proof.
  intros Hc Hrun. rewrite make_dpdt_eq, Hc in Hrun.
  destruct (task_path_isdir w);
    [|injection Hrun as <- <-; left; left;
      (split; [eexists; reflexivity|split; reflexivity])].
  pose proof (starting_confs_pure true inte_dir temp pres (dpdt_out w) w)
    as (_ & Hne).
  destruct (starting_confs true inte_dir temp pres (dpdt_out w) w)
    as [[confs| e |] w1]; simpl in Hne;
    [| injection Hrun as <- <-; left; left;
       (split; [eexists; reflexivity|split; reflexivity])
     | congruence].
  rewrite run_new_task_eq in Hrun.
  destruct (in_json w) as [jdata|];
    [|injection Hrun as <- <-; left; left;
      (split; [eexists; reflexivity|split; reflexivity])].
  destruct (isfile (files w) (fst confs) && isfile (files w) "graph.pb");
    [|injection Hrun as <- <-; left; left;
      (split; [eexists; reflexivity|split; reflexivity])].
  cbv zeta in Hrun.
  match type of Hrun with
  | context [if ?c then _ else _] => destruct c
  end;
    [|injection Hrun as <- <-; left; right;
      (split; [eexists; reflexivity|split; reflexivity])].
  right.
  pose proof (phase_polling env fuel mdata (counter_of (dpdt_out w)) w)
    as ((_ & _ & _ & Hd & Hcr & _ & Hj) & _).
  pose proof (staged_fields env mdata (counter_of (dpdt_out w)) w)
    as (_ & Hsd & Hsj & Hsc).
  destruct (wait_jobs env fuel 0 ["log.lammps"; "out.lmp"]
              (phase_job_list env mdata (counter_of (dpdt_out w))
                              (List.length (jobs w)))
              [false; false] (staged env mdata (counter_of (dpdt_out w)) w))
    as [[[]| e |] w2]; injection Hrun as <- <-; cbn [snd] in Hd, Hcr, Hj.
  - simpl jobs. simpl created. rewrite Hj, Hcr, Hsj, Hsc.
    repeat split. left. exists jdata. repeat split.
    unfold append_record; simpl. rewrite Hd, Hsd. unfold records.
    now destruct (dpdt_out w).
  - rewrite Hj, Hcr, Hsj, Hsc, Hd, Hsd. repeat split. right.
    split; congruence.
  - rewrite Hj, Hcr, Hsj, Hsc, Hd, Hsd. repeat split. right.
    split; congruence.
Qed.

(** C7 (as amended). For a point without a cached row, the dispatcher
    receives the two phase tasks in one call with group size 1, which
    makes two chunks of one task each: an evaluation that returns has
    submitted exactly two remote jobs, one for task ["0"] and one for task
    ["1"].  (With group size 2 the same dispatcher would make one
    chunk.) *)
Theorem two_jobs_per_new_point (env : Env) (fuel : nat) (temp pres : float)
  (inte_dir task_path : string) (mdata : MData) (ssh_sess : string)
  (natoms : option (Z * Z)) (verbose : bool) (w w' : World)
  (c : float * float) :
  cached_of temp pres (dpdt_out w) = None ->
  make_dpdt env fuel temp pres inte_dir task_path mdata ssh_sess natoms
            verbose w = (Ret c, w') ->
  jobs w' = jobs w ++ phase_jobs env mdata (counter_of (dpdt_out w))
                                 (List.length (jobs w)) /\
  List.length (jobs w') = (List.length (jobs w) + 2)%nat /\
  map job_tasks (phase_jobs env mdata (counter_of (dpdt_out w))
                            (List.length (jobs w))) = [["0"]; ["1"]] /\
  task_chunks ["0"; "1"] 1 w = (Ret [["0"]; ["1"]], w) /\
  task_chunks ["0"; "1"] 2 w = (Ret [["0"; "1"]], w).
Proof.
  intros Hc Hrun.
  destruct (make_dpdt_jobs _ _ _ _ _ _ _ _ _ _ _ _ _ Hc Hrun)
    as [[((e & He) & _)|((e & He) & _)]|(Hj & _)]; try discriminate.
  split; [exact Hj|]. split; [now rewrite Hj, length_app|].
  repeat split.
Qed.

(** An instance: the first evaluation of a fresh output directory. *)
Lemma two_jobs_per_new_point_witness :
  map job_tasks
      (jobs (snd (make_dpdt (Demo.env None) 5 300 1 "t" "new_job" Demo.mdata
                            "cluster.example.org" None false Demo.ready)))
  = [["0"]; ["1"]].
Proof.
  destruct (two_jobs_per_new_point (Demo.env None) 5 300 1 "t" "new_job"
              Demo.mdata "cluster.example.org" None false Demo.ready
              (snd (make_dpdt (Demo.env None) 5 300 1 "t" "new_job"
                              Demo.mdata "cluster.example.org" None false
                              Demo.ready))
              (1.5, 0.25) eq_refl)
    as (Hret & _ & Htasks & _).
  - vm_compute. reflexivity.
  - rewrite Hret. simpl jobs. exact Htasks.
Defined.

(** C7, as stated, fails: the first evaluation of a fresh output
    directory returns after submitting two remote jobs, at two remote
    locations, each with a chunk of one task. *)
Lemma one_job_per_new_point_fails :
  exists w',
    cached_of 300 1 (dpdt_out Demo.ready) = None /\
    make_dpdt (Demo.env None) 5 300 1 "t" "new_job" Demo.mdata
              "cluster.example.org" None false Demo.ready
    = (Ret (1.5, 0.25), w') /\
    jobs Demo.ready = [] /\
    List.length (jobs w') = 2%nat /\
    map job_tasks (jobs w') = [["0"]; ["1"]] /\
    map job_root (jobs w') = ["/scratch/job.000000"; "/scratch/job.000001"].
Proof.
  eexists. split; [reflexivity|].
  split; [vm_compute; reflexivity|].
  repeat split.
Qed.

(** ** The store over a run *)

Lemma distinct_points_snoc (data : list CacheRecord) (rn : CacheRecord) :
  distinct_points data ->
  (forall r, In r data -> matches (temperature rn) (pressure rn) r = false) ->
  distinct_points (data ++ [rn]).
Proof.
  intros Hd Hnew i j ri rj Hij Hi Hj.
  assert (Hjlen : (j < List.length (data ++ [rn]))%nat)
    by (apply nth_error_Some; congruence).
  rewrite length_app in Hjlen. simpl in Hjlen.
  destruct (Nat.lt_ge_cases j (List.length data)) as [Hlt|Hge].
  - rewrite nth_error_app1 in Hi, Hj by lia. now apply (Hd i j).
  - assert (j = List.length data) by lia. subst j.
    rewrite nth_error_app2, Nat.sub_diag in Hj by lia.
    injection Hj as <-. rewrite nth_error_app1 in Hi by lia.
    apply Hnew. now apply nth_error_In with i.
Qed.

Lemma cached_of_None (temp pres : float) (w : World) :
  cached_of temp pres (dpdt_out w) = None ->
  forall r, In r (records w) -> matches temp pres r = false.
Proof.
  unfold cached_of, records. destruct (dpdt_out w) as [data|].
  - intros H. now apply search_record_None.
  - intros _ r [].
Qed.

(** A returned evaluation without a cached row appends exactly its row. *)
Lemma make_dpdt_miss_Ret (env : Env) (fuel : nat) (temp pres : float)
  (inte_dir task_path : string) (mdata : MData) (ssh_sess : string)
  (natoms : option (Z * Z)) (verbose : bool) (w w' : World)
  (c : float * float) :
  cached_of temp pres (dpdt_out w) = None ->
  make_dpdt env fuel temp pres inte_dir task_path mdata ssh_sess natoms
            verbose w = (Ret c, w') ->
  (exists rn,
      temperature rn = temp /\ pressure rn = pres /\
      c = (dvolume rn, denthalpy rn) /\
      dpdt_out w' = Some (records w ++ [rn])) /\
  created w' = created w ++ [path_join (task_dir (counter_of (dpdt_out w))) "0";
                             path_join (task_dir (counter_of (dpdt_out w))) "1"].
Proof.
  intros Hc Hrun.
  destruct (make_dpdt_jobs _ _ _ _ _ _ _ _ _ _ _ _ _ Hc Hrun)
    as [[((e & He) & _)|((e & He) & _)]|(_ & Hcr & Hout)];
    try discriminate.
  split; [|exact Hcr].
  destruct Hout as [(jdata & _ & Hr & Hd)|(Hne & _)].
  - injection Hr as ->.
    exists (new_record env temp pres (counter_of (dpdt_out w)) jdata natoms).
    repeat split. exact Hd.
  - now destruct (Hne c).
Qed.

Lemma make_dpdt_hit_Ret (env : Env) (fuel : nat) (temp pres : float)
  (inte_dir task_path : string) (mdata : MData) (ssh_sess : string)
  (natoms : option (Z * Z)) (verbose : bool) (w w' : World)
  (c r : float * float) :
  cached_of temp pres (dpdt_out w) = Some c ->
  make_dpdt env fuel temp pres inte_dir task_path mdata ssh_sess natoms
            verbose w = (Ret r, w') ->
  r = c /\ w' = w.
Proof.
  intros Hc Hrun. rewrite make_dpdt_eq, Hc in Hrun.
  destruct (task_path_isdir w); [|discriminate].
  injection Hrun as <- <-. now split.
Qed.

(** Over a run the cache grows by one row per evaluation without a cached
    row, and its points stay distinct. *)
Lemma run_records (env : Env) (w0 w : World) (n : nat) :
  run env w0 n w ->
  List.length (records w) = (List.length (records w0) + n)%nat /\
  (distinct_points (records w0) -> distinct_points (records w)).
Proof.
  induction 1 as [w | w n w1 fuel temp pres inte_dir task_path mdata ssh_sess
                       natoms verbose c r w2 Hrun IH Hc Hcall
                    | w n w1 fuel temp pres inte_dir task_path mdata ssh_sess
                       natoms verbose r w2 Hrun IH Hc Hcall].
  - split; [lia|trivial].
  - destruct (make_dpdt_hit_Ret _ _ _ _ _ _ _ _ _ _ _ _ _ _ Hc Hcall)
      as (_ & ->). exact IH.
  - destruct IH as (Hlen & Hdist).
    destruct (make_dpdt_miss_Ret _ _ _ _ _ _ _ _ _ _ _ _ _ Hc Hcall)
      as ((rn & Ht & Hp & _ & Hd) & _).
    assert (Hrec : records w2 = records w1 ++ [rn])
      by (unfold records at 1; now rewrite Hd).
    rewrite Hrec. split.
    + rewrite length_app. simpl. lia.
    + intros H0. apply distinct_points_snoc; [now apply Hdist|].
      rewrite Ht, Hp. now apply cached_of_None.
Qed.


(** *** The difference of two finite numbers

    Binary64 subtraction of two finite numbers rounds to a finite number
    or overflows to an infinity; it is never a NaN.  The proof follows
    the rounding of [SpecFloat]: a mantissa that is not negative stays
    so through the shifts and the rounding to nearest. *)












(** ** Task identifiers *)

(** C8. In a run, the evaluation that comes after [n] new evaluations
    creates its two task directories under [database/task.NNNNNN] with the
    zero-padded number of rows the cache holds before the append, which is
    the number of rows the run started with plus [n]: in a run that starts
    without a cache file, the k-th new evaluation uses index k-1.  The
    counter a call starts from is 0 when there is no cache file and the
    number of rows read from it otherwise. *)
Theorem task_identifiers_monotonic (env : Env) (w0 w1 w2 : World) (n : nat)
  (fuel : nat) (temp pres : float) (inte_dir task_path : string)
  (mdata : MData) (ssh_sess : string) (natoms : option (Z * Z))
  (verbose : bool) (c : float * float) :
  run env w0 n w1 ->
  cached_of temp pres (dpdt_out w1) = None ->
  make_dpdt env fuel temp pres inte_dir task_path mdata ssh_sess natoms
            verbose w1 = (Ret c, w2) ->
  let idx := List.length (records w1) in
  idx = (List.length (records w0) + n)%nat /\
  (dpdt_out w0 = None -> idx = n) /\
  counter_of (dpdt_out w1) = Z.of_nat idx /\
  List.length (records w2) = S idx /\
  created w2 = created w1 ++ [path_join (task_dir (Z.of_nat idx)) "0";
                              path_join (task_dir (Z.of_nat idx)) "1"] /\
  task_dir (Z.of_nat idx)
  = ("database/task."
       ++ zfill 6 (NilZero.string_of_uint (N.to_uint (N.of_nat idx))))%string /\
  counter_of None = 0%Z /\
  (forall data, counter_of (Some data) = Z.of_nat (List.length data)) /\
  (task_dir 0 = "database/task.000000" /\
   task_dir 1 = "database/task.000001" /\
   task_dir 12 = "database/task.000012" /\
   task_dir 999999 = "database/task.999999").
Proof.
  intros Hrun Hc Hcall idx.
  destruct (run_records env w0 w1 n Hrun) as (Hlen & _).
  assert (Hcnt : counter_of (dpdt_out w1) = Z.of_nat idx).
  { unfold idx, counter_of, records. now destruct (dpdt_out w1). }
  destruct (make_dpdt_miss_Ret _ _ _ _ _ _ _ _ _ _ _ _ _ Hc Hcall)
    as ((rn & _ & _ & _ & Hd) & Hcr).
  rewrite Hcnt in Hcr.
  repeat split; trivial.
  - intros H0. unfold idx. rewrite Hlen. unfold records. now rewrite H0.
  - unfold records at 1. rewrite Hd, length_app. simpl. unfold idx. lia.
  - unfold task_dir, fmt_06d, path_join.
    replace (Z.of_nat idx <? 0)%Z with false
      by (symmetry; apply Z.ltb_ge; lia).
    now rewrite <- nat_N_Z, Zabs2N.id.
Qed.

(** An instance: the second new evaluation of the demonstration run. *)
Lemma task_identifiers_monotonic_witness :
  created Demo.after_second
  = created Demo.after_first ++ ["database/task.000001/0";
                                 "database/task.000001/1"].
Proof.
  destruct (task_identifiers_monotonic (Demo.env None) Demo.ready
              Demo.after_first Demo.after_second 1 5 340 1 "t" "new_job"
              Demo.mdata "cluster.example.org" None false (1.5, 0.25))
    as (_ & _ & _ & _ & Hcr & _).
  - apply (run_miss (Demo.env None) Demo.ready 0 Demo.ready 5
                    300 1 "t" "new_job" Demo.mdata "cluster.example.org"
                    None false (1.5, 0.25) Demo.after_first).
    + apply run_start.
    + reflexivity.
    + vm_compute. reflexivity.
  - vm_compute. reflexivity.
  - vm_compute. reflexivity.
  - exact Hcr.
Defined.

(** ** The direction selector *)

(** C6 (as amended). A direction other than ['t'] and ['p'] given on the
    command line is refused by the argument parser of [_main] before the
    oracle is constructed: the program exits with the state untouched, so
    no SSH session is opened and no job submitted.  [__init__] itself does
    not look at the direction: whatever it is, it opens the SSH session
    first.  [make_dpdt] refuses such a direction when it reaches the
    nearest search, that is without a cached row and with a cache file. *)
Theorem invalid_direction_rejected_by_parser (pc : Constants) (env : Env)
  (fuel : nat) (solve_ivp : Integrator) (args : Args) (w : World) :
  direction args <> "t" ->
  direction args <> "p" ->
  _main pc env fuel solve_ivp args w = (Raise (SystemExit 2), w) /\
  (forall jdata mdata task_path pref natoms verbose,
      sessions (snd (__init__ pc jdata mdata task_path (direction args) pref
                              natoms verbose w))
      = sessions w ++ [machine mdata]) /\
  (forall temp pres task_path mdata ssh_sess natoms verbose data,
      task_path_isdir w = true ->
      dpdt_out w = Some data ->
      search_record temp pres data = None ->
      make_dpdt env fuel temp pres (direction args) task_path mdata ssh_sess
                natoms verbose w
      = (Raise (RuntimeError ("invalid inte_dir " ++ direction args)), w)).
Proof.
  intros Ht Hp.
  apply String.eqb_neq in Ht. apply String.eqb_neq in Hp.
  split; [|split].
  - unfold _main. rewrite bind_eq. unfold check_direction. simpl.
    now rewrite Ht, Hp.
  - intros. unfold __init__, _setup_dpdt, copyfile. run_monad.
    destruct (task_path_isdir w); simpl; [reflexivity|].
    repeat match goal with
           | |- context [if ?c then _ else _] => destruct c; simpl
           end; reflexivity.
  - intros temp pres task_path mdata ssh_sess natoms verbose data Hd Hdb Hs.
    rewrite make_dpdt_eq, Hd, Hdb. simpl. rewrite Hs.
    unfold nearest. rewrite Ht, Hp. reflexivity.
Qed.

(** An instance: [-d x] on the command line of the demonstration. *)
Lemma invalid_direction_rejected_by_parser_witness :
  _main scipy_constants (Demo.env None) 5 Demo.one_step (Demo.args "x")
        Demo.launch
  = (Raise (SystemExit 2), Demo.launch).
Proof.
  apply (invalid_direction_rejected_by_parser scipy_constants (Demo.env None)
           5 Demo.one_step (Demo.args "x") Demo.launch);
    simpl; discriminate.
Defined.

(** With [-d t] the same command line goes through: the oracle is built,
    asked once, and [pb.out] is written. *)
Example main_accepts_t :
  fst (_main scipy_constants (Demo.env None) 5 Demo.one_step (Demo.args "t")
             Demo.launch) = Ret tt /\
  sessions (snd (_main scipy_constants (Demo.env None) 5 Demo.one_step
                       (Demo.args "t") Demo.launch))
  = ["cluster.example.org"].
Proof. split; vm_compute; reflexivity. Qed.

(** C6, as stated, fails: [__init__] with the direction ["x"] returns an
    oracle after opening the SSH session, and a call of that oracle
    returns Python's [None] without raising. *)
Lemma invalid_direction_accepted_by_init :
  exists gdf w',
    __init__ scipy_constants Demo.jdata Demo.mdata "new_job" "x" 1 None false
             Demo.launch = (Ret gdf, w') /\
    self_inte_dir gdf = "x" /\
    sessions Demo.launch = [] /\
    sessions w' = ["cluster.example.org"] /\
    __call__ (Demo.env None) 5 gdf 300 1 w' = (Ret None, w').
Proof.
  eexists. eexists.
  split; [vm_compute; reflexivity|].
  repeat split.
Qed.

(** ** Enough polling rounds give the result *)

Section Progress.

Variables (env : Env) (backward_task_files : list string).

Lemma check_job_progress (k B : nat) (j : nat * RemoteJob) (fin : bool)
  (w : World) :
  finishes_by env k (S B) j fin ->
  exists fin' w',
    check_job env k backward_task_files j fin w = (Ret fin', w') /\
    finishes_by env (S k) B j fin'.
Proof.
  intros Hf. unfold check_job. destruct fin.
  { exists true, w. split; [reflexivity|now left]. }
  destruct Hf as [Hf|(K & HK & Hfin & Hbefore)]; [discriminate|].
  destruct (Nat.eq_dec K k) as [->|Hne].
  - rewrite Hfin. run_monad. eexists. eexists.
    split; [reflexivity|now left].
  - assert (Hk : job_status env (fst j) k <> terminated)
      by (apply Hbefore; lia).
    assert (Hnext : finishes_by env (S k) B j false).
    { right. exists K. repeat split; try lia; trivial.
      intros k' Hk'. apply Hbefore. lia. }
    destruct (job_status env (fst j) k); run_monad;
      try (eexists; eexists; split; [reflexivity|]; trivial; now left).
    now destruct Hk.
Qed.

Lemma poll_round_progress (k B : nat) (job_list : list (nat * RemoteJob))
  (job_fin : list bool) :
  Forall2 (finishes_by env k (S B)) job_list job_fin ->
  forall w,
  exists fin' w',
    poll_round env k backward_task_files job_list job_fin w = (Ret fin', w') /\
    Forall2 (finishes_by env (S k) B) job_list fin'.
Proof.
  induction 1 as [|j fin js fs Hj Hrest IH]; intros w; simpl.
  - exists [], w. split; [reflexivity|constructor].
  - destruct (check_job_progress k B j fin w Hj) as (fin' & w1 & Hc & Hf).
    destruct (IH w1) as (rest & w2 & Hr & Hfs).
    exists (fin' :: rest), w2. rewrite bind_eq, Hc, bind_eq, Hr.
    split; [reflexivity|now constructor].
Qed.

Lemma finishes_by_0 (k : nat) (job_list : list (nat * RemoteJob))
  (job_fin : list bool) :
  Forall2 (finishes_by env k 0) job_list job_fin ->
  forallb (fun b => b) job_fin = true.
Proof.
  induction 1 as [|j fin js fs Hj Hrest IH]; simpl; [reflexivity|].
  destruct Hj as [->|(K & HK & _)]; [exact IH|lia].
Qed.

(** If every job finishes within [B] checks and the loop may run for [B]
    rounds, the loop returns. *)
Lemma wait_jobs_progress (job_list : list (nat * RemoteJob)) (B : nat) :
  forall (fuel k : nat) (job_fin : list bool) (w : World),
    Forall2 (finishes_by env k B) job_list job_fin ->
    (B <= fuel)%nat ->
    exists w',
      wait_jobs env fuel k backward_task_files job_list job_fin w
      = (Ret tt, w').
Proof.
  induction B as [|B IH]; intros fuel k job_fin w Hf Hfuel.
  - apply finishes_by_0 in Hf. exists w.
    destruct fuel; simpl; now rewrite Hf.
  - destruct fuel as [|fuel]; [lia|]. simpl.
    destruct (forallb (fun b => b) job_fin); [now exists w|].
    destruct (poll_round_progress k B job_list job_fin Hf w)
      as (fin' & w1 & Hp & Hf').
    rewrite bind_eq, Hp, bind_eq. unfold modify at 1.
    apply IH; [exact Hf'|lia].
Qed.

End Progress.

Lemma isfile_app (fs fs' : list string) (p : string) :
  isfile fs p = true -> isfile (fs ++ fs') p = true.
Proof.
  unfold isfile. rewrite existsb_app. intros ->. reflexivity.
Qed.

(** A new evaluation returns, with its row appended, when the output
    directory is set up, the starting configurations exist, both jobs get
    finished within [B] checks, and the polling loop may run [B] rounds. *)
Lemma new_evaluation_returns (env : Env) (fuel B : nat) (temp pres : float)
  (inte_dir task_path : string) (mdata : MData) (ssh_sess : string)
  (natoms : option (Z * Z)) (verbose : bool) (w : World)
  (confs : string * string) (jdata : JData) :
  task_path_isdir w = true ->
  cached_of temp pres (dpdt_out w) = None ->
  starting_confs true inte_dir temp pres (dpdt_out w) w = (Ret confs, w) ->
  in_json w = Some jdata ->
  isfile (files w) (fst confs) = true ->
  isfile (files w) (snd confs) = true ->
  isfile (files w) "graph.pb" = true ->
  Forall2 (finishes_by env 0 B)
          (phase_job_list env mdata (counter_of (dpdt_out w))
                          (List.length (jobs w)))
          [false; false] ->
  (B <= fuel)%nat ->
  exists w',
    make_dpdt env fuel temp pres inte_dir task_path mdata ssh_sess natoms
              verbose w
    = (Ret (dvolume (new_record env temp pres (counter_of (dpdt_out w))
                                jdata natoms),
            denthalpy (new_record env temp pres (counter_of (dpdt_out w))
                                  jdata natoms)), w') /\
    dpdt_out w'
    = Some (records w ++ [new_record env temp pres (counter_of (dpdt_out w))
                                     jdata natoms]).
Proof.
  intros Hdir Hc Hconfs Hjson H0 H1 Hg Hjobs Hfuel.
  destruct (wait_jobs_progress env ["log.lammps"; "out.lmp"] _ B fuel 0
              [false; false] (staged env mdata (counter_of (dpdt_out w)) w)
              Hjobs Hfuel) as (w2 & Hw).
  exists (append_record (new_record env temp pres (counter_of (dpdt_out w))
                                    jdata natoms) w2).
  assert (Hrun : make_dpdt env fuel temp pres inte_dir task_path mdata
                           ssh_sess natoms verbose w
                 = (Ret (dvolume (new_record env temp pres
                                    (counter_of (dpdt_out w)) jdata natoms),
                         denthalpy (new_record env temp pres
                                      (counter_of (dpdt_out w)) jdata natoms)),
                    append_record (new_record env temp pres
                                     (counter_of (dpdt_out w)) jdata natoms)
                                  w2)).
  { assert (E1 : isfile (files (built (path_join (task_dir (counter_of
                            (dpdt_out w))) "0") w)) (snd confs) = true)
      by (unfold built; simpl; now repeat apply isfile_app).
    assert (E2 : isfile (files (built (path_join (task_dir (counter_of
                            (dpdt_out w))) "0") w)) "graph.pb" = true)
      by (unfold built; simpl; now repeat apply isfile_app).
    rewrite make_dpdt_eq, Hdir, Hc, Hconfs, run_new_task_eq, Hjson, H0, Hg.
    cbv zeta. rewrite E1, E2, Hw. reflexivity. }
  split; [exact Hrun|].
  pose proof (phase_polling env fuel mdata (counter_of (dpdt_out w)) w)
    as ((_ & _ & _ & Hd & _) & _).
  rewrite Hw in Hd. cbn [snd] in Hd.
  unfold append_record; simpl. rewrite Hd.
  destruct (staged_fields env mdata (counter_of (dpdt_out w)) w)
    as (_ & -> & _).
  unfold records. now destruct (dpdt_out w).
Qed.

(** On the demonstration cluster, where a job is running at its first
    check and finished at the second, two rounds are enough. *)
Example demo_evaluation_returns :
  exists w',
    make_dpdt (Demo.env None) 2 300 1 "t" "new_job" Demo.mdata
              "cluster.example.org" None false Demo.ready
    = (Ret (1.5, 0.25), w') /\
    dpdt_out w' = Some [mkRecord 300 1 1.5 0.25].
Proof.
  apply (new_evaluation_returns (Demo.env None) 2 2 300 1 "t" "new_job"
           Demo.mdata "cluster.example.org" None false Demo.ready
           ("conf.0.lmp", "conf.1.lmp") Demo.jdata);
    try reflexivity; try lia.
  assert (Hjob : forall j : nat * RemoteJob,
             finishes_by (Demo.env None) 0 2 j false).
  { intros j. right. exists 1%nat. repeat split; try lia.
    intros k' Hk'. assert (k' = 0%nat) by lia. subst k'. discriminate. }
  unfold phase_job_list; simpl.
  apply Forall2_cons; [apply Hjob|].
  apply Forall2_cons; [apply Hjob|apply Forall2_nil].
Qed.

(** * Further properties of the code *)

(** ** The dispatcher on any list of tasks *)

Lemma chunks_from_spec (n : nat) :
  (0 < n)%nat ->
  forall (fuel : nat) (tasks : list string),
    (List.length tasks <= fuel)%nat ->
    List.concat (chunks_from fuel n tasks) = map basename tasks /\
    Forall (fun c => (1 <= List.length c <= n)%nat)
           (chunks_from fuel n tasks) /\
    (forall i c,
        nth_error (chunks_from fuel n tasks) i = Some c ->
        (S i < List.length (chunks_from fuel n tasks))%nat ->
        List.length c = n).
Proof.
  intros Hn. induction fuel as [|fuel IH]; intros tasks Hlen.
  - destruct tasks; [|simpl in Hlen; lia]. simpl.
    repeat split; [constructor|]. intros i c H. now destruct i.
  - destruct tasks as [|t ts]; simpl chunks_from.
    { repeat split; [constructor|]. intros i c H. now destruct i. }
    assert (Hskip : (List.length (skipn n (t :: ts)) <= fuel)%nat).
    { rewrite length_skipn. simpl List.length in *. lia. }
    destruct (IH (skipn n (t :: ts)) Hskip) as (Hcat & Hall & Hfull).
    split; [|split].
    + simpl List.concat. rewrite Hcat, <- map_app. now rewrite firstn_skipn.
    + constructor; [|exact Hall].
      rewrite length_map, length_firstn. simpl List.length. lia.
    + intros [|i] c Hc Hi; simpl in Hc, Hi.
      * injection Hc as <-. rewrite length_map, length_firstn.
        destruct (skipn n (t :: ts)) as [|t' ts'] eqn:Es.
        -- destruct fuel; simpl in Hi; lia.
        -- assert (Hl : List.length (skipn n (t :: ts)) = S (List.length ts'))
             by now rewrite Es.
           rewrite length_skipn in Hl. lia.
      * apply (Hfull i c Hc). lia.
Qed.

(** X1. For a positive group size the dispatcher's chunks partition the
    task names (each reduced to its last path component) in order: their
    concatenation is the list of names, no chunk is empty or longer than
    the group size, and every chunk but the last has exactly the group
    size. *)
Theorem task_chunks_partition (tasks : list string) (group_size : Z)
  (w : World) :
  (0 < group_size)%Z ->
  exists chunks,
    task_chunks tasks group_size w = (Ret chunks, w) /\
    List.concat chunks = map basename tasks /\
    Forall (fun c => (1 <= Z.of_nat (List.length c) <= group_size)%Z) chunks /\
    (forall i c,
        nth_error chunks i = Some c ->
        (S i < List.length chunks)%nat ->
        Z.of_nat (List.length c) = group_size).
Proof.
  intros Hg. unfold task_chunks.
  replace (group_size =? 0)%Z with false by (symmetry; apply Z.eqb_neq; lia).
  replace (group_size <? 0)%Z with false by (symmetry; apply Z.ltb_ge; lia).
  eexists. split; [reflexivity|].
  destruct (chunks_from_spec (Z.to_nat group_size) ltac:(lia)
              (List.length tasks) tasks (Nat.le_refl _))
    as (Hcat & Hall & Hfull).
  split; [exact Hcat|]. split.
  - eapply Forall_impl; [|exact Hall]. simpl. intros c Hc. lia.
  - intros i c Hc Hi. rewrite (Hfull i c Hc Hi). lia.
Qed.

(** An instance: five tasks in groups of two. *)
Lemma task_chunks_partition_witness :
  exists chunks,
    task_chunks ["a/0"; "a/1"; "a/2"; "b/3"; "4"] 2 Demo.ready
    = (Ret chunks, Demo.ready) /\
    List.concat chunks = map basename ["a/0"; "a/1"; "a/2"; "b/3"; "4"] /\
    Forall (fun c => (1 <= Z.of_nat (List.length c) <= 2)%Z) chunks /\
    (forall i c,
        nth_error chunks i = Some c ->
        (S i < List.length chunks)%nat ->
        Z.of_nat (List.length c) = 2%Z).
Proof.
  apply (task_chunks_partition ["a/0"; "a/1"; "a/2"; "b/3"; "4"] 2
                               Demo.ready).
  lia.
Defined.

(** X2. The dispatcher's degenerate calls: a zero group size raises
    [ValueError] and a negative group size or an empty task list returns
    at once; in all three nothing is submitted, checked or slept. *)
Theorem group_slurm_jobs_degenerate (env : Env) (fuel : nat)
  (ssh_sess resources command work_path : string) (tasks : list string)
  (group_size : Z) (common forward backward : list string) (w : World) :
  (group_size = 0%Z ->
   _group_slurm_jobs env fuel ssh_sess resources command work_path tasks
                     group_size common forward backward w
   = (Raise (ValueError "range() arg 3 must not be zero"), w)) /\
  ((group_size < 0)%Z ->
   _group_slurm_jobs env fuel ssh_sess resources command work_path tasks
                     group_size common forward backward w
   = (Ret tt, w)) /\
  (group_size <> 0%Z ->
   _group_slurm_jobs env fuel ssh_sess resources command work_path []
                     group_size common forward backward w
   = (Ret tt, w)).
Proof.
  unfold _group_slurm_jobs, task_chunks. split; [|split].
  - intros ->. reflexivity.
  - intros Hg. rewrite bind_eq.
    replace (group_size =? 0)%Z with false
      by (symmetry; apply Z.eqb_neq; lia).
    replace (group_size <? 0)%Z with true by (symmetry; apply Z.ltb_lt; lia).
    destruct fuel; reflexivity.
  - intros Hg. rewrite bind_eq.
    replace (group_size =? 0)%Z with false
      by (symmetry; now apply Z.eqb_neq).
    destruct (group_size <? 0)%Z; destruct fuel; reflexivity.
Qed.

Lemma fold_add_job_fields (l : list RemoteJob) :
  forall w,
    jobs (fold_left (fun w' j => add_job j w') l w) = jobs w ++ l /\
    files (fold_left (fun w' j => add_job j w') l w) = files w /\
    dpdt_out (fold_left (fun w' j => add_job j w') l w) = dpdt_out w /\
    created (fold_left (fun w' j => add_job j w') l w) = created w /\
    observed (fold_left (fun w' j => add_job j w') l w) = observed w /\
    cleaned (fold_left (fun w' j => add_job j w') l w) = cleaned w /\
    slept (fold_left (fun w' j => add_job j w') l w) = slept w /\
    sessions (fold_left (fun w' j => add_job j w') l w) = sessions w /\
    in_json (fold_left (fun w' j => add_job j w') l w) = in_json w.
Proof.
  induction l as [|j l IH]; intros w; simpl.
  - rewrite app_nil_r. repeat split.
  - destruct (IH (add_job j w))
      as (Hj & Hf & Hd & Hc & Ho & Hcl & Hs & Hss & Hi).
    simpl in *. rewrite Hj, <- app_assoc. repeat split; assumption.
Qed.

Lemma submit_all_eq (env : Env) (resources command work_path : string)
  (chunks : list (list string)) :
  forall w,
    submit_all env resources command work_path chunks w
    = (Ret (combine (seq (List.length (jobs w)) (List.length chunks))
                    (jobs_for env resources command work_path
                              (List.length (jobs w)) chunks)),
       fold_left (fun w' j => add_job j w')
                 (jobs_for env resources command work_path
                           (List.length (jobs w)) chunks) w).
Proof.
  induction chunks as [|c cs IH]; intros w; simpl; [reflexivity|].
  rewrite bind_eq. unfold submit_chunk. run_monad.
  rewrite IH. simpl. rewrite length_app. simpl. rewrite Nat.add_1_r.
  reflexivity.
Qed.

Lemma jobs_for_tasks (env : Env) (resources command work_path : string)
  (chunks : list (list string)) :
  forall n,
    map job_tasks (jobs_for env resources command work_path n chunks)
    = chunks /\
    Forall (fun j => job_work_path j = work_path)
           (jobs_for env resources command work_path n chunks).
Proof.
  induction chunks as [|c cs IH]; intros n; simpl.
  - split; [reflexivity|constructor].
  - destruct (IH (S n)) as (-> & Hall). split; [reflexivity|].
    now constructor.
Qed.

(** For a nonzero group size: one submission per chunk, then the polling. *)
Lemma group_slurm_jobs_eq (env : Env) (fuel : nat)
  (ssh_sess resources command work_path : string) (tasks : list string)
  (group_size : Z) (common forward backward : list string) (w : World)
  (chunks : list (list string)) :
  task_chunks tasks group_size w = (Ret chunks, w) ->
  _group_slurm_jobs env fuel ssh_sess resources command work_path tasks
                    group_size common forward backward w
  = wait_jobs env fuel 0 backward
      (combine (seq (List.length (jobs w)) (List.length chunks))
               (jobs_for env resources command work_path
                         (List.length (jobs w)) chunks))
      (map (fun _ => false)
           (combine (seq (List.length (jobs w)) (List.length chunks))
                    (jobs_for env resources command work_path
                              (List.length (jobs w)) chunks)))
      (fold_left (fun w' j => add_job j w')
                 (jobs_for env resources command work_path
                           (List.length (jobs w)) chunks) w).
Proof.
  intros Hc. unfold _group_slurm_jobs.
  rewrite bind_eq, Hc, bind_eq, submit_all_eq. reflexivity.
Qed.

Lemma task_chunks_outcome (tasks : list string) (group_size : Z) (w : World) :
  group_size <> 0%Z ->
  exists chunks, task_chunks tasks group_size w = (Ret chunks, w).
Proof.
  intros Hg. unfold task_chunks.
  replace (group_size =? 0)%Z with false by (symmetry; now apply Z.eqb_neq).
  destruct (group_size <? 0)%Z; eexists; reflexivity.
Qed.

Lemma numbered_jobs_roots (ns : list nat) (l : list RemoteJob) :
  forall j : nat * RemoteJob,
    In j (combine ns l) -> In (job_root (snd j)) (map job_root l).
Proof.
  intros [n j] Hin. apply in_combine_r in Hin. now apply in_map.
Qed.

(** X3. Whatever happens afterwards, the dispatcher has submitted exactly
    one job per chunk, in the order of the chunks and each for its own
    chunk of tasks, numbered on from the jobs submitted before; it does
    not touch the cache file, the created directories or the session. *)
Theorem group_slurm_jobs_submits_per_chunk (env : Env) (fuel : nat)
  (ssh_sess resources command work_path : string) (tasks : list string)
  (group_size : Z) (common forward backward : list string) (w w' : World)
  (chunks : list (list string)) (out : Outcome unit) :
  task_chunks tasks group_size w = (Ret chunks, w) ->
  _group_slurm_jobs env fuel ssh_sess resources command work_path tasks
                    group_size common forward backward w = (out, w') ->
  jobs w' = jobs w ++ jobs_for env resources command work_path
                               (List.length (jobs w)) chunks /\
  map job_tasks (jobs_for env resources command work_path
                          (List.length (jobs w)) chunks) = chunks /\
  List.length (jobs w') = (List.length (jobs w) + List.length chunks)%nat /\
  dpdt_out w' = dpdt_out w /\
  created w' = created w /\
  sessions w' = sessions w /\
  in_json w' = in_json w.
Proof.
  intros Hc Hrun. rewrite (group_slurm_jobs_eq _ _ _ _ _ _ _ _ _ _ _ _ _ Hc)
    in Hrun.
  pose proof (wait_jobs_post
                (map job_root (jobs_for env resources command work_path
                                        (List.length (jobs w)) chunks))
                env backward fuel
                (combine (seq (List.length (jobs w)) (List.length chunks))
                         (jobs_for env resources command work_path
                                   (List.length (jobs w)) chunks))
                (numbered_jobs_roots _ _) 0
                (map (fun _ => false)
                     (combine (seq (List.length (jobs w))
                                   (List.length chunks))
                              (jobs_for env resources command work_path
                                        (List.length (jobs w)) chunks)))
                (fold_left (fun w' j => add_job j w')
                           (jobs_for env resources command work_path
                                     (List.length (jobs w)) chunks) w))
    as ((_ & _ & Hi & Hd & Hcr & Hs & Hj) & _).
  rewrite Hrun in *. cbn [snd] in *.
  destruct (fold_add_job_fields
              (jobs_for env resources command work_path
                        (List.length (jobs w)) chunks) w)
    as (Hfj & _ & Hfd & Hfc & _ & _ & _ & Hss & Hsi).
  destruct (jobs_for_tasks env resources command work_path chunks
                           (List.length (jobs w))) as (Ht & _).
  rewrite Hj, Hfj, Hd, Hfd, Hcr, Hfc, Hs, Hss, Hi, Hsi.
  repeat split; trivial.
  rewrite length_app. f_equal. rewrite <- Ht at 2. now rewrite length_map.
Qed.

(** An instance: three tasks in groups of two, the second job terminated. *)
Lemma group_slurm_jobs_submits_per_chunk_witness :
  map job_tasks
      (jobs (snd (_group_slurm_jobs (Demo.env (Some 1%nat)) 5
                    "cluster.example.org" "1 node" "run" "work"
                    ["0"; "1"; "2"] 2 [] ["in"] ["out"] Demo.ready)))
  = [["0"; "1"]; ["2"]].
Proof.
  destruct (group_slurm_jobs_submits_per_chunk (Demo.env (Some 1%nat)) 5
              "cluster.example.org" "1 node" "run" "work" ["0"; "1"; "2"] 2
              [] ["in"] ["out"] Demo.ready
              (snd (_group_slurm_jobs (Demo.env (Some 1%nat)) 5
                      "cluster.example.org" "1 node" "run" "work"
                      ["0"; "1"; "2"] 2 [] ["in"] ["out"] Demo.ready))
              [["0"; "1"]; ["2"]]
              (fst (_group_slurm_jobs (Demo.env (Some 1%nat)) 5
                      "cluster.example.org" "1 node" "run" "work"
                      ["0"; "1"; "2"] 2 [] ["in"] ["out"] Demo.ready)))
    as (Hj & Ht & _).
  - reflexivity.
  - apply surjective_pairing.
  - rewrite Hj. simpl jobs. exact Ht.
Defined.

(** ** What the polling loop downloads and releases *)

Section Release.

Variables (env : Env) (backward_task_files : list string).

Lemma finished_roots_app (o1 o2 : list (string * JobStatus)) :
  finished_roots (o1 ++ o2) = finished_roots o1 ++ finished_roots o2.
Proof. unfold finished_roots. now rewrite filter_app, map_app. Qed.

Lemma release_post_ret {A} (a : A) (w : World) : release_post w (ret a w).
Proof. exists []. simpl. now rewrite !app_nil_r. Qed.

Lemma release_post_bind {A B} (m : M A) (k : A -> M B) (w : World) :
  release_post w (m w) ->
  (forall a w1, m w = (Ret a, w1) -> release_post w1 (k a w1)) ->
  release_post w (bind m k w).
Proof.
  intros Hm Hk. rewrite bind_eq.
  destruct (m w) as [[a| e |] w1] eqn:Em; try exact Hm.
  destruct Hm as (o1 & Ho1 & Hc1).
  destruct (Hk a w1 eq_refl) as (o2 & Ho2 & Hc2). simpl in *.
  exists (o1 ++ o2).
  now rewrite Ho2, Ho1, Hc2, Hc1, finished_roots_app, !app_assoc.
Qed.

Lemma check_job_release (k : nat) (j : nat * RemoteJob) (fin : bool)
  (w : World) :
  release_post w (check_job env k backward_task_files j fin w).
Proof.
  unfold check_job. destruct fin; [apply release_post_ret|].
  exists [(job_root (snd j), job_status env (fst j) k)].
  destruct (job_status env (fst j) k); run_monad;
    rewrite ?app_nil_r; split; reflexivity.
Qed.

Lemma poll_round_release (k : nat) (job_list : list (nat * RemoteJob)) :
  forall (job_fin : list bool) (w : World),
    release_post w (poll_round env k backward_task_files job_list job_fin w).
Proof.
  induction job_list as [|j js IH]; intros job_fin w; simpl.
  - apply release_post_ret.
  - destruct job_fin as [|fin fs]; [apply release_post_ret|].
    apply release_post_bind; [apply check_job_release|].
    intros fin' w1 _. apply release_post_bind; [apply IH|].
    intros rest w2 _. apply release_post_ret.
Qed.

Lemma wait_jobs_release (fuel : nat) (job_list : list (nat * RemoteJob)) :
  forall (k : nat) (job_fin : list bool) (w : World),
    release_post w (wait_jobs env fuel k backward_task_files job_list
                              job_fin w).
Proof.
  induction fuel as [|fuel IH]; intros k job_fin w; simpl;
    destruct (forallb (fun b => b) job_fin); try apply release_post_ret.
  - exists []. simpl. now rewrite !app_nil_r.
  - apply release_post_bind; [apply poll_round_release|].
    intros fin' w1 _. apply release_post_bind.
    + exists []. simpl. now rewrite !app_nil_r.
    + intros _ w2 _. apply IH.
Qed.

Lemma done_in_grows (w w' : World) (j : nat * RemoteJob) (fin : bool) :
  incl (files w) (files w') -> incl (cleaned w) (cleaned w') ->
  done_in backward_task_files w j fin ->
  done_in backward_task_files w' j fin.
Proof.
  intros Hf Hc Hd Hfin. destruct (Hd Hfin) as (H1 & H2). split.
  - now apply Hc.
  - intros f Hin. apply Hf. now apply H2.
Qed.

Lemma check_job_done (k : nat) (j : nat * RemoteJob) (fin fin' : bool)
  (w w' : World) :
  check_job env k backward_task_files j fin w = (Ret fin', w') ->
  incl (files w) (files w') /\
  incl (cleaned w) (cleaned w') /\
  (done_in backward_task_files w j fin ->
   done_in backward_task_files w' j fin') /\
  (List.length (cleaned w') + (if fin then 1 else 0)
   = List.length (cleaned w) + (if fin' then 1 else 0))%nat.
Proof.
  unfold check_job. destruct fin.
  { intros H. injection H as <- <-.
    split; [apply incl_refl|]. split; [apply incl_refl|].
    split; [trivial|reflexivity]. }
  destruct (job_status env (fst j) k); run_monad; intros H;
    try discriminate; injection H as <- <-; simpl.
  - split; [apply incl_refl|]. split; [apply incl_refl|].
    split; [intros _ Habs; discriminate|reflexivity].
  - split; [apply incl_refl|]. split; [apply incl_refl|].
    split; [intros _ Habs; discriminate|reflexivity].
  - split; [apply incl_appl, incl_refl|].
    split; [apply incl_appl, incl_refl|]. split.
    + intros _ _. simpl. split.
      * apply in_or_app. right. now left.
      * apply incl_appr, incl_refl.
    + rewrite length_app. simpl. lia.
Qed.

Lemma poll_round_done (k : nat) (job_list : list (nat * RemoteJob))
  (job_fin : list bool) :
  forall (w w' : World) (fin' : list bool),
    Forall2 (done_in backward_task_files w) job_list job_fin ->
    poll_round env k backward_task_files job_list job_fin w
    = (Ret fin', w') ->
    incl (files w) (files w') /\
    incl (cleaned w) (cleaned w') /\
    Forall2 (done_in backward_task_files w') job_list fin' /\
    (List.length (cleaned w') + count_true job_fin
     = List.length (cleaned w) + count_true fin')%nat.
Proof.
  revert job_fin.
  induction job_list as [|j js IH]; intros job_fin w w' fin' Hd Hrun;
    inversion Hd as [|j0 fin js0 fs Hj Hrest]; subst; simpl in Hrun.
  - injection Hrun as <- <-.
    repeat split; auto using incl_refl.
  - rewrite bind_eq in Hrun.
    destruct (check_job env k backward_task_files j fin w)
      as [[f1| |] w1] eqn:Ec; try discriminate.
    destruct (check_job_done _ _ _ _ _ _ Ec) as (Hf1 & Hc1 & Hd1 & Hn1).
    rewrite bind_eq in Hrun.
    destruct (poll_round env k backward_task_files js fs w1)
      as [[rest| |] w2] eqn:Ep; try discriminate.
    injection Hrun as <- <-.
    assert (Hrest1 : Forall2 (done_in backward_task_files w1) js fs).
    { eapply Forall2_impl; [|exact Hrest].
      intros a b. now apply done_in_grows. }
    destruct (IH fs w1 w2 rest Hrest1 Ep) as (Hf2 & Hc2 & Hd2 & Hn2).
    repeat split.
    + now apply incl_tran with (files w1).
    + now apply incl_tran with (cleaned w1).
    + constructor; [|exact Hd2].
      apply done_in_grows with w1; auto.
    + simpl. destruct fin, f1; simpl in *; lia.
Qed.

Lemma all_true_count (l : list bool) :
  forallb (fun b => b) l = true -> count_true l = List.length l.
Proof.
  induction l as [|[] l IH]; simpl; intros H; try discriminate; auto.
Qed.

(** When the loop returns, every job is released and its files are there. *)
Lemma wait_jobs_done (fuel : nat) (job_list : list (nat * RemoteJob)) :
  forall (k : nat) (job_fin : list bool) (w w' : World),
    Forall2 (done_in backward_task_files w) job_list job_fin ->
    wait_jobs env fuel k backward_task_files job_list job_fin w
    = (Ret tt, w') ->
    Forall (fun j => done_in backward_task_files w' j true) job_list /\
    (List.length (cleaned w') + count_true job_fin
     = List.length (cleaned w) + List.length job_list)%nat.
Proof.
  assert (Hall : forall job_fin w,
    Forall2 (done_in backward_task_files w) job_list job_fin ->
    forallb (fun b => b) job_fin = true ->
    Forall (fun j => done_in backward_task_files w j true) job_list /\
    count_true job_fin = List.length job_list).
  { intros job_fin w Hd Ht. split.
    - clear - Hd Ht. induction Hd as [|j fin js fs Hj Hrest IH];
        [constructor|].
      simpl in Ht. apply andb_true_iff in Ht. destruct Ht as (-> & Ht).
      constructor; auto.
    - rewrite (all_true_count _ Ht). symmetry.
      now apply Forall2_length with (1 := Hd). }
  induction fuel as [|fuel IH]; intros k job_fin w w' Hd Hrun;
    simpl in Hrun;
    destruct (forallb (fun b => b) job_fin) eqn:Et; try discriminate.
  - injection Hrun as <-. destruct (Hall _ _ Hd Et) as (H1 & ->).
    now split.
  - injection Hrun as <-. destruct (Hall _ _ Hd Et) as (H1 & ->).
    now split.
  - rewrite bind_eq in Hrun.
    destruct (poll_round env k backward_task_files job_list job_fin w)
      as [[fin'| |] w1] eqn:Ep; try discriminate.
    destruct (poll_round_done _ _ _ _ _ _ Hd Ep) as (_ & _ & Hd1 & Hn1).
    rewrite bind_eq in Hrun. unfold modify at 1 in Hrun.
    assert (Hd2 : Forall2 (done_in backward_task_files (add_slept 30 w1))
                          job_list fin')
      by exact Hd1.
    destruct (IH (S k) fin' (add_slept 30 w1) w' Hd2 Hrun) as (H1 & H2).
    split; [exact H1|]. simpl in H2. lia.
Qed.

End Release.

Lemma jobs_for_length (env : Env) (resources command work_path : string)
  (chunks : list (list string)) :
  forall n,
    List.length (jobs_for env resources command work_path n chunks)
    = List.length chunks.
Proof. induction chunks; intros n; simpl; auto. Qed.

Lemma in_combine_numbered {A B} (l : list A) (l' : list B) (y : B) :
  List.length l = List.length l' -> In y l' ->
  exists x, In (x, y) (combine l l').
Proof.
  revert l'. induction l as [|a l IH]; intros [|b l'] Hlen Hin;
    simpl in *; try discriminate; try contradiction.
  destruct Hin as [<-|Hin].
  - exists a. now left.
  - destruct (IH l' ltac:(lia) Hin) as (x & Hx). exists x. now right.
Qed.

Lemma none_done (backward : list string) (w : World)
  (job_list : list (nat * RemoteJob)) :
  Forall2 (done_in backward w) job_list (map (fun _ => false) job_list) /\
  count_true (map (fun _ => false) job_list) = 0%nat.
Proof.
  induction job_list as [|j js (IH1 & IH2)]; simpl.
  - split; [constructor|reflexivity].
  - split; [|exact IH2]. constructor; [|exact IH1].
    intros Habs. discriminate.
Qed.

(** X4. When the dispatcher returns, every job it submitted has been
    released, exactly one release per job, and every result file of every
    task of every chunk is in place under [work_path/task/]. *)
Theorem group_slurm_jobs_returns_complete (env : Env) (fuel : nat)
  (ssh_sess resources command work_path : string) (tasks : list string)
  (group_size : Z) (common forward backward : list string) (w w' : World)
  (chunks : list (list string)) :
  task_chunks tasks group_size w = (Ret chunks, w) ->
  _group_slurm_jobs env fuel ssh_sess resources command work_path tasks
                    group_size common forward backward w = (Ret tt, w') ->
  List.length (cleaned w')
  = (List.length (cleaned w) + List.length chunks)%nat /\
  (forall j,
      In j (jobs_for env resources command work_path
                     (List.length (jobs w)) chunks) ->
      In (job_root j) (cleaned w')) /\
  (forall c t f,
      In c chunks -> In t c -> In f backward ->
      isfile (files w') (path_join (path_join work_path t) f) = true).
Proof.
  intros Hc Hrun.
  rewrite (group_slurm_jobs_eq _ _ _ _ _ _ _ _ _ _ _ _ _ Hc) in Hrun.
  set (new := jobs_for env resources command work_path
                       (List.length (jobs w)) chunks) in *.
  set (jl := combine (seq (List.length (jobs w)) (List.length chunks)) new)
    in *.
  destruct (none_done backward (fold_left (fun w' j => add_job j w') new w)
                      jl) as (Hnone & Hzero).
  destruct (wait_jobs_done env backward fuel jl 0 _ _ _ Hnone Hrun)
    as (Hdone & Hcount).
  rewrite Hzero in Hcount.
  destruct (fold_add_job_fields new w) as (_ & _ & _ & _ & _ & Hcl & _).
  assert (Hlen : List.length jl = List.length chunks).
  { unfold jl. rewrite length_combine, length_seq. unfold new.
    rewrite jobs_for_length. lia. }
  assert (Hjob : forall j, In j new ->
             In (job_root j) (cleaned w') /\
             incl (downloaded j backward) (files w')).
  { intros j Hj.
    destruct (in_combine_numbered (seq (List.length (jobs w))
                                       (List.length chunks)) new j)
      as (n & Hn); [|exact Hj|].
    - unfold new. now rewrite length_seq, jobs_for_length.
    - rewrite Forall_forall in Hdone. now apply (Hdone (n, j) Hn). }
  split; [rewrite Hcl in Hcount; lia|]. split.
  - intros j Hj. now apply Hjob.
  - intros c t f Hcin Ht Hf.
    destruct (jobs_for_tasks env resources command work_path chunks
                             (List.length (jobs w))) as (Htasks & Hwp).
    fold new in Htasks, Hwp. rewrite <- Htasks in Hcin.
    apply in_map_iff in Hcin. destruct Hcin as (j & <- & Hj).
    destruct (Hjob j Hj) as (_ & Hincl).
    rewrite Forall_forall in Hwp. specialize (Hwp j Hj).
    unfold isfile. apply existsb_exists.
    exists (path_join (path_join work_path t) f).
    split; [|apply String.eqb_refl].
    apply Hincl. unfold downloaded. apply in_flat_map.
    exists t. split; [exact Ht|]. rewrite Hwp. now apply in_map.
Qed.

(** An instance: three tasks in groups of two on the demonstration
    cluster. *)
Lemma group_slurm_jobs_returns_complete_witness :
  isfile (files (snd (_group_slurm_jobs (Demo.env None) 5
                        "cluster.example.org" "1 node" "run" "work"
                        ["0"; "1"; "2"] 2 [] ["in"] ["log"; "out"]
                        Demo.ready)))
         "work/2/out" = true.
Proof.
  destruct (group_slurm_jobs_returns_complete (Demo.env None) 5
              "cluster.example.org" "1 node" "run" "work" ["0"; "1"; "2"] 2
              [] ["in"] ["log"; "out"] Demo.ready
              (snd (_group_slurm_jobs (Demo.env None) 5
                      "cluster.example.org" "1 node" "run" "work"
                      ["0"; "1"; "2"] 2 [] ["in"] ["log"; "out"]
                      Demo.ready))
              [["0"; "1"]; ["2"]])
    as (_ & _ & Hfiles).
  - reflexivity.
  - vm_compute. reflexivity.
  - apply (Hfiles ["2"] "2" "out"); simpl; tauto.
Defined.

Lemma group_slurm_jobs_release (env : Env) (fuel : nat)
  (ssh_sess resources command work_path : string) (tasks : list string)
  (group_size : Z) (common forward backward : list string) (w : World) :
  release_post w (_group_slurm_jobs env fuel ssh_sess resources command
                    work_path tasks group_size common forward backward w).
Proof.
  unfold _group_slurm_jobs. apply release_post_bind.
  { unfold task_chunks.
    destruct (group_size =? 0)%Z; [|destruct (group_size <? 0)%Z];
      exists []; simpl; now rewrite !app_nil_r. }
  intros chunks w1 _. apply release_post_bind.
  { rewrite submit_all_eq.
    destruct (fold_add_job_fields
                (jobs_for env resources command work_path
                          (List.length (jobs w1)) chunks) w1)
      as (_ & _ & _ & _ & Ho & Hcl & _).
    exists []. simpl. now rewrite Ho, Hcl, !app_nil_r. }
  intros job_list w2 _. apply wait_jobs_release.
Qed.

(** X5. When the dispatcher returns, raises the error of a terminated
    job (line 42) or is still polling, it has released exactly the jobs
    it has observed finished, in the order it observed them: a job
    observed terminated, and the jobs still unfinished when it raises,
    are left on the cluster. *)
Theorem group_slurm_jobs_releases_finished (env : Env) (fuel : nat)
  (ssh_sess resources command work_path : string) (tasks : list string)
  (group_size : Z) (common forward backward : list string) (w w' : World)
  (out : Outcome unit) :
  _group_slurm_jobs env fuel ssh_sess resources command work_path tasks
                    group_size common forward backward w = (out, w') ->
  out = Ret tt \/ (exists r, out = Raise (terminated_error r)) \/
  out = StillWaiting ->
  exists obs,
    observed w' = observed w ++ obs /\
    cleaned w' = cleaned w ++ map fst (filter (fun o => is_finished (snd o))
                                              obs).
Proof.
  intros Hrun _.
  destruct (group_slurm_jobs_release env fuel ssh_sess resources command
              work_path tasks group_size common forward backward w)
    as (obs & Ho & Hc).
  rewrite Hrun in Ho, Hc. now exists obs.
Qed.

(** An instance: on the demonstration cluster with the second job
    terminated, the first job is released and the second is not. *)
Lemma group_slurm_jobs_releases_finished_witness :
  exists obs,
    observed (snd (_group_slurm_jobs (Demo.env (Some 1%nat)) 5
                     "cluster.example.org" "1 node" "run" "work"
                     ["0"; "1"] 1 [] ["in"] ["out"] Demo.ready))
    = observed Demo.ready ++ obs /\
    cleaned (snd (_group_slurm_jobs (Demo.env (Some 1%nat)) 5
                    "cluster.example.org" "1 node" "run" "work"
                    ["0"; "1"] 1 [] ["in"] ["out"] Demo.ready))
    = cleaned Demo.ready
      ++ map fst (filter (fun o => is_finished (snd o)) obs).
Proof.
  apply (group_slurm_jobs_releases_finished (Demo.env (Some 1%nat)) 5
           "cluster.example.org" "1 node" "run" "work" ["0"; "1"] 1 []
           ["in"] ["out"] Demo.ready _
           (Raise (terminated_error "/scratch/job.000001"))).
  - vm_compute. reflexivity.
  - right. left. now exists "/scratch/job.000001".
Defined.

(** On the demonstration cluster with the second job terminated: the
    first job is released, the second is not. *)
Example release_on_fatal_path :
  cleaned (snd (_group_slurm_jobs (Demo.env (Some 1%nat)) 5
                  "cluster.example.org" "1 node" "run" "work"
                  ["0"; "1"] 1 [] ["in"] ["out"] Demo.ready))
  = ["/scratch/job.000000"].
Proof. vm_compute. reflexivity. Qed.

(** ** The cache file under any outcome *)


(** X6. The cache file is append-only and changes together with the
    result: whatever its outcome, an evaluation leaves [dpdt.out] as it
    was, except when it returns for a point that had no cached row, and
    then it has appended exactly one row, holding the requested
    (temperature, pressure) and the two values it returns. *)
Theorem cache_changes_only_on_returned_miss (env : Env) (fuel : nat)
  (temp pres : float) (inte_dir task_path : string) (mdata : MData)
  (ssh_sess : string) (natoms : option (Z * Z)) (verbose : bool)
  (w w' : World) (out : Outcome (float * float)) :
  make_dpdt env fuel temp pres inte_dir task_path mdata ssh_sess natoms
            verbose w = (out, w') ->
  (dpdt_out w' = dpdt_out w /\
   forall c, out = Ret c -> cached_of temp pres (dpdt_out w) = Some c) \/
  (cached_of temp pres (dpdt_out w) = None /\
   exists row,
     out = Ret (dvolume row, denthalpy row) /\
     temperature row = temp /\ pressure row = pres /\
     dpdt_out w' = Some (records w ++ [row])).
Proof.
  intros Hrun. rewrite make_dpdt_eq in Hrun.
  assert (Hfail : forall e, (out, w') = (Raise e, w) ->
            dpdt_out w' = dpdt_out w /\
            forall c, out = Ret c ->
                      cached_of temp pres (dpdt_out w) = Some c).
  { intros e H. injection H as -> ->. split; [reflexivity|discriminate]. }
  destruct (task_path_isdir w); [|left; now apply Hfail with AssertionError].
  destruct (cached_of temp pres (dpdt_out w)) as [c|] eqn:Hc.
  { left. injection Hrun as <- <-. split; [reflexivity|congruence]. }
  pose proof (starting_confs_pure true inte_dir temp pres (dpdt_out w) w)
    as (_ & Hne).
  destruct (starting_confs true inte_dir temp pres (dpdt_out w) w)
    as [[confs| e |] w1]; simpl in Hne;
    [|left; now apply Hfail with e|congruence].
  rewrite run_new_task_eq in Hrun.
  destruct (in_json w) as [jdata|];
    [|left; now apply Hfail with (FileNotFoundError "in.json")].
  destruct (isfile (files w) (fst confs) && isfile (files w) "graph.pb");
    [|left; now apply Hfail with AssertionError].
  cbv zeta in Hrun.
  match type of Hrun with
  | context [if ?c then _ else _] => destruct c
  end.
  2:{ left. injection Hrun as <- <-. split; [reflexivity|discriminate]. }
  pose proof (phase_polling env fuel mdata (counter_of (dpdt_out w)) w)
    as ((_ & _ & _ & Hd & _) & _).
  destruct (wait_jobs env fuel 0 ["log.lammps"; "out.lmp"]
              (phase_job_list env mdata (counter_of (dpdt_out w))
                              (List.length (jobs w)))
              [false; false] (staged env mdata (counter_of (dpdt_out w)) w))
    as [[[]| e |] w2]; injection Hrun as <- <-; cbn [snd] in Hd;
    simpl in Hd.
  - right. split; [reflexivity|].
    exists (new_record env temp pres (counter_of (dpdt_out w)) jdata natoms).
    repeat split. unfold append_record; simpl. rewrite Hd. unfold records.
    now destruct (dpdt_out w).
  - left. split; [exact Hd|discriminate].
  - left. split; [exact Hd|discriminate].
Qed.

(** An instance: the evaluation whose second job is found terminated. *)
Lemma cache_changes_only_on_returned_miss_witness :
  dpdt_out (snd (make_dpdt (Demo.env (Some 1%nat)) 5 300 1 "t" "new_job"
                           Demo.mdata "cluster.example.org" None false
                           Demo.ready))
  = dpdt_out Demo.ready.
Proof.
  destruct (cache_changes_only_on_returned_miss (Demo.env (Some 1%nat)) 5
              300 1 "t" "new_job" Demo.mdata "cluster.example.org" None
              false Demo.ready
              (snd (make_dpdt (Demo.env (Some 1%nat)) 5 300 1 "t" "new_job"
                              Demo.mdata "cluster.example.org" None false
                              Demo.ready))
              (Raise (RuntimeError
                 "find unsuccessfully terminated job in /scratch/job.000001")))
    as [(Hd & _)|(_ & row & Habs & _)].
  - vm_compute. reflexivity.
  - exact Hd.
  - discriminate.
Defined.

(** ** Looking up what was stored *)






Lemma not_finite_cases (a : float) :
  is_finite a = false ->
  Prim2SF a = S754_nan \/ exists s, Prim2SF a = S754_infinity s.
Proof.
  unfold is_finite, is_nan, is_infinity.
  rewrite !FloatAxioms.eqb_spec, abs_spec.
  destruct (Prim2SF a) as [[]|s| |[] m e] eqn:E; intros H;
    try (now left); try (right; now exists s);
    try (vm_compute in H; discriminate).
  - exfalso. revert H. unfold SFeqb; simpl.
    rewrite Z.compare_refl.
    change (Pos.compare_cont Eq m m) with (Pos.compare m m).
    rewrite Pos.compare_refl. simpl. discriminate.
  - exfalso. revert H. unfold SFeqb; simpl.
    rewrite Z.compare_refl.
    change (Pos.compare_cont Eq m m) with (Pos.compare m m).
    rewrite Pos.compare_refl. simpl. discriminate.
Qed.

(** The distance from a NaN or an infinity is below nothing. *)
Lemma not_finite_far (a b c : float) :
  is_finite a = false -> (abs (a - b) <? c) = false.
Proof.
  intros Ha. rewrite ltb_spec, abs_spec, sub_spec.
  destruct (not_finite_cases a Ha) as [->|(s & ->)].
  - reflexivity.
  - unfold SF64sub, SFsub.
    destruct s, (Prim2SF b) as [[]|[]| |[] mb eb];
      destruct (Prim2SF c) as [[]|[]| |[] mc ec]; reflexivity.
Qed.

(** X8. A point with a NaN or infinite temperature or pressure is never
    found in the cache, whatever the cache holds: every evaluation of
    such a point is a new one. *)
Theorem non_finite_point_never_cached (temp pres : float)
  (db : option (list CacheRecord)) :
  is_finite temp = false \/ is_finite pres = false ->
  cached_of temp pres db = None.
Proof.
  intros H. destruct db as [data|]; [|reflexivity]. simpl.
  apply search_record_None. intros r _. unfold matches, norm.
  destruct H as [H|H]; rewrite (not_finite_far _ _ _ H);
    [reflexivity|apply andb_false_r].
Qed.

(** An instance: a row stored for a NaN pressure is not found again. *)
Lemma non_finite_point_never_cached_witness :
  cached_of 300 nan (Some [mkRecord 300 nan 1.5 0.25]) = None.
Proof.
  apply (non_finite_point_never_cached 300 nan
           (Some [mkRecord 300 nan 1.5 0.25])).
  right. reflexivity.
Defined.

(** ** Failures of a new evaluation before anything is dispatched *)

Lemma nearest_none_near (inte_dir : string) (temp pres : float)
  (data : list CacheRecord) (w : World) :
  inte_dir = "t" \/ inte_dir = "p" ->
  (forall r, In r data ->
             (axis_dist inte_dir temp pres r <? 1e10) = false) ->
  nearest inte_dir temp pres data w = (Raise AssertionError, w).
Proof.
  intros Hdir Hfar. unfold nearest, axis_dist in *.
  assert (Hscan : forall d,
             (forall r, In r data -> (d r <? 1e10) = false) ->
             snd (scan_nearest d data 0%Z 1e10 (-1)%Z) = (-1)%Z).
  { intros d Hd.
    destruct (scan_nearest_spec d data 0%Z 1e10 (-1)%Z)
      as [(-> & _)|(k & r & Hk & _ & Hbelow & _)]; [reflexivity|].
    apply nth_error_In in Hk. rewrite (Hd r Hk) in Hbelow. discriminate. }
  destruct Hdir as [-> | ->]; simpl in *; run_monad;
    rewrite (Hscan _ Hfar); reflexivity.
Qed.

(** X9. With a cache file present and no cached row for the point, the
    evaluation fails its assertion, before creating or submitting
    anything, whenever no row lies nearer than [1e10] along the
    integration axis; in particular whenever the cache file is empty. *)
Theorem no_near_row_fails_assertion (env : Env) (fuel : nat)
  (temp pres : float) (inte_dir task_path : string) (mdata : MData)
  (ssh_sess : string) (natoms : option (Z * Z)) (verbose : bool)
  (w : World) (data : list CacheRecord) :
  inte_dir = "t" \/ inte_dir = "p" ->
  task_path_isdir w = true ->
  dpdt_out w = Some data ->
  search_record temp pres data = None ->
  (forall r, In r data ->
             (axis_dist inte_dir temp pres r <? 1e10) = false) ->
  make_dpdt env fuel temp pres inte_dir task_path mdata ssh_sess natoms
            verbose w = (Raise AssertionError, w).
Proof.
  intros Hdir Hd Hdb Hs Hfar.
  rewrite make_dpdt_eq, Hd, Hdb. simpl. rewrite Hs.
  rewrite bind_eq, (nearest_none_near _ _ _ _ w Hdir Hfar). reflexivity.
Qed.

(** An instance: an empty cache file. *)
Lemma no_near_row_fails_assertion_witness :
  make_dpdt (Demo.env None) 5 300 1 "t" "new_job" Demo.mdata
            "cluster.example.org" None false (Demo.rows [])
  = (Raise AssertionError, Demo.rows []).
Proof.
  apply (no_near_row_fails_assertion (Demo.env None) 5 300 1 "t" "new_job"
           Demo.mdata "cluster.example.org" None false (Demo.rows []) []).
  - now left.
  - reflexivity.
  - reflexivity.
  - reflexivity.
  - intros r [].
Defined.

(** A row 1e11 away along the temperature axis is not near enough. *)
Example far_row_fails_assertion :
  make_dpdt (Demo.env None) 5 0 1 "t" "new_job" Demo.mdata
            "cluster.example.org" None false
            (Demo.rows [mkRecord 1e11 1 1.5 0.25])
  = (Raise AssertionError, Demo.rows [mkRecord 1e11 1 1.5 0.25]).
Proof. vm_compute. reflexivity. Qed.

(** X10. A new evaluation builds its two task directories one after the
    other: when the starting configuration of the second phase is
    missing, the call fails its assertion with the first task directory
    and its four files already made, and with nothing submitted and the
    cache untouched. *)
Theorem second_phase_missing_leaves_first (env : Env) (fuel : nat)
  (temp pres : float) (inte_dir task_path : string) (mdata : MData)
  (ssh_sess : string) (natoms : option (Z * Z)) (verbose : bool)
  (w : World) (confs : string * string) (jdata : JData) :
  task_path_isdir w = true ->
  cached_of temp pres (dpdt_out w) = None ->
  starting_confs true inte_dir temp pres (dpdt_out w) w = (Ret confs, w) ->
  in_json w = Some jdata ->
  isfile (files w) (fst confs) = true ->
  isfile (files w) "graph.pb" = true ->
  isfile (files w ++ task_files
                       (path_join (task_dir (counter_of (dpdt_out w))) "0"))
         (snd confs) = false ->
  exists w',
    make_dpdt env fuel temp pres inte_dir task_path mdata ssh_sess natoms
              verbose w = (Raise AssertionError, w') /\
    created w' = created w ++ [path_join (task_dir (counter_of (dpdt_out w)))
                                         "0"] /\
    (forall f,
        In f (task_files (path_join (task_dir (counter_of (dpdt_out w)))
                                    "0")) ->
        isfile (files w') f = true) /\
    jobs w' = jobs w /\
    dpdt_out w' = dpdt_out w.
Proof.
  intros Hd Hc Hconfs Hj H0 Hg H1.
  exists (built (path_join (task_dir (counter_of (dpdt_out w))) "0") w).
  assert (Hfiles : files (built (path_join (task_dir (counter_of
                                   (dpdt_out w))) "0") w)
                   = files w ++ task_files
                       (path_join (task_dir (counter_of (dpdt_out w))) "0")).
  { unfold built, task_files. simpl. now rewrite <- !app_assoc. }
  split.
  - rewrite make_dpdt_eq, Hd, Hc, Hconfs, run_new_task_eq, Hj, H0, Hg.
    cbv zeta. rewrite Hfiles, H1. reflexivity.
  - repeat split. intros f Hin. rewrite Hfiles. unfold isfile.
    apply existsb_exists. exists f. split; [|apply String.eqb_refl].
    apply in_or_app. now right.
Qed.

(** An instance: the cache names task 0 as the nearest, whose first phase
    left its final configuration and whose second did not. *)
Lemma second_phase_missing_leaves_first_witness :
  exists w',
    make_dpdt (Demo.env None) 5 340 1 "t" "new_job" Demo.mdata
              "cluster.example.org" None false
              (add_files ["database/task.000000/0/out.lmp"]
                         (Demo.rows [mkRecord 300 1 1.5 0.25]))
    = (Raise AssertionError, w') /\
    created w' = ["database/task.000001/0"] /\
    jobs w' = [] /\
    dpdt_out w' = Some [mkRecord 300 1 1.5 0.25].
Proof.
  destruct (second_phase_missing_leaves_first (Demo.env None) 5 340 1 "t"
              "new_job" Demo.mdata "cluster.example.org" None false
              (add_files ["database/task.000000/0/out.lmp"]
                         (Demo.rows [mkRecord 300 1 1.5 0.25]))
              (warm_confs 0) Demo.jdata)
    as (w' & Hrun & Hcr & _ & Hj & Hd); try reflexivity.
  exists w'. repeat split; assumption.
Defined.

(** ** Setting up the output directory *)

Lemma init_eq (pc : Constants) (jdata : JData) (mdata : MData)
  (task_path inte_dir : string) (pref : float) (natoms : option (Z * Z))
  (verbose : bool) (w : World) :
  __init__ pc jdata mdata task_path inte_dir pref natoms verbose w =
  let gdf := new_oracle pc jdata mdata task_path inte_dir pref natoms
                        verbose in
  if task_path_isdir w then (Ret gdf, add_session (machine mdata) w)
  else
    let w1 := fresh_dir task_path mdata w in
    if isfile (cwd_files w) (phase_i_equi_conf jdata) then
      if isfile (cwd_files w) (phase_ii_equi_conf jdata) then
        if isfile (cwd_files w) (model jdata) then
          (Ret gdf,
           write_in_json jdata
             (add_files ["graph.pb"]
                (add_files ["conf.1.lmp"] (add_files ["conf.0.lmp"] w1))))
        else (Raise (FileNotFoundError (model jdata)),
              add_files ["conf.1.lmp"] (add_files ["conf.0.lmp"] w1))
      else (Raise (FileNotFoundError (phase_ii_equi_conf jdata)),
            add_files ["conf.0.lmp"] w1)
    else (Raise (FileNotFoundError (phase_i_equi_conf jdata)), w1).
Proof.
  unfold __init__, _setup_dpdt, copyfile, new_oracle, fresh_dir. run_monad.
  destruct (task_path_isdir w); simpl; [reflexivity|].
  destruct (isfile (cwd_files w) (phase_i_equi_conf jdata)); simpl;
    [|reflexivity].
  destruct (isfile (cwd_files w) (phase_ii_equi_conf jdata)); simpl;
    [|reflexivity].
  destruct (isfile (cwd_files w) (model jdata)); reflexivity.
Qed.



Lemma isfile_last (fs : list string) (p : string) :
  isfile (fs ++ [p]) p = true.
Proof.
  unfold isfile. rewrite existsb_app. simpl.
  now rewrite String.eqb_refl, orb_true_r.
Qed.

(** X12. Set-up establishes what the first evaluation needs.  On a
    launch directory that holds the two starting configurations and the
    model, with no output directory yet, [__init__] returns an oracle, and
    the first call of that oracle (direction ['t'], or ['p'] with a
    [pref] other than zero) returns a slope as soon as its two jobs get
    finished within the rounds the polling may take: it has then written
    the first row of the cache, for the requested point, and made task
    directory 0 for both phases. *)
Theorem setup_then_first_call_returns (pc : Constants) (env : Env)
  (fuel B : nat) (jdata : JData) (mdata : MData)
  (task_path inte_dir : string) (pref : float) (natoms : option (Z * Z))
  (verbose : bool) (x y : float) (w : World) :
  task_path_isdir w = false ->
  dpdt_out w = None ->
  isfile (cwd_files w) (phase_i_equi_conf jdata) = true ->
  isfile (cwd_files w) (phase_ii_equi_conf jdata) = true ->
  isfile (cwd_files w) (model jdata) = true ->
  inte_dir = "t" \/ (inte_dir = "p" /\ (pref =? 0)%float = false) ->
  Forall2 (finishes_by env 0 B)
          (phase_job_list env mdata 0 (List.length (jobs w)))
          [false; false] ->
  (B <= fuel)%nat ->
  exists w1 v w2,
    __init__ pc jdata mdata task_path inte_dir pref natoms verbose w
    = (Ret (new_oracle pc jdata mdata task_path inte_dir pref natoms verbose),
       w1) /\
    __call__ env fuel
             (new_oracle pc jdata mdata task_path inte_dir pref natoms
                         verbose) x y w1
    = (Ret (Some [v]), w2) /\
    dpdt_out w2
    = Some [new_record env (if String.eqb inte_dir "t" then x else y)
                       (if String.eqb inte_dir "t" then y else x)
                       0 jdata natoms] /\
    created w2 = created w ++ [task_path; "database/task.000000/0";
                               "database/task.000000/1"].
Proof.
  intros Hd Hdb H0 H1 Hm Hdir Hjobs Hfuel.
  set (w1 := write_in_json jdata
               (add_files ["graph.pb"]
                  (add_files ["conf.1.lmp"]
                     (add_files ["conf.0.lmp"]
                        (fresh_dir task_path mdata w))))).
  assert (Hinit : __init__ pc jdata mdata task_path inte_dir pref natoms
                           verbose w
                  = (Ret (new_oracle pc jdata mdata task_path inte_dir pref
                                     natoms verbose), w1))
    by (rewrite init_eq, Hd; cbv zeta; now rewrite H0, H1, Hm).
  assert (Hdb1 : dpdt_out w1 = None) by exact Hdb.
  assert (Hgen : forall temp pres,
    exists w2,
      make_dpdt env fuel temp pres inte_dir task_path mdata (machine mdata)
                natoms verbose w1
      = (Ret (dvolume (new_record env temp pres 0 jdata natoms),
              denthalpy (new_record env temp pres 0 jdata natoms)), w2) /\
      dpdt_out w2 = Some [new_record env temp pres 0 jdata natoms] /\
      created w2 = created w ++ [task_path; "database/task.000000/0";
                                 "database/task.000000/1"]).
  { intros temp pres.
    destruct (new_evaluation_returns env fuel B temp pres inte_dir task_path
                mdata (machine mdata) natoms verbose w1
                ("conf.0.lmp", "conf.1.lmp") jdata)
      as (w2 & Hrun & Hrec); trivial.
    - now rewrite Hdb1.
    - now rewrite Hdb1.
    - simpl. apply isfile_app, isfile_app, isfile_last.
    - simpl. apply isfile_app, isfile_last.
    - simpl. apply isfile_last.
    - now rewrite Hdb1.
    - exists w2.
      assert (Hr1 : records w1 = []) by (unfold records; now rewrite Hdb1).
      rewrite Hdb1 in Hrun, Hrec. rewrite Hr1 in Hrec.
      change (counter_of None) with 0%Z in Hrun, Hrec.
      split; [exact Hrun|]. split; [exact Hrec|].
      assert (Hc : cached_of temp pres (dpdt_out w1) = None)
        by now rewrite Hdb1.
      destruct (make_dpdt_miss_Ret _ _ _ _ _ _ _ _ _ _ _ _ _ Hc Hrun)
        as (_ & Hcr).
      rewrite Hcr, Hdb1. simpl. now rewrite <- app_assoc. }
  exists w1.
  destruct Hdir as [-> | (-> & Hpref)]; simpl.
  - destruct (Hgen x y) as (w2 & Hrun & Hrec & Hcr).
    eexists. exists w2. split; [exact Hinit|].
    split; [|now split]. rewrite call_eq. simpl.
    unfold new_oracle in *. simpl. now rewrite Hrun.
  - destruct (Hgen y x) as (w2 & Hrun & Hrec & Hcr).
    eexists. exists w2. split; [exact Hinit|].
    split; [|now split]. rewrite call_eq. simpl.
    unfold new_oracle in *. simpl. now rewrite Hrun, Hpref.
Qed.

(** An instance: the launch directory of the demonstration. *)
Lemma setup_then_first_call_returns_witness :
  exists w1 v w2,
    __init__ scipy_constants Demo.jdata Demo.mdata "new_job" "p" 1 None false
             Demo.launch
    = (Ret (Demo.oracle "p"), w1) /\
    __call__ (Demo.env None) 2 (Demo.oracle "p") 1 300 w1
    = (Ret (Some [v]), w2) /\
    dpdt_out w2 = Some [mkRecord 300 1 1.5 0.25] /\
    created w2 = ["new_job"; "database/task.000000/0";
                  "database/task.000000/1"].
Proof.
  apply (setup_then_first_call_returns scipy_constants (Demo.env None) 2 2
           Demo.jdata Demo.mdata "new_job" "p" 1 None false 1 300
           Demo.launch); try reflexivity; try lia; [now right|].
  assert (Hjob : forall j : nat * RemoteJob,
             finishes_by (Demo.env None) 0 2 j false).
  { intros j. right. exists 1%nat. repeat split; try lia.
    intros k' Hk'. assert (k' = 0%nat) by lia. subst k'. discriminate. }
  unfold phase_job_list; simpl.
  apply Forall2_cons; [apply Hjob|].
  apply Forall2_cons; [apply Hjob|apply Forall2_nil].
Defined.

(** X13. A call returns Python's [None] exactly when the direction is
    neither ['t'] nor ['p'], and then it has done nothing at all; with a
    valid direction whatever it returns is a list of one slope. *)
Theorem call_returns_none_iff_invalid (env : Env) (fuel : nat)
  (self : GibbsDuhemFunc) (x y : float) (w w' : World)
  (out : Outcome (option (list float))) :
  __call__ env fuel self x y w = (out, w') ->
  (out = Ret None <->
   self_inte_dir self <> "t" /\ self_inte_dir self <> "p") /\
  (out = Ret None -> w' = w) /\
  (forall l, out = Ret (Some l) -> List.length l = 1%nat).
Proof.
  intros Hcall. rewrite call_eq in Hcall.
  destruct (String.eqb (self_inte_dir self) "t") eqn:Et;
    [|destruct (String.eqb (self_inte_dir self) "p") eqn:Ep].
  - apply String.eqb_eq in Et.
    destruct (make_dpdt env fuel x y _ _ _ _ _ _ w) as [[c| |] w2];
      injection Hcall as <- <-;
      (split; [split; [discriminate|intros (H & _); now destruct H]|]);
      (split; [discriminate|]); intros l H; try discriminate.
    now injection H as <-.
  - apply String.eqb_eq in Ep.
    destruct (make_dpdt env fuel y x _ _ _ _ _ _ w) as [[c| |] w2];
      try destruct (self_pref self =? 0)%float;
      injection Hcall as <- <-;
      (split; [split; [discriminate|intros (_ & H); now destruct H]|]);
      (split; [discriminate|]); intros l H; try discriminate.
    now injection H as <-.
  - apply String.eqb_neq in Et. apply String.eqb_neq in Ep.
    injection Hcall as <- <-. repeat split; trivial. discriminate.
Qed.

(** An instance: the direction ["T"] in capitals. *)
Lemma call_returns_none_iff_invalid_witness :
  __call__ (Demo.env None) 5 (Demo.oracle "T") 300 1 Demo.ready
  = (Ret None, Demo.ready).
Proof.
  destruct (call_returns_none_iff_invalid (Demo.env None) 5
              (Demo.oracle "T") 300 1 Demo.ready
              (snd (__call__ (Demo.env None) 5 (Demo.oracle "T") 300 1
                             Demo.ready))
              (fst (__call__ (Demo.env None) 5 (Demo.oracle "T") 300 1
                             Demo.ready)))
    as ((_ & Hnone) & Hsame & _).
  - apply surjective_pairing.
  - etransitivity; [apply surjective_pairing|].
    assert (H : fst (__call__ (Demo.env None) 5 (Demo.oracle "T") 300 1
                              Demo.ready) = Ret None)
      by (apply Hnone; split; discriminate).
    rewrite (Hsame H). now rewrite H.
Defined.

(** ** The command line *)

(** X14. With a valid direction, [_main] fails on a missing parameter
    file, and then on a missing machine file, before it opens a session
    or touches anything; and once the oracle is built, [pb.out] is written
    exactly when the integrator returns: an error of the integrator, hence
    of any oracle call it lets through, ends the program as it is. *)
Theorem main_error_order (pc : Constants) (env : Env) (fuel : nat)
  (solve_ivp : Integrator) (args : Args) (w : World) :
  direction args = "t" \/ direction args = "p" ->
  (isfile (cwd_files w) (PARAM args) = false ->
   _main pc env fuel solve_ivp args w
   = (Raise (FileNotFoundError (PARAM args)), w)) /\
  (isfile (cwd_files w) (PARAM args) = true ->
   isfile (cwd_files w) (MACHINE args) = false ->
   _main pc env fuel solve_ivp args w
   = (Raise (FileNotFoundError (MACHINE args)), w)) /\
  (isfile (cwd_files w) (PARAM args) = true ->
   isfile (cwd_files w) (MACHINE args) = true ->
   forall gdf w1 o w2,
     __init__ pc (load_jdata env (PARAM args))
              (load_mdata env (MACHINE args)) (output args) (direction args)
              1
              (if water args
               then Some ((get_natoms env (phase_i_equi_conf
                             (load_jdata env (PARAM args))) / 3)%Z,
                          (get_natoms env (phase_ii_equi_conf
                             (load_jdata env (PARAM args))) / 3)%Z)
               else None)
              (verbose args) w = (Ret gdf, w1) ->
     solve_ivp (__call__ env fuel gdf) (arg_begin args) (arg_end args)
               (initial_value args) (step_value args) (abs_tol args)
               (rel_tol args) w1 = (o, w2) ->
     _main pc env fuel solve_ivp args w
     = match o with
       | Ret _ => (Ret tt, add_files ["pb.out"] w2)
       | Raise e => (Raise e, w2)
       | StillWaiting => (StillWaiting, w2)
       end).
Proof.
  intros Hdir.
  assert (Hchk : existsb (String.eqb (direction args)) ["t"; "p"] = true)
    by (destruct Hdir as [-> | ->]; reflexivity).
  unfold _main, check_direction, open_json. rewrite Hchk. run_monad.
  split; [|split].
  - intros ->. reflexivity.
  - intros -> Hm. simpl. now rewrite Hm.
  - intros -> Hm gdf w1 o w2 Hinit Hsolve. simpl. rewrite Hm. simpl.
    rewrite Hinit, Hsolve. destruct o; reflexivity.
Qed.

(** An instance: the machine file is not in the launch directory. *)
Lemma main_error_order_witness :
  _main scipy_constants (Demo.env None) 5 Demo.one_step (Demo.args "p")
        (mkWorld ["in.json"; "ice.lmp"; "water.lmp"; "frozen_model.pb"]
                 false [] None None [] [] [] [] [] 0)
  = (Raise (FileNotFoundError "machine.json"),
     mkWorld ["in.json"; "ice.lmp"; "water.lmp"; "frozen_model.pb"]
             false [] None None [] [] [] [] [] 0).
Proof.
  apply (main_error_order scipy_constants (Demo.env None) 5 Demo.one_step
           (Demo.args "p")
           (mkWorld ["in.json"; "ice.lmp"; "water.lmp"; "frozen_model.pb"]
                    false [] None None [] [] [] [] [] 0));
    [now right|reflexivity|reflexivity].
Defined.

(** ** Task directory names *)

Lemma string_length_app (a b : string) :
  String.length (a ++ b) = (String.length a + String.length b)%nat.
Proof. induction a as [|c a IH]; simpl; auto. Qed.

Lemma zeros_length (n : nat) : String.length (zeros n) = n.
Proof. induction n; simpl; auto. Qed.

Lemma string_app_inv_head (s a b : string) :
  (s ++ a = s ++ b)%string -> a = b.
Proof.
  induction s as [|c s IH]; simpl; intros H; [exact H|].
  injection H as H. now apply IH.
Qed.

Lemma parse_zeros (k : nat) (s : string) :
  parse_index (zeros k ++ s) = parse_index s.
Proof.
  unfold parse_index. induction k as [|k IH]; simpl; [reflexivity|].
  destruct (NilEmpty.uint_of_string (zeros k ++ s)) as [d|] eqn:E;
    destruct (NilEmpty.uint_of_string s) as [d'|]; simpl in *;
    try discriminate; try reflexivity; exact IH.
Qed.

Lemma parse_digits (d : Decimal.uint) :
  parse_index (NilZero.string_of_uint d) = Some (N.of_uint d).
Proof.
  unfold parse_index, NilZero.string_of_uint.
  destruct d; try (rewrite NilEmpty.usu; reflexivity). reflexivity.
Qed.

(** X15. Task directory names determine their index: the digits of
    ['task.%06d' % n] read back as [n] for every n >= 0 (a negative index
    does not read back), the name has at least six characters after
    [task.], and two different indices never give the same directory. *)
Theorem task_dir_names_index :
  (forall z, (0 <= z)%Z -> parse_index (fmt_06d z) = Some (Z.to_N z)) /\
  (forall z, (z < 0)%Z -> parse_index (fmt_06d z) = None) /\
  (forall z, (6 <= String.length (fmt_06d z))%nat) /\
  (forall a b, (0 <= a)%Z -> (0 <= b)%Z -> task_dir a = task_dir b -> a = b).
Proof.
  assert (Hparse : forall z, (0 <= z)%Z ->
             parse_index (fmt_06d z) = Some (Z.to_N z)).
  { intros z Hz. unfold fmt_06d.
    replace (z <? 0)%Z with false by (symmetry; apply Z.ltb_ge; lia).
    unfold zfill. rewrite parse_zeros, parse_digits.
    rewrite DecimalN.Unsigned.of_to. f_equal.
    rewrite <- (Z2N.id z Hz) at 1. now rewrite Zabs2N.id. }
  split; [exact Hparse|]. split; [|split].
  - intros z Hz. unfold fmt_06d.
    replace (z <? 0)%Z with true by (symmetry; apply Z.ltb_lt; lia).
    unfold parse_index. simpl.
    now destruct (NilEmpty.uint_of_string _).
  - intros z. unfold fmt_06d, zfill.
    destruct (z <? 0)%Z;
      rewrite !string_length_app, zeros_length;
      change (String.length "-") with 1%nat; lia.
  - intros a b Ha Hb H. unfold task_dir, path_join in H.
    apply (string_app_inv_head "database") in H.
    apply (string_app_inv_head "/") in H.
    apply (string_app_inv_head "task.") in H.
    pose proof (Hparse a Ha) as Pa. pose proof (Hparse b Hb) as Pb.
    rewrite H, Pb in Pa. injection Pa as Pa. now apply Z2N.inj.
Qed.

(** ** What a run leaves behind *)

Lemma wait_jobs_files (env : Env) (backward : list string) (fuel : nat)
  (job_list : list (nat * RemoteJob)) :
  forall (k : nat) (job_fin : list bool) (w w' : World),
    Forall2 (done_in backward w) job_list job_fin ->
    wait_jobs env fuel k backward job_list job_fin w = (Ret tt, w') ->
    incl (files w) (files w').
Proof.
  induction fuel as [|fuel IH]; intros k job_fin w w' Hd Hrun;
    simpl in Hrun;
    destruct (forallb (fun b => b) job_fin); try discriminate;
    try (injection Hrun as <-; apply incl_refl).
  rewrite bind_eq in Hrun.
  destruct (poll_round env k backward job_list job_fin w)
    as [[fin'| |] w1] eqn:Ep; try discriminate.
  destruct (poll_round_done _ _ _ _ _ _ _ _ Hd Ep) as (Hf & _ & Hd1 & _).
  rewrite bind_eq in Hrun. unfold modify at 1 in Hrun.
  apply incl_tran with (files w1); [exact Hf|].
  apply (IH (S k) fin' (add_slept 30 w1) w'); [exact Hd1|exact Hrun].
Qed.

Lemma isfile_incl (fs fs' : list string) (p : string) :
  incl fs fs' -> isfile fs p = true -> isfile fs' p = true.
Proof.
  unfold isfile. intros Hi H. apply existsb_exists in H.
  destruct H as (q & Hq & He). apply existsb_exists. exists q.
  split; [now apply Hi|exact He].
Qed.

(** A returned new evaluation is the polling of its two jobs, returned,
    followed by the append. *)
Lemma make_dpdt_miss_world (env : Env) (fuel : nat) (temp pres : float)
  (inte_dir task_path : string) (mdata : MData) (ssh_sess : string)
  (natoms : option (Z * Z)) (verbose : bool) (w w' : World)
  (c : float * float) :
  cached_of temp pres (dpdt_out w) = None ->
  make_dpdt env fuel temp pres inte_dir task_path mdata ssh_sess natoms
            verbose w = (Ret c, w') ->
  exists jdata w2,
    wait_jobs env fuel 0 ["log.lammps"; "out.lmp"]
              (phase_job_list env mdata (counter_of (dpdt_out w))
                              (List.length (jobs w)))
              [false; false] (staged env mdata (counter_of (dpdt_out w)) w)
    = (Ret tt, w2) /\
    w' = append_record (new_record env temp pres (counter_of (dpdt_out w))
                                   jdata natoms) w2.
Proof.
  intros Hc Hrun.
  pose proof (make_dpdt_cases env fuel temp pres inte_dir task_path mdata
                ssh_sess natoms verbose w) as H.
  cbv zeta in H. rewrite Hrun in H. cbn [fst snd] in H.
  destruct H as [(e & Habs & _)|[(c0 & Habs & _)|(jdata & _ & _ & Hres)]];
    try discriminate; try congruence.
  exists jdata.
  destruct (wait_jobs env fuel 0 ["log.lammps"; "out.lmp"] _ _ _)
    as [[[]| e |] w2]; try discriminate.
  exists w2. injection Hres as _ ->. now split.
Qed.

(** What a returned new evaluation adds to the files: nothing is lost,
    and the final configurations of both phases of its task are there. *)
Lemma make_dpdt_miss_files (env : Env) (fuel : nat) (temp pres : float)
  (inte_dir task_path : string) (mdata : MData) (ssh_sess : string)
  (natoms : option (Z * Z)) (verbose : bool) (w w' : World)
  (c : float * float) :
  cached_of temp pres (dpdt_out w) = None ->
  make_dpdt env fuel temp pres inte_dir task_path mdata ssh_sess natoms
            verbose w = (Ret c, w') ->
  incl (files w) (files w') /\
  isfile (files w') (fst (warm_confs (counter_of (dpdt_out w)))) = true /\
  isfile (files w') (snd (warm_confs (counter_of (dpdt_out w)))) = true.
Proof.
  intros Hc Hrun.
  destruct (make_dpdt_miss_world _ _ _ _ _ _ _ _ _ _ _ _ _ Hc Hrun)
    as (jdata & w2 & Hw & ->).
  destruct (none_done ["log.lammps"; "out.lmp"]
                      (staged env mdata (counter_of (dpdt_out w)) w)
                      (phase_job_list env mdata (counter_of (dpdt_out w))
                                      (List.length (jobs w))))
    as (Hnone & _).
  pose proof (wait_jobs_files _ _ _ _ _ _ _ _ Hnone Hw) as Hincl.
  destruct (wait_jobs_done _ _ _ _ _ _ _ _ Hnone Hw) as (Hdone & _).
  rewrite Forall_forall in Hdone.
  assert (Hfile : forall p j,
    In j (phase_job_list env mdata (counter_of (dpdt_out w))
                         (List.length (jobs w))) ->
    In p (downloaded (snd j) ["log.lammps"; "out.lmp"]) ->
    isfile (files w2) p = true).
  { intros p j Hj Hp. destruct (Hdone j Hj eq_refl) as (_ & Hd).
    unfold isfile. apply existsb_exists. exists p.
    split; [now apply Hd|apply String.eqb_refl]. }
  split; [|split].
  - simpl files. apply incl_tran with
      (files (staged env mdata (counter_of (dpdt_out w)) w)); [|exact Hincl].
    unfold staged; simpl. do 6 apply incl_appl. apply incl_refl.
  - simpl files. eapply Hfile.
    + unfold phase_job_list; simpl. left. reflexivity.
    + simpl. right. left. reflexivity.
  - simpl files. eapply Hfile.
    + unfold phase_job_list; simpl. right. left. reflexivity.
    + simpl. right. left. reflexivity.
Qed.

Lemma counter_of_records (w : World) :
  counter_of (dpdt_out w) = Z.of_nat (List.length (records w)).
Proof. unfold counter_of, records. now destruct (dpdt_out w). Qed.

(** X16.  The warm-start files are there when they are needed.  If the
    final configurations of both phases exist for every cached row when a
    run starts (in particular when it starts without a cache file), they
    exist for every cached row after any number of returned evaluations,
    because a new evaluation returns only after both of its jobs have
    downloaded [out.lmp]; so whichever row the nearest search of the next
    new evaluation picks, the two configurations it names are files. *)
Theorem warm_start_files_exist (env : Env) (w0 w : World) (n : nat) :
  warm_files_ok w0 ->
  run env w0 n w ->
  warm_files_ok w /\
  forall inte_dir temp pres data confs w',
    inte_dir = "t" \/ inte_dir = "p" ->
    dpdt_out w = Some data ->
    starting_confs true inte_dir temp pres (Some data) w = (Ret confs, w') ->
    isfile (files w) (fst confs) = true /\
    isfile (files w) (snd confs) = true.
Proof.
  intros H0 Hrun.
  assert (Hok : warm_files_ok w).
  { induction Hrun as [w | w n w1 fuel temp pres inte_dir task_path mdata
                         ssh_sess natoms verbose c r w2 Hrun IH Hc Hcall
                      | w n w1 fuel temp pres inte_dir task_path mdata
                         ssh_sess natoms verbose r w2 Hrun IH Hc Hcall].
    - exact H0.
    - destruct (make_dpdt_hit_Ret _ _ _ _ _ _ _ _ _ _ _ _ _ _ Hc Hcall)
        as (_ & ->). now apply IH.
    - specialize (IH H0).
      destruct (make_dpdt_miss_Ret _ _ _ _ _ _ _ _ _ _ _ _ _ Hc Hcall)
        as ((rn & _ & _ & _ & Hd) & _).
      destruct (make_dpdt_miss_files _ _ _ _ _ _ _ _ _ _ _ _ _ Hc Hcall)
        as (Hincl & Hf0 & Hf1).
      rewrite counter_of_records in Hf0, Hf1.
      assert (Hrec : records w2 = records w1 ++ [rn])
        by (unfold records at 1; now rewrite Hd).
      intros k Hk. rewrite Hrec, length_app in Hk. simpl in Hk.
      destruct (Nat.eq_dec k (List.length (records w1))) as [->|Hne].
      + now split.
      + destruct (IH k ltac:(lia)) as (Ha & Hb).
        split; eapply isfile_incl; eauto. }
  split; [exact Hok|].
  intros inte_dir temp pres data confs w' Hdir Hdb Hs.
  unfold starting_confs in Hs. rewrite bind_eq in Hs.
  destruct (nearest inte_dir temp pres data w) as [[i| |] w1] eqn:Hn;
    try discriminate.
  destruct (nearest_Ret _ _ _ _ _ _ _ Hdir Hn)
    as (-> & k & r & -> & Hnth & _).
  injection Hs as <- _.
  apply (Hok k). unfold records. rewrite Hdb.
  apply nth_error_Some. congruence.
Qed.

Lemma warm_start_files_exist_witness :
  warm_files_ok Demo.ready /\
  run (Demo.env None) Demo.ready 1 Demo.after_first /\
  warm_files_ok Demo.after_first.
Proof.
  assert (H0 : warm_files_ok Demo.ready)
    by (intros k Hk; simpl in Hk; lia).
  assert (Hrun : run (Demo.env None) Demo.ready 1 Demo.after_first).
  { apply (run_miss (Demo.env None) Demo.ready 0 Demo.ready 5
                    300 1 "t" "new_job" Demo.mdata "cluster.example.org"
                    None false (1.5, 0.25) Demo.after_first).
    - apply run_start.
    - reflexivity.
    - vm_compute. reflexivity. }
  split; [exact H0|]. split; [exact Hrun|].
  exact (proj1 (warm_start_files_exist (Demo.env None) Demo.ready
                                       Demo.after_first 1 H0 Hrun)).
Defined.

Lemma task_dirs_of_S (m n : nat) :
  task_dirs_of m (S n)
  = task_dirs_of m n ++ [path_join (task_dir (Z.of_nat (m + n))) "0";
                         path_join (task_dir (Z.of_nat (m + n))) "1"].
Proof.
  unfold task_dirs_of. now rewrite seq_S, flat_map_app.
Qed.

(** X17.  The trail a run leaves.  After a run with [n] new evaluations
    (and any number of cache hits in between), the directories created
    are those at the start followed by the two phase directories of the
    tasks numbered from the initial row count on, in order and without
    gaps, and exactly [2 * n] more jobs have been submitted: a cache hit
    creates nothing and submits nothing. *)
Theorem run_trail (env : Env) (w0 w : World) (n : nat) :
  run env w0 n w ->
  created w = created w0 ++ task_dirs_of (List.length (records w0)) n /\
  List.length (jobs w) = (List.length (jobs w0) + 2 * n)%nat.
Proof.
  intros Hrun.
  induction Hrun as [w | w n w1 fuel temp pres inte_dir task_path mdata
                       ssh_sess natoms verbose c r w2 Hrun IH Hc Hcall
                    | w n w1 fuel temp pres inte_dir task_path mdata
                       ssh_sess natoms verbose r w2 Hrun IH Hc Hcall].
  - split; [|lia]. unfold task_dirs_of. simpl. now rewrite app_nil_r.
  - destruct (make_dpdt_hit_Ret _ _ _ _ _ _ _ _ _ _ _ _ _ _ Hc Hcall)
      as (_ & ->). exact IH.
  - destruct IH as (Hcr & Hj).
    destruct (run_records _ _ _ _ Hrun) as (Hlen & _).
    destruct (make_dpdt_jobs _ _ _ _ _ _ _ _ _ _ _ _ _ Hc Hcall)
      as [[((e & He) & _)|((e & He) & _)]|(Hjobs & Hcr2 & _)];
      try discriminate.
    rewrite counter_of_records, Hlen in Hcr2.
    split.
    + rewrite Hcr2, Hcr, task_dirs_of_S, app_assoc. reflexivity.
    + rewrite Hjobs, length_app, Hj. unfold phase_jobs. simpl. lia.
Qed.

Lemma run_trail_witness :
  created Demo.after_first
  = created Demo.ready ++ ["database/task.000000/0";
                           "database/task.000000/1"] /\
  List.length (jobs Demo.after_first) = 2%nat.
Proof.
  apply (run_trail (Demo.env None) Demo.ready Demo.after_first 1).
  apply (run_miss (Demo.env None) Demo.ready 0 Demo.ready 5
                  300 1 "t" "new_job" Demo.mdata "cluster.example.org"
                  None false (1.5, 0.25) Demo.after_first).
  - apply run_start.
  - reflexivity.
  - vm_compute. reflexivity.
Defined.
